(** * liteshow: the Turso database-name migration script

    A shallow embedding of [scripts/migrate_turso_db_names.py] and the
    properties of its per-project migration ([migrate_project]), of the
    data copy ([copy_turso_data]) and of the fleet loop ([main]).

    The script talks to three services: the Turso control plane (HTTP),
    the per-project libSQL databases (SQL) and the PostgreSQL catalog.
    They are modelled as an environment [Env] of answers the script cannot
    influence and a state [State] of what the script can change or leave
    behind: the databases that exist, the statements written, the catalog
    rows, the calls made and the lines printed.  Python code becomes a
    state-and-exception monad [M] over that state. *)

From Stdlib Require Import Ascii String List ZArith Bool Arith Lia DecimalString.
Import ListNotations.
Local Open Scope list_scope.
Local Open Scope string_scope.

Set Implicit Arguments.

(** ** Python strings *)

(** The newline of ["\n"] and the double quote of [f'"{col}"']. *)
Definition nl : string := String (Ascii.ascii_of_nat 10) EmptyString.
Definition dquote : string := String (Ascii.ascii_of_nat 34) EmptyString.

(** [str(n)] for a length. *)
Definition str_nat (n : nat) : string := NilEmpty.string_of_uint (Nat.to_uint n).

(** [f"{x}"] for a nullable column: [None] prints as [None]. *)
Definition str_opt (x : option string) : string :=
  match x with
  | Some s => s
  | None => "None"
  end.

(** Truthiness of a nullable string: [None] and [''] are falsy. *)
Definition truthy (x : option string) : bool :=
  match x with
  | Some s => negb (s =? "")
  | None => false
  end.

(** [sep.join(l)]. *)
Definition join (sep : string) (l : list string) : string := String.concat sep l.

(** ** Exceptions *)

Inductive ExcClass : Type :=
| ExceptionC        (* raise Exception(...) *)
| ImportErrorC      (* from libsql_client import ... *)
| KeyErrorC         (* d[k], row[col] *)
| ConnectionErrorC  (* requests.get / post / delete *)
| DatabaseErrorC    (* libsql and psycopg2 errors *)
| RuntimeErrorC     (* asyncio without a running event loop *)
| SystemExitC.      (* sys.exit(1): a BaseException, not an Exception *)

(** An exception: its class and its argument, [Exception(arg)]. *)
Record Exc : Type := mkExc { exc_class : ExcClass; exc_arg : string }.

(** [c in s] for a character. *)
Fixpoint string_mem (c : ascii) (s : string) : bool :=
  match s with
  | EmptyString => false
  | String c' s' => Ascii.eqb c c' || string_mem c s'
  end.

Definition hex_digit (n : nat) : ascii :=
  nth n (list_ascii_of_string "0123456789abcdef") "0"%char.

(** One character of [repr(s)] between the quotes [quote]: the quote and
    the backslash are escaped, tab, newline and carriage return are written
    [\t], [\n], [\r], the other control characters [\xhh]; the rest is
    kept.  Characters outside ASCII are kept too: Python keeps those that
    are printable and escapes the others. *)
Definition repr_char (quote c : ascii) : string :=
  let n := nat_of_ascii c in
  if Ascii.eqb c quote || Ascii.eqb c "\"%char then String "\" (String c EmptyString)
  else if (n =? 9)%nat then "\t"
  else if (n =? 10)%nat then "\n"
  else if (n =? 13)%nat then "\r"
  else if (n <? 32)%nat || (n =? 127)%nat
       then "\x" ++ String (hex_digit (n / 16)) (String (hex_digit (n mod 16)) EmptyString)
  else String c EmptyString.

Fixpoint repr_chars (quote : ascii) (s : string) : string :=
  match s with
  | EmptyString => EmptyString
  | String c s' => repr_char quote c ++ repr_chars quote s'
  end.

(** [repr(s)] of a [str]: in apostrophes, or in double quotes when the
    string holds an apostrophe and no double quote. *)
Definition py_repr (s : string) : string :=
  let apostrophe := "'"%char in
  let double := Ascii.ascii_of_nat 34 in
  let quote := if string_mem apostrophe s && negb (string_mem double s)
               then double else apostrophe in
  String quote (repr_chars quote s ++ String quote EmptyString).

(** [str(e)]: the argument, and for a [KeyError] the repr of the key. *)
Definition exc_str (e : Exc) : string :=
  match exc_class e with
  | KeyErrorC => py_repr (exc_arg e)
  | _ => exc_arg e
  end.

(** [except Exception] catches everything but [SystemExit]. *)
Definition is_Exception (e : Exc) : bool :=
  match exc_class e with
  | SystemExitC => false
  | _ => true
  end.

Definition is_ImportError (e : Exc) : bool :=
  match exc_class e with
  | ImportErrorC => true
  | _ => false
  end.

(** [KeyError(k)], as [d[k]] raises it for a missing key. *)
Definition KeyError (k : string) : Exc := mkExc KeyErrorC k.

(** ** The control plane: requests and responses *)

Inductive Request : Type :=
| GetDatabase (org name : string)
| PostDatabase (org name group : string)
| PostAuthToken (org name expiration authorization : string)
| DeleteDatabase (org name : string).

(** What the script reads of a response: the status, the text, and of
    the JSON body the member [database] ([None] when the body has none)
    with its [Hostname] ([Some None] when the database object has none),
    and the member [jwt]. *)
Record Response : Type := mkResponse {
  status_code : Z;
  text : string;
  json_database : option (option string);
  json_jwt : option string
}.

(** [response.ok]: the status is not a 4xx or 5xx. *)
Definition ok (r : Response) : bool :=
  negb ((400 <=? status_code r)%Z && (status_code r <? 600)%Z).

(** [requests] either returns a response or raises (connection refused,
    timeout, ...). *)
Inductive HttpResult : Type :=
| Responds (r : Response)
| Unreachable (msg : string).

(** ** The data plane: rows and statements *)

Inductive Value : Type :=
| VNull
| VInt (z : Z)
| VReal (repr : string)
| VText (s : string)
| VBlob (b : string).

(** A row of a result set: column names, in the order the source returns
    them, with their values. *)
Definition Row : Type := list (string * Value).

(** [row.keys()] *)
Definition keys (r : Row) : list string := map fst r.

(** [row[col]], [None] when the row has no such column. *)
Fixpoint row_get (r : Row) (col : string) : option Value :=
  match r with
  | [] => None
  | (c, v) :: r' => if c =? col then Some v else row_get r' col
  end.

(** A statement sent to the destination: [execute(sql, args)]. *)
Record Stmt : Type := mkStmt { stmt_sql : string; stmt_args : list Value }.

Inductive SqlResult (A : Type) : Type :=
| Rows (a : A)
| SqlError (msg : string).
Arguments Rows {A} a.
Arguments SqlError {A} msg.

(** ** The catalog: one row of [projects] *)

Record Project : Type := mkProject {
  project_id : string;
  name : string;
  slug : string;
  turso_db_url : option string;
  turso_db_token : option string
}.

(** ** Calls, environment and state *)

Inductive Call : Type :=
| Http (bearer : string) (req : Request)
| SqlRead (url sql : string)
| SqlWrite (url : string) (stmt : Stmt)
| PgSelectProjects
| PgUpdateProject (id new_url new_token : string).

(** The calls that change something outside the script. *)
Definition mutating (c : Call) : bool :=
  match c with
  | Http _ (GetDatabase _ _) => false
  | Http _ _ => true
  | SqlRead _ _ => false
  | SqlWrite _ _ => true
  | PgSelectProjects => false
  | PgUpdateProject _ _ _ => true
  end.

(** What the script cannot influence.

    - [cp_fault]: a request the control plane answers out of turn (an
      authorization failure, a server error, no answer at all), leaving its
      databases as they are; [None] when it serves the request;
    - [cp_hostname], [cp_jwt]: the host name the control plane gives a new
      database and the token it issues;
    - [libsql_installed]: whether [from libsql_client import create_client]
      succeeds;
    - [dp_connect url]: the error with which [create_client(url=url, ...)]
      raises, [None] when it returns a client.  The [create_client] of
      [libsql_client] builds the asyncio client, which needs a running
      event loop: called from synchronous code, as the script does, it
      raises [RuntimeError('no running event loop')] for every url.  The
      three answers below are read the way the script reads them: as the
      result sets of a client that was built, that answers [execute] at
      once and whose rows are dicts;
    - [dp_tables url]: the [name] column of
      [SELECT name FROM sqlite_master WHERE type='table'] at [url];
    - [dp_schema url t]: the [sql] column of
      [SELECT sql FROM sqlite_master WHERE type='table' AND name='t'];
    - [dp_select url t]: the rows of [SELECT * FROM t];
    - [dp_reject url done stmt]: the error of a statement the database at
      [url] refuses after the statements [done];
    - [pg_select_fault], [pg_update_fault]: the error of a catalog query
      that fails;
    - [env_*]: the process environment. *)
Record Env : Type := mkEnv {
  cp_fault : Request -> option HttpResult;
  cp_hostname : string -> string -> string;
  cp_jwt : string -> string -> string;
  libsql_installed : bool;
  dp_connect : string -> option string;
  dp_tables : string -> SqlResult (list string);
  dp_schema : string -> string -> SqlResult (list string);
  dp_select : string -> string -> SqlResult (list Row);
  dp_reject : string -> list Stmt -> Stmt -> option string;
  pg_select_fault : option string;
  pg_update_fault : string -> option string;
  env_TURSO_API_TOKEN : option string;
  env_TURSO_ORG : option string;
  env_DATABASE_URL : option string
}.

(** What the script changes or leaves behind (lists grow at the end). *)
Record State : Type := mkState {
  cp_dbs : list (string * string);       (* (organization, name) of the databases that exist *)
  dp_written : list (string * Stmt);     (* statements the data plane accepted, by url *)
  pg_projects : list Project;            (* the catalog, ORDER BY created_at ASC *)
  calls : list Call;                     (* every remote call made *)
  stdout : list string                   (* every line printed *)
}.

Definition set_cp_dbs (s : State) (v : list (string * string)) : State :=
  mkState v (dp_written s) (pg_projects s) (calls s) (stdout s).
Definition set_dp_written (s : State) (v : list (string * Stmt)) : State :=
  mkState (cp_dbs s) v (pg_projects s) (calls s) (stdout s).
Definition set_pg_projects (s : State) (v : list Project) : State :=
  mkState (cp_dbs s) (dp_written s) v (calls s) (stdout s).
Definition add_call (s : State) (c : Call) : State :=
  mkState (cp_dbs s) (dp_written s) (pg_projects s) (calls s ++ [c])%list (stdout s).
Definition add_line (s : State) (l : string) : State :=
  mkState (cp_dbs s) (dp_written s) (pg_projects s) (calls s) (stdout s ++ [l])%list.

(** ** The monad of the script: state and exceptions *)

Inductive Res (A : Type) : Type :=
| Ret (a : A)
| Raise (e : Exc).
Arguments Ret {A} a.
Arguments Raise {A} e.

Definition M (A : Type) : Type := State -> Res A * State.

Definition ret {A} (a : A) : M A := fun s => (Ret a, s).

Definition raise {A} (e : Exc) : M A := fun s => (Raise e, s).

Definition bind {A B} (m : M A) (k : A -> M B) : M B :=
  fun s =>
    match m s with
    | (Ret a, s') => k a s'
    | (Raise e, s') => (Raise e, s')
    end.

Notation "x <- m ;; k" := (bind m (fun x => k))
  (at level 61, m at next level, right associativity).
Notation "m ;; k" := (bind m (fun _ => k))
  (at level 61, right associativity).

(** [try: body / except <catches> as e: handler e]; state changes made before
    the exception stay. *)
Definition try_except {A} (body : M A) (catches : Exc -> bool) (handler : Exc -> M A) : M A :=
  fun s =>
    match body s with
    | (Ret a, s') => (Ret a, s')
    | (Raise e, s') => if catches e then handler e s' else (Raise e, s')
    end.

(** [for x in l: body x] *)
Fixpoint for_each {A} (l : list A) (body : A -> M unit) : M unit :=
  match l with
  | [] => ret tt
  | x :: l' => body x ;; for_each l' body
  end.

(** [[f x for x in l]] where [f] may raise. *)
Fixpoint map_m {A B} (f : A -> M B) (l : list A) : M (list B) :=
  match l with
  | [] => ret []
  | x :: l' => y <- f x ;; ys <- map_m f l' ;; ret (y :: ys)
  end.

Definition print (line : string) : M unit := fun s => (Ret tt, add_line s line).

Definition log_call (c : Call) : M unit := fun s => (Ret tt, add_call s c).

(** ** The services *)

Section Script.

Variable E : Env.

(** The databases of the control plane are named within an organization. *)
Definition db_eqb (a b : string * string) : bool :=
  (fst a =? fst b) && (snd a =? snd b).

Definition db_present (dbs : list (string * string)) (org name : string) : bool :=
  existsb (db_eqb (org, name)) dbs.

Definition db_remove (dbs : list (string * string)) (org name : string) : list (string * string) :=
  filter (fun d => negb (db_eqb (org, name) d)) dbs.

(** Modelled from the spec: the control-plane service (spec 3, Database
    Instance, and spec 6, Control-Plane Client), which the script calls over
    HTTP and which is not part of the repository.  A database is absent or
    present under a name unique in its organization; [exists] answers 200
    for a present database and 404 otherwise; [create] makes an absent
    database present and answers with its host name, and refuses a present
    one (409); [issueToken] answers with a token for a present database;
    [delete] makes a present database absent and answers 404 for an absent
    one.  A request listed in [cp_fault] gets that answer instead and
    changes nothing. *)
Definition serve (req : Request) (dbs : list (string * string))
  : HttpResult * list (string * string) :=
  match cp_fault E req with
  | Some answer => (answer, dbs)
  | None =>
    match req with
    | GetDatabase org name =>
      if db_present dbs org name
      then (Responds (mkResponse 200 "" (Some (Some (cp_hostname E org name))) None), dbs)
      else (Responds (mkResponse 404 "database not found" None None), dbs)
    | PostDatabase org name _ =>
      if db_present dbs org name
      then (Responds (mkResponse 409 "database already exists" None None), dbs)
      else (Responds (mkResponse 200 "" (Some (Some (cp_hostname E org name))) None),
            (dbs ++ [(org, name)])%list)
    | PostAuthToken org name _ _ =>
      if db_present dbs org name
      then (Responds (mkResponse 200 "" None (Some (cp_jwt E org name))), dbs)
      else (Responds (mkResponse 404 "database not found" None None), dbs)
    | DeleteDatabase org name =>
      if db_present dbs org name
      then (Responds (mkResponse 200 "" None None), db_remove dbs org name)
      else (Responds (mkResponse 404 "database not found" None None), dbs)
    end
  end.

(** [requests.get/post/delete(url, headers={'Authorization': f'Bearer {api_token}'}, ...)] *)
Definition http (api_token : string) (req : Request) : M Response :=
  fun s =>
    let s1 := add_call s (Http api_token req) in
    match serve req (cp_dbs s) with
    | (Responds r, dbs') => (Ret r, set_cp_dbs s1 dbs')
    | (Unreachable msg, dbs') => (Raise (mkExc ConnectionErrorC msg), set_cp_dbs s1 dbs')
    end.

(** [create_client(url=url, auth_token=auth_token)]: the client, known by
    its url, or the error of its construction. *)
Definition create_client (url : string) (auth_token : option string) : M string :=
  match dp_connect E url with
  | Some msg => raise (mkExc RuntimeErrorC msg)
  | None => ret url
  end.

(** [client.execute(sql)] on the source, answered by the environment. *)
Definition client_query {A} (url sql : string) (answer : SqlResult A) : M A :=
  log_call (SqlRead url sql) ;;
  match answer with
  | Rows a => ret a
  | SqlError msg => raise (mkExc DatabaseErrorC msg)
  end.

(** The statements the database at [url] has accepted so far. *)
Definition written_at (url : string) (w : list (string * Stmt)) : list Stmt :=
  map snd (filter (fun us => fst us =? url) w).

(** [client.execute(sql, args)] on the destination. *)
Definition client_execute (url : string) (stmt : Stmt) : M unit :=
  fun s =>
    let s1 := add_call s (SqlWrite url stmt) in
    match dp_reject E url (written_at url (dp_written s)) stmt with
    | Some msg => (Raise (mkExc DatabaseErrorC msg), s1)
    | None => (Ret tt, set_dp_written s1 (dp_written s ++ [(url, stmt)])%list)
    end.

(** ** [check_turso_db_exists] *)

Definition check_turso_db_exists (db_name api_token org : string) : M bool :=
  response <- http api_token (GetDatabase org db_name) ;;
  ret (status_code response =? 200)%Z.

(** ** [create_turso_db] *)

Definition create_turso_db (db_name api_token org : string) : M (string * string) :=
  response <- http api_token (PostDatabase org db_name "liteshow") ;;
  if negb (ok response)
  then raise (mkExc ExceptionC
                ("Failed to create database " ++ db_name ++ ": " ++ text response))
  else
    match json_database response with
    | None => raise (KeyError "database")
    | Some None => raise (KeyError "Hostname")
    | Some (Some hostname) =>
      token_response <- http api_token (PostAuthToken org db_name "never" "full-access") ;;
      if negb (ok token_response)
      then raise (mkExc ExceptionC
                    ("Failed to create auth token for " ++ db_name ++ ": "
                     ++ text token_response))
      else
        match json_jwt token_response with
        | None => raise (KeyError "jwt")
        | Some auth_token => ret (hostname, auth_token)
        end
    end.

(** ** [copy_turso_data] *)

Definition batch_size : nat := 100.

(** [range(0, stop, step)] for a positive step. *)
Definition py_range (stop step : nat) : list nat :=
  map (fun k => k * step) (seq 0 ((stop + step - 1) / step)).

(** [rows[i:j]] *)
Definition slice {A} (l : list A) (i j : nat) : list A := firstn (j - i) (skipn i l).

Definition list_tables_sql : string :=
  "SELECT name FROM sqlite_master WHERE type='table'".
Definition schema_sql (table : string) : string :=
  "SELECT sql FROM sqlite_master WHERE type='table' AND name='" ++ table ++ "'".
Definition select_sql (table : string) : string :=
  "SELECT * FROM " ++ table.

(** [f"INSERT INTO {table} ({column_names}) VALUES ({placeholders})"] *)
Definition insert_sql (table : string) (columns : list string) : string :=
  let placeholders := join "," (map (fun _ => "?") columns) in
  let column_names := join "," (map (fun col => dquote ++ col ++ dquote) columns) in
  "INSERT INTO " ++ table ++ " (" ++ column_names ++ ") VALUES (" ++ placeholders ++ ")".

(** [[row[col] for col in columns]] *)
Definition row_values (columns : list string) (row : Row) : M (list Value) :=
  map_m (fun col =>
           match row_get row col with
           | Some v => ret v
           | None => raise (KeyError col)
           end) columns.

(** The body of [for row in batch]. *)
Definition copy_row (new_client table : string) (columns : list string) (row : Row) : M unit :=
  values <- row_values columns row ;;
  client_execute new_client (mkStmt (insert_sql table columns) values).

(** The body of [for table in tables]. *)
Definition copy_table (old_client new_client table : string) : M unit :=
  print ("  Copying table: " ++ table) ;;
  schema_rows <- client_query old_client (schema_sql table) (dp_schema E old_client table) ;;
  match schema_rows with
  | [] => ret tt
  | create_sql :: _ =>
    client_execute new_client (mkStmt create_sql []) ;;
    rows <- client_query old_client (select_sql table) (dp_select E old_client table) ;;
    match rows with
    | [] => ret tt
    | row0 :: _ =>
      let columns := keys row0 in
      for_each (py_range (length rows) batch_size)
        (fun i =>
           let batch := slice rows i (i + batch_size) in
           for_each batch (copy_row new_client table columns)) ;;
      print ("    Copied " ++ str_nat (length rows) ++ " rows")
    end
  end.

(** The [try:] block. *)
Definition copy_turso_data_body (old_url old_token : option string) (new_url new_token : string)
  : M bool :=
  (if libsql_installed E then ret tt
   else raise (mkExc ImportErrorC "No module named 'libsql_client'")) ;;
  old_client <- create_client ("libsql://" ++ str_opt old_url) old_token ;;
  new_client <- create_client ("libsql://" ++ new_url) (Some new_token) ;;
  names <- client_query old_client list_tables_sql (dp_tables E old_client) ;;
  let tables := filter (fun n => negb (n =? "sqlite_sequence")) names in
  for_each tables (copy_table old_client new_client) ;;
  ret true.

(** The [try:] block with its [except ImportError] handler. *)
Definition copy_unless_import_error (old_url old_token : option string)
    (new_url new_token : string) : M bool :=
  try_except (copy_turso_data_body old_url old_token new_url new_token)
    is_ImportError
    (fun _ =>
       print "  WARNING: libsql-client not installed. Install with: pip install libsql-client" ;;
       print "  Skipping data copy - you'll need to manually copy data or the schema will be initialized empty." ;;
       ret false).

(** [copy_turso_data]: the [try:] block with its two handlers. *)
Definition copy_turso_data (old_url old_token : option string) (new_url new_token : string)
  : M bool :=
  try_except (copy_unless_import_error old_url old_token new_url new_token)
    is_Exception
    (fun e =>
       print ("  ERROR copying data: " ++ exc_str e) ;;
       ret false).

(** ** [delete_turso_db] *)

Definition delete_turso_db (db_name api_token org : string) : M unit :=
  response <- http api_token (DeleteDatabase org db_name) ;;
  if negb (ok response) && negb (status_code response =? 404)%Z
  then print ("  WARNING: Failed to delete old database " ++ db_name ++ ": " ++ text response)
  else ret tt.

(** ** [update_project_turso_credentials] *)

(** [UPDATE projects SET turso_db_url = %s, turso_db_token = %s, updated_at = NOW()
     WHERE id = %s] *)
Definition pg_update (id new_url new_token : string) (rows : list Project) : list Project :=
  map (fun p =>
         if project_id p =? id
         then mkProject (project_id p) (name p) (slug p) (Some new_url) (Some new_token)
         else p) rows.

Definition update_project_turso_credentials (id new_url new_token : string) : M unit :=
  try_except
    (log_call (PgUpdateProject id new_url new_token) ;;
     match pg_update_fault E id with
     | Some msg => raise (mkExc DatabaseErrorC msg)
     | None => fun s => (Ret tt, set_pg_projects s (pg_update id new_url new_token (pg_projects s)))
     end)
    is_Exception
    (fun e =>
       print ("  ERROR updating project: " ++ exc_str e) ;;
       raise e).

(** ** [migrate_project] *)

(** The [if dry_run:] block. *)
Definition dry_run_plan (old_db_name new_db_name : string) : M bool :=
  print ("  [DRY RUN] Would create new DB: " ++ new_db_name) ;;
  print ("  [DRY RUN] Would copy data from " ++ old_db_name ++ " to " ++ new_db_name) ;;
  print "  [DRY RUN] Would update project record" ;;
  print ("  [DRY RUN] Would delete old DB: " ++ old_db_name) ;;
  ret true.

(** The last two steps of the [try:] block, from [# Step 3: Update project
    record] on. *)
Definition update_and_delete (project : Project) (api_token org new_url new_token : string)
  : M bool :=
  print "  Updating project record..." ;;
  update_project_turso_credentials (project_id project) new_url new_token ;;
  print "  ✅ Project record updated" ;;
  print ("  Deleting old database: " ++ "liteshow-" ++ slug project) ;;
  delete_turso_db ("liteshow-" ++ slug project) api_token org ;;
  print "  ✅ Old database deleted" ;;
  print ("  ✅ Migration complete for " ++ name project) ;;
  ret true.

(** The [try:] block. *)
Definition migration_steps (project : Project) (api_token org : string) : M bool :=
  let new_db_name := "liteshow-" ++ project_id project in
  print ("  Creating new database: " ++ new_db_name) ;;
  created <- create_turso_db new_db_name api_token org ;;
  let '(new_url, new_token) := created in
  print ("  ✅ New database created: " ++ new_url) ;;
  print "  Copying data from old DB to new DB..." ;;
  copy_success <- copy_turso_data (turso_db_url project) (turso_db_token project)
                    new_url new_token ;;
  (if copy_success
   then print "  ✅ Data copied successfully"
   else print "  ⚠️  Data copy skipped or failed - new DB will be empty") ;;
  update_and_delete project api_token org new_url new_token.

(** The [try:] block with its [except Exception] handler. *)
Definition guarded_steps (project : Project) (api_token org : string) : M bool :=
  try_except (migration_steps project api_token org)
    is_Exception
    (fun e =>
       print ("  ❌ Migration failed: " ++ exc_str e) ;;
       ret false).

(** What follows the two existence checks. *)
Definition migrate_branch (project : Project) (api_token org : string) (dry_run : bool)
    (old_exists new_exists : bool) : M bool :=
  let old_db_name := "liteshow-" ++ slug project in
  let new_db_name := "liteshow-" ++ project_id project in
  if negb old_exists then
    print "  ⚠️  Old database doesn't exist (might already be migrated or never created)" ;;
    if negb new_exists && negb (truthy (turso_db_url project)) then
      print "  ℹ️  Project has no Turso database - skipping" ;;
      ret true
    else if new_exists then
      print "  ✅ New database already exists - project likely already migrated" ;;
      ret true
    else
      ret false
  else if new_exists then
    print "  ⚠️  New database already exists! This might be a naming conflict." ;;
    print "  Please manually review and handle this case." ;;
    ret false
  else if dry_run then
    dry_run_plan old_db_name new_db_name
  else
    guarded_steps project api_token org.

Definition migrate_project (project : Project) (api_token org : string) (dry_run : bool)
  : M bool :=
  let old_db_name := "liteshow-" ++ slug project in
  let new_db_name := "liteshow-" ++ project_id project in
  print (nl ++ (if dry_run then "[DRY RUN] " else "") ++ "Migrating project: "
         ++ name project ++ " (" ++ project_id project ++ ")") ;;
  print ("  Slug: " ++ slug project) ;;
  print ("  Old DB: " ++ old_db_name) ;;
  print ("  New DB: " ++ new_db_name) ;;
  old_exists <- check_turso_db_exists old_db_name api_token org ;;
  new_exists <- check_turso_db_exists new_db_name api_token org ;;
  migrate_branch project api_token org dry_run old_exists new_exists.

(** ** [get_turso_credentials], [get_all_projects] *)

(** [sys.exit(1)] *)
Definition sys_exit {A} : M A := raise (mkExc SystemExitC "1").

Definition get_turso_credentials : M (string * string) :=
  let api_token := env_TURSO_API_TOKEN E in
  let org := match env_TURSO_ORG E with Some o => o | None => "perryraskin" end in
  match api_token with
  | Some t =>
    if t =? "" then print "ERROR: TURSO_API_TOKEN not found in .env file" ;; sys_exit
    else ret (t, org)
  | None => print "ERROR: TURSO_API_TOKEN not found in .env file" ;; sys_exit
  end.

Definition get_all_projects : M (list Project) :=
  if negb (truthy (env_DATABASE_URL E)) then
    print "ERROR: DATABASE_URL not found in .env file" ;; sys_exit
  else
    try_except
      (log_call PgSelectProjects ;;
       match pg_select_fault E with
       | Some msg => raise (mkExc DatabaseErrorC msg)
       | None => fun s => (Ret (pg_projects s), s)
       end)
      is_Exception
      (fun e => print ("ERROR querying PostgreSQL: " ++ exc_str e) ;; sys_exit).

(** ** [main] *)

(** The counters of [main] when it prints the summary. *)
Record Summary : Type := mkSummary {
  total : nat;
  success_count : nat;
  skip_count : nat;
  fail_count : nat
}.

(** [for project in projects:] with the two counters it updates. *)
Fixpoint migrate_each (projects : list Project) (api_token org : string) (dry_run : bool)
    (success skip : nat) : M (nat * nat) :=
  match projects with
  | [] => ret (success, skip)
  | project :: rest =>
    result <- migrate_project project api_token org dry_run ;;
    if result
    then migrate_each rest api_token org dry_run (success + 1) skip
    else migrate_each rest api_token org dry_run success (skip + 1)
  end.

Definition rule : string := "============================================================".

(** [main], returning the counters of the summary it prints. *)
Definition main (argv : list string) : M Summary :=
  let dry_run := existsb (String.eqb "--dry-run") argv in
  (if dry_run then
     print rule ;;
     print "DRY RUN MODE - No changes will be made" ;;
     print rule
   else ret tt) ;;
  print (nl ++ "Turso Database Name Migration Script") ;;
  print ("From: liteshow-{slug} → To: liteshow-{id}" ++ nl) ;;
  creds <- get_turso_credentials ;;
  let '(api_token, org) := creds in
  print ("Turso Organization: " ++ org ++ nl) ;;
  print "Fetching all projects from PostgreSQL..." ;;
  projects <- get_all_projects ;;
  print ("Found " ++ str_nat (length projects) ++ " projects" ++ nl) ;;
  let fail_count := 0 in
  counts <- migrate_each projects api_token org dry_run 0 0 ;;
  let '(success_count, skip_count) := counts in
  print (nl ++ rule) ;;
  print "MIGRATION SUMMARY" ;;
  print rule ;;
  print ("Total projects: " ++ str_nat (length projects)) ;;
  print ("✅ Successful: " ++ str_nat success_count) ;;
  print ("⚠️  Skipped: " ++ str_nat skip_count) ;;
  print ("❌ Failed: " ++ str_nat fail_count) ;;
  (if dry_run then
     print (nl ++ "This was a DRY RUN - no changes were made.") ;;
     print "Run without --dry-run to perform the actual migration."
   else ret tt) ;;
  ret (mkSummary (length projects) success_count skip_count fail_count).

End Script.

(** ** Vocabulary of the statements *)

(** The answer of the control plane to an existence check, given the
    databases that exist. *)
Definition exists_answer (E : Env) (dbs : list (string * string)) (org db_name : string)
  : HttpResult :=
  fst (serve E (GetDatabase org db_name) dbs).

Definition add_lines (s : State) (lines : list string) : State :=
  fold_left add_line lines s.

Definition add_calls (s : State) (cs : list Call) : State :=
  fold_left add_call cs s.

(** The four lines [migrate_project] prints first. *)
Definition header (p : Project) (dry_run : bool) : list string :=
  [ nl ++ (if dry_run then "[DRY RUN] " else "") ++ "Migrating project: "
      ++ name p ++ " (" ++ project_id p ++ ")";
    "  Slug: " ++ slug p;
    "  Old DB: " ++ "liteshow-" ++ slug p;
    "  New DB: " ++ "liteshow-" ++ project_id p ].

(** The two existence checks of [migrate_project]. *)
Definition existence_checks (p : Project) (api_token org : string) : list Call :=
  [ Http api_token (GetDatabase org ("liteshow-" ++ slug p));
    Http api_token (GetDatabase org ("liteshow-" ++ project_id p)) ].

(** The state in which [migrate_project] decides: the header is printed and
    the two existence checks are made, nothing else has changed. *)
Definition after_checks (p : Project) (api_token org : string) (dry_run : bool) (s : State)
  : State :=
  add_calls (add_lines s (header p dry_run)) (existence_checks p api_token org).

(** The four lines of the plan a dry run prints. *)
Definition would_migrate (p : Project) : list string :=
  [ "  [DRY RUN] Would create new DB: " ++ "liteshow-" ++ project_id p;
    "  [DRY RUN] Would copy data from " ++ "liteshow-" ++ slug p ++ " to "
      ++ "liteshow-" ++ project_id p;
    "  [DRY RUN] Would update project record";
    "  [DRY RUN] Would delete old DB: " ++ "liteshow-" ++ slug p ].

(** The decision table of the spec (4.2), on the existence quadrant and
    on whether the stored location is unset. *)
Inductive Action : Type :=
| SkipNoDatabase
| SkipManualReview
| AlreadyMigrated
| SkipNamingConflict
| FullMigration.

Definition decision_table (old_exists new_exists location_unset : bool) : Action :=
  match old_exists, new_exists with
  | false, false => if location_unset then SkipNoDatabase else SkipManualReview
  | false, true => AlreadyMigrated
  | true, true => SkipNamingConflict
  | true, false => FullMigration
  end.

(** The external state a migration can change: the databases, the
    statements written and the catalog. *)
Definition same_world (s s' : State) : Prop :=
  cp_dbs s' = cp_dbs s /\ dp_written s' = dp_written s /\ pg_projects s' = pg_projects s.

(** ** Vocabulary of the proofs *)

(** [keeps P C m]: [m] takes every state to one related to it by [P], and
    raises exceptions of the class [C] only. *)
Definition keeps (P : State -> State -> Prop) (C : Exc -> bool) {A} (m : M A) : Prop :=
  forall s, P s (snd (m s)) /\ forall e, fst (m s) = Raise e -> C e = true.

Definition msg_old_missing : string :=
  "  ⚠️  Old database doesn't exist (might already be migrated or never created)".
Definition msg_no_database : string :=
  "  ℹ️  Project has no Turso database - skipping".
Definition msg_already_migrated : string :=
  "  ✅ New database already exists - project likely already migrated".
Definition msg_conflict : list string :=
  [ "  ⚠️  New database already exists! This might be a naming conflict.";
    "  Please manually review and handle this case." ].


(** The data copy leaves the control plane and the catalog alone. *)
Definition control_and_catalog_kept (s s' : State) : Prop :=
  cp_dbs s' = cp_dbs s /\ pg_projects s' = pg_projects s.

Definition msg_update_error (msg : string) : string := "  ERROR updating project: " ++ msg.

Definition msg_delete_warning (db_name : string) (r : Response) : string :=
  "  WARNING: Failed to delete old database " ++ db_name ++ ": " ++ text r.

(** The state after the delete request is answered. *)
Definition delete_answered (E : Env) (n tok org : string) (s : State) : State :=
  set_cp_dbs (add_call s (Http tok (DeleteDatabase org n)))
    (snd (serve E (DeleteDatabase org n) (cp_dbs s))).

(** The state after the catalog update succeeded and the lines around it. *)
Definition updated (p : Project) (u t : string) (s : State) : State :=
  add_lines
    (set_pg_projects
       (add_call (add_line s "  Updating project record...")
          (PgUpdateProject (project_id p) u t))
       (pg_update (project_id p) u t (pg_projects s)))
    [ "  ✅ Project record updated";
      "  Deleting old database: " ++ "liteshow-" ++ slug p ].

Definition msg_copied : string := "  ✅ Data copied successfully".
Definition msg_copy_failed : string :=
  "  ⚠️  Data copy skipped or failed - new DB will be empty".

(** The state in which the data copy starts. *)
Definition before_copy (u : string) (s : State) : State :=
  add_lines s [ "  ✅ New database created: " ++ u;
                "  Copying data from old DB to new DB..." ].

(** The state after the new database is created and its token issued. *)
Definition created (tok org n : string) (s : State) : State :=
  add_call
    (set_cp_dbs (add_call s (Http tok (PostDatabase org n "liteshow")))
       (cp_dbs s ++ [(org, n)])%list)
    (Http tok (PostAuthToken org n "never" "full-access")).



(** The tables the copy goes through: the listing without [sqlite_sequence]. *)
Definition copied_tables (names : list string) : list string :=
  filter (fun n => negb (n =? "sqlite_sequence")) names.


Definition msg_copy_error (e : Exc) : string := "  ERROR copying data: " ++ exc_str e.

(** [m] raises nothing that [except Exception] lets through. *)
Definition raises_exceptions {A} (m : M A) : Prop :=
  forall s e, fst (m s) = Raise e -> is_Exception e = true.

(** The control plane answers every existence check of the organization. *)
Definition checks_answered (E : Env) (org : string) : Prop :=
  forall n msg, cp_fault E (GetDatabase org n) <> Some (Unreachable msg).

(** The first column of [columns] the row does not have. *)
Definition missing_column (columns : list string) (row : Row) : option string :=
  find (fun col => match row_get row col with Some _ => false | None => true end) columns.

(** The calls the data copy may make: reads at the source, none of them about
    the bookkeeping table, and writes at the destination. *)
Definition sql_traffic (old_client new_client : string) (c : Call) : Prop :=
  match c with
  | SqlRead url sql =>
    url = old_client
    /\ sql <> schema_sql "sqlite_sequence" /\ sql <> select_sql "sqlite_sequence"
  | SqlWrite url _ => url = new_client
  | _ => False
  end.

(** What the data copy leaves behind: SQL traffic only, statements at the
    destination only, the control plane and the catalog as they were. *)
Definition copy_traffic (old_client new_client : string) (s s' : State) : Prop :=
  cp_dbs s' = cp_dbs s
  /\ pg_projects s' = pg_projects s
  /\ (exists cs, calls s' = (calls s ++ cs)%list /\ Forall (sql_traffic old_client new_client) cs)
  /\ (exists ws, dp_written s' = (dp_written s ++ ws)%list
                 /\ Forall (fun us => fst us = new_client) ws).

(** What a migration leaves of the other projects: every database but the
    two of the project is present or absent as before, and every catalog
    row of another project is where and what it was. *)
Definition others_kept (org old_db_name new_db_name id : string) (s s' : State) : Prop :=
  (forall o n, (o, n) <> (org, old_db_name) -> (o, n) <> (org, new_db_name) ->
               db_present (cp_dbs s') o n = db_present (cp_dbs s) o n)
  /\ length (pg_projects s') = length (pg_projects s)
  /\ (forall k q, nth_error (pg_projects s) k = Some q -> project_id q <> id ->
                  nth_error (pg_projects s') k = Some q).

(** An answer to the token request that makes [create_turso_db] raise: no
    answer, an error status, or a body without [jwt]. *)
Definition token_refused (answer : HttpResult) : bool :=
  match answer with
  | Unreachable _ => true
  | Responds r => negb (ok r) || match json_jwt r with Some _ => false | None => true end
  end.

(** The calls and the lines only grow. *)
Definition log_grows (s s' : State) : Prop :=
  (exists cs, calls s' = (calls s ++ cs)%list)
  /\ (exists ls, stdout s' = (stdout s ++ ls)%list).

(** An answer to the create request that makes [create_turso_db] raise
    before it asks for a token: no answer, or an error status. *)
Definition create_refused (answer : HttpResult) : bool :=
  match answer with
  | Unreachable _ => true
  | Responds r => negb (ok r)
  end.

(** The text of the exception a refused create raises. *)
Definition create_failure_text (db_name : string) (answer : HttpResult) : string :=
  match answer with
  | Unreachable msg => msg
  | Responds r => "Failed to create database " ++ db_name ++ ": " ++ text r
  end.

(** Neither mutating calls nor the world: what a run that only looks
    leaves. *)
Definition only_looked (s s' : State) : Prop :=
  same_world s s' /\ filter mutating (calls s') = filter mutating (calls s).

(** The control-plane requests of one migration: the checks, the creation
    of the new database and its token, the delete of the old database. *)
Definition own_request (org old_db_name new_db_name : string) (req : Request) : Prop :=
  match req with
  | GetDatabase _ _ => True
  | PostDatabase o n _ => (o, n) = (org, new_db_name)
  | PostAuthToken _ _ _ _ => True
  | DeleteDatabase o n => (o, n) = (org, old_db_name)
  end.

(** ** Scenarios *)

Module Scenario.

Definition org : string := "acme".
Definition api_token : string := "tok".

Definition blog : Project :=
  mkProject "p1" "Blog" "blog" (Some "liteshow-blog-acme.turso.io") (Some "jwt-old-blog").
Definition shop : Project :=
  mkProject "p2" "Shop" "shop" (Some "liteshow-shop-acme.turso.io") (Some "jwt-old-shop").

Definition blog_db : string := "libsql://liteshow-blog-acme.turso.io".

Definition pages_sql : string :=
  "CREATE TABLE pages (id INTEGER PRIMARY KEY AUTOINCREMENT, title TEXT)".
Definition drafts_sql : string := "CREATE TABLE drafts (id INTEGER, body TEXT)".

Definition page (id : Z) (title : string) : Row := [("id", VInt id); ("title", VText title)].

Definition pages : list Row :=
  [ page 1 "Home"; page 2 "About"; page 3 "Pricing"; page 4 "Docs"; page 5 "Contact" ].

(** The source of the blog: a table of five rows, the bookkeeping table and
    a table without rows. *)
Definition blog_tables (url : string) : SqlResult (list string) :=
  if url =? blog_db then Rows ["pages"; "sqlite_sequence"; "drafts"] else Rows [].

Definition blog_schema (url table : string) : SqlResult (list string) :=
  if table =? "pages" then Rows [pages_sql]
  else if table =? "drafts" then Rows [drafts_sql]
  else Rows [].

Definition blog_select (url table : string) : SqlResult (list Row) :=
  if table =? "pages" then Rows pages else Rows [].

(** Every service answers, and the client library is installed: its
    [create_client] builds the asyncio client, and no event loop runs. *)
Definition healthy : Env :=
  mkEnv (fun _ => None)
    (fun o n => n ++ "-" ++ o ++ ".turso.io")
    (fun o n => "jwt-" ++ n)
    true (fun _ => Some "no running event loop")
    blog_tables blog_schema blog_select (fun _ _ _ => None)
    None (fun _ => None)
    (Some "turso-api-token") (Some "acme") (Some "postgres://catalog").

Definition with_cp_fault (E : Env) (f : Request -> option HttpResult) : Env :=
  mkEnv f (cp_hostname E) (cp_jwt E) (libsql_installed E) (dp_connect E)
    (dp_tables E) (dp_schema E) (dp_select E) (dp_reject E) (pg_select_fault E) (pg_update_fault E)
    (env_TURSO_API_TOKEN E) (env_TURSO_ORG E) (env_DATABASE_URL E).

Definition with_libsql (E : Env) (installed : bool) : Env :=
  mkEnv (cp_fault E) (cp_hostname E) (cp_jwt E) installed (dp_connect E)
    (dp_tables E) (dp_schema E) (dp_select E) (dp_reject E) (pg_select_fault E) (pg_update_fault E)
    (env_TURSO_API_TOKEN E) (env_TURSO_ORG E) (env_DATABASE_URL E).

(** The fleet before the migration: both projects under their old names. *)
Definition fleet : State :=
  mkState [("acme", "liteshow-blog"); ("acme", "liteshow-shop")] [] [blog; shop] [] [].

(** The blog under both names. *)
Definition conflict : State :=
  mkState [("acme", "liteshow-blog"); ("acme", "liteshow-p1")] [] [blog; shop] [] [].


(** The control plane refuses the credentials for the old name and is down
    for the new one. *)
Definition unauthorized : Env :=
  with_cp_fault healthy
    (fun req =>
       match req with
       | GetDatabase _ n =>
         if n =? "liteshow-blog"
         then Some (Responds (mkResponse 401 "unauthorized" None None))
         else Some (Responds (mkResponse 503 "service unavailable" None None))
       | _ => None
       end).

(** The control plane answers 500 to the delete of the old blog database. *)
Definition delete_fails : Env :=
  with_cp_fault healthy
    (fun req =>
       match req with
       | DeleteDatabase _ n =>
         if n =? "liteshow-blog"
         then Some (Responds (mkResponse 500 "internal error" None None))
         else None
       | _ => None
       end).

(** The control plane answers 503 to the delete of the old shop database. *)
Definition delete_unavailable : Env :=
  with_cp_fault healthy
    (fun req =>
       match req with
       | DeleteDatabase _ n =>
         if n =? "liteshow-shop"
         then Some (Responds (mkResponse 503 "service unavailable" None None))
         else None
       | _ => None
       end).

(** The control plane cannot be reached for the old name of the blog. *)
Definition unreachable : Env :=
  with_cp_fault healthy
    (fun req =>
       match req with
       | GetDatabase _ n =>
         if n =? "liteshow-blog" then Some (Unreachable "Connection refused") else None
       | _ => None
       end).

(** The copy is skipped: the client library is missing. *)
Definition no_libsql : Env := with_libsql healthy false.

(** The fleet after the blog was migrated, and the blog as the catalog then
    has it. *)
Definition migrated : State :=
  snd (migrate_project healthy blog api_token org false fleet).

Definition blog_again : Project :=
  mkProject "p1" "Blog" "blog" (Some "liteshow-p1-acme.turso.io") (Some "jwt-liteshow-p1").

Definition answer_200 (hostname : string) : Response :=
  mkResponse 200 "" (Some (Some hostname)) None.
Definition answer_404 : Response := mkResponse 404 "database not found" None None.

(** The control plane creates the database and then fails to issue its
    token. *)
Definition token_fails : Env :=
  with_cp_fault healthy
    (fun req =>
       match req with
       | PostAuthToken _ _ _ _ =>
         Some (Responds (mkResponse 500 "could not issue token" None None))
       | _ => None
       end).

(** The control plane refuses to create a database: the plan has no room
    left. *)
Definition create_fails : Env :=
  with_cp_fault healthy
    (fun req =>
       match req with
       | PostDatabase _ _ _ =>
         Some (Responds (mkResponse 402 "database limit reached" None None))
       | _ => None
       end).

(** No API token in the environment. *)
Definition no_api_token : Env :=
  mkEnv (cp_fault healthy) (cp_hostname healthy) (cp_jwt healthy) (libsql_installed healthy)
    (dp_connect healthy) (dp_tables healthy) (dp_schema healthy) (dp_select healthy)
    (dp_reject healthy) (pg_select_fault healthy) (pg_update_fault healthy)
    None (env_TURSO_ORG healthy) (env_DATABASE_URL healthy).

End Scenario.

(** ** Running the monad *)

Local Arguments String.append : simpl never.
Local Arguments String.eqb : simpl never.
Local Arguments Z.eqb : simpl never.
Local Arguments Z.leb : simpl never.
Local Arguments Z.ltb : simpl never.

Lemma bind_run {A B} (m : M A) (k : A -> M B) (s : State) :
  (x <- m ;; k x) s =
  match m s with
  | (Ret a, s') => k a s'
  | (Raise e, s') => (Raise e, s')
  end.
Proof. reflexivity. Qed.

Lemma bind_ret_run {A B} (m : M A) (k : A -> M B) (s s' : State) (a : A) :
  m s = (Ret a, s') -> (x <- m ;; k x) s = k a s'.
Proof. intros H. unfold bind. rewrite H. reflexivity. Qed.

Lemma add_lines_obs s ls :
  cp_dbs (add_lines s ls) = cp_dbs s /\
  dp_written (add_lines s ls) = dp_written s /\
  pg_projects (add_lines s ls) = pg_projects s /\
  calls (add_lines s ls) = calls s /\
  stdout (add_lines s ls) = (stdout s ++ ls)%list.
Proof.
  revert s. induction ls as [|l ls IH]; intros s; simpl.
  - rewrite app_nil_r. auto.
  - destruct (IH (add_line s l)) as (H1 & H2 & H3 & H4 & H5).
    unfold add_lines in *. rewrite H1, H2, H3, H4, H5. simpl.
    rewrite <- app_assoc. auto.
Qed.

Lemma add_calls_obs s cs :
  cp_dbs (add_calls s cs) = cp_dbs s /\
  dp_written (add_calls s cs) = dp_written s /\
  pg_projects (add_calls s cs) = pg_projects s /\
  calls (add_calls s cs) = (calls s ++ cs)%list /\
  stdout (add_calls s cs) = stdout s.
Proof.
  revert s. induction cs as [|c cs IH]; intros s; simpl.
  - rewrite app_nil_r. auto.
  - destruct (IH (add_call s c)) as (H1 & H2 & H3 & H4 & H5).
    unfold add_calls in *. rewrite H1, H2, H3, H4, H5. simpl.
    rewrite <- app_assoc. auto.
Qed.

(** *** Existence checks *)

Lemma serve_get_dbs E org n dbs : snd (serve E (GetDatabase org n) dbs) = dbs.
Proof.
  unfold serve. destruct (cp_fault E _); [reflexivity|].
  destruct (db_present dbs org n); reflexivity.
Qed.

Lemma http_get_run E tok org n s :
  http E tok (GetDatabase org n) s =
  (match exists_answer E (cp_dbs s) org n with
   | Responds r => Ret r
   | Unreachable msg => Raise (mkExc ConnectionErrorC msg)
   end, add_call s (Http tok (GetDatabase org n))).
Proof.
  unfold http, exists_answer.
  pose proof (serve_get_dbs E org n (cp_dbs s)) as Hd.
  destruct (serve E (GetDatabase org n) (cp_dbs s)) as [a d]. simpl in *. subst d.
  destruct a; reflexivity.
Qed.

Lemma check_run E n tok org s :
  check_turso_db_exists E n tok org s =
  (match exists_answer E (cp_dbs s) org n with
   | Responds r => Ret (status_code r =? 200)%Z
   | Unreachable msg => Raise (mkExc ConnectionErrorC msg)
   end, add_call s (Http tok (GetDatabase org n))).
Proof.
  unfold check_turso_db_exists. rewrite bind_run, http_get_run.
  destruct (exists_answer E (cp_dbs s) org n); reflexivity.
Qed.

(** With both checks answered, [migrate_project] is [migrate_branch] on the
    two classifications. *)
Lemma migrate_project_checked E p tok org dry s r1 r2 :
  exists_answer E (cp_dbs s) org ("liteshow-" ++ slug p) = Responds r1 ->
  exists_answer E (cp_dbs s) org ("liteshow-" ++ project_id p) = Responds r2 ->
  migrate_project E p tok org dry s =
  migrate_branch E p tok org dry (status_code r1 =? 200)%Z (status_code r2 =? 200)%Z
    (after_checks p tok org dry s).
Proof.
  intros H1 H2. unfold migrate_project.
  repeat (rewrite bind_run; unfold print at 1).
  rewrite bind_run, check_run. simpl cp_dbs. rewrite H1.
  rewrite bind_run, check_run. simpl cp_dbs. rewrite H2.
  reflexivity.
Qed.

(** *** Observing a state after lines and calls *)

Lemma cp_dbs_add_lines s ls : cp_dbs (add_lines s ls) = cp_dbs s.
Proof. apply add_lines_obs. Qed.
Lemma dp_written_add_lines s ls : dp_written (add_lines s ls) = dp_written s.
Proof. apply add_lines_obs. Qed.
Lemma pg_projects_add_lines s ls : pg_projects (add_lines s ls) = pg_projects s.
Proof. apply add_lines_obs. Qed.
Lemma calls_add_lines s ls : calls (add_lines s ls) = calls s.
Proof. apply add_lines_obs. Qed.
Lemma stdout_add_lines s ls : stdout (add_lines s ls) = (stdout s ++ ls)%list.
Proof. apply add_lines_obs. Qed.
Lemma cp_dbs_add_calls s cs : cp_dbs (add_calls s cs) = cp_dbs s.
Proof. apply add_calls_obs. Qed.
Lemma dp_written_add_calls s cs : dp_written (add_calls s cs) = dp_written s.
Proof. apply add_calls_obs. Qed.
Lemma pg_projects_add_calls s cs : pg_projects (add_calls s cs) = pg_projects s.
Proof. apply add_calls_obs. Qed.
Lemma calls_add_calls s cs : calls (add_calls s cs) = (calls s ++ cs)%list.
Proof. apply add_calls_obs. Qed.
Lemma stdout_add_calls s cs : stdout (add_calls s cs) = stdout s.
Proof. apply add_calls_obs. Qed.

Create Rewrite HintDb obs.
#[local] Hint Rewrite
  cp_dbs_add_lines dp_written_add_lines pg_projects_add_lines calls_add_lines stdout_add_lines
  cp_dbs_add_calls dp_written_add_calls pg_projects_add_calls calls_add_calls stdout_add_calls
  : obs.

Lemma after_checks_obs p tok org dry s :
  same_world s (after_checks p tok org dry s) /\
  calls (after_checks p tok org dry s) = (calls s ++ existence_checks p tok org)%list /\
  stdout (after_checks p tok org dry s) = (stdout s ++ header p dry)%list.
Proof.
  unfold after_checks, same_world. autorewrite with obs. auto.
Qed.

Lemma same_world_lines s s' ls : same_world s s' -> same_world s (add_lines s' ls).
Proof. unfold same_world. autorewrite with obs. auto. Qed.

(** *** The branches of [migrate_project] *)

Lemma migrate_branch_table E p tok org dry o n s :
  migrate_branch E p tok org dry o n s =
  match decision_table o n (negb (truthy (turso_db_url p))) with
  | SkipNoDatabase => (Ret true, add_lines s [msg_old_missing; msg_no_database])
  | SkipManualReview => (Ret false, add_lines s [msg_old_missing])
  | AlreadyMigrated => (Ret true, add_lines s [msg_old_missing; msg_already_migrated])
  | SkipNamingConflict => (Ret false, add_lines s msg_conflict)
  | FullMigration =>
    if dry then (Ret true, add_lines s (would_migrate p))
    else guarded_steps E p tok org s
  end.
Proof.
  unfold migrate_branch, decision_table.
  destruct o, n, (truthy (turso_db_url p)), dry; reflexivity.
Qed.

(** A branch that only prints after the decision leaves the world alone. *)
Lemma decided_lines_obs p tok org dry s ls :
  same_world s (add_lines (after_checks p tok org dry s) ls)
  /\ calls (add_lines (after_checks p tok org dry s) ls)
     = (calls s ++ existence_checks p tok org)%list
  /\ filter mutating (calls (add_lines (after_checks p tok org dry s) ls))
     = filter mutating (calls s).
Proof.
  destruct (after_checks_obs p tok org dry s) as (Hw & Hc & _).
  split; [apply same_world_lines, Hw|].
  autorewrite with obs. split; [exact Hc|].
  rewrite Hc, filter_app. simpl. apply app_nil_r.
Qed.

(** C4. Naming-conflict safety: when both existence checks answer 200, the
    project is skipped ([False] is returned after the two conflict lines),
    whatever its stored location and whether or not the run is a dry run;
    the only calls made are the two existence checks, and the databases, the
    written statements and the catalog are as before: nothing is created,
    copied, updated or deleted. *)
Theorem naming_conflict_is_skipped E p tok org dry s r1 r2 :
  exists_answer E (cp_dbs s) org ("liteshow-" ++ slug p) = Responds r1 ->
  exists_answer E (cp_dbs s) org ("liteshow-" ++ project_id p) = Responds r2 ->
  status_code r1 = 200%Z ->
  status_code r2 = 200%Z ->
  migrate_project E p tok org dry s
  = (Ret false, add_lines (after_checks p tok org dry s) msg_conflict)
  /\ same_world s (snd (migrate_project E p tok org dry s))
  /\ calls (snd (migrate_project E p tok org dry s))
     = (calls s ++ existence_checks p tok org)%list
  /\ filter mutating (calls (snd (migrate_project E p tok org dry s)))
     = filter mutating (calls s).
Proof.
  intros H1 H2 S1 S2.
  rewrite (migrate_project_checked E p tok org dry s H1 H2), migrate_branch_table.
  rewrite S1, S2. simpl decision_table. cbv iota.
  split; [reflexivity|]. cbn [snd]. apply decided_lines_obs.
Qed.

(** *** What the control plane answers when it serves the request *)

Lemma exists_answer_served E dbs org n :
  cp_fault E (GetDatabase org n) = None ->
  exists r, exists_answer E dbs org n = Responds r
            /\ (status_code r =? 200)%Z = db_present dbs org n.
Proof.
  intros Hf. unfold exists_answer, serve. rewrite Hf.
  destruct (db_present dbs org n); simpl; eexists; split; reflexivity.
Qed.

(** C8. Idempotent rerun: in the state a completed migration leaves (the old
    database absent, the new one present) and with the control plane
    answering the two existence checks, running [migrate_project] again,
    dry or not, returns [True] after the already-migrated line; the only
    calls made are the two existence checks and the databases, the written
    statements and the catalog are as before. *)
Theorem rerun_is_already_migrated E p tok org dry s :
  db_present (cp_dbs s) org ("liteshow-" ++ slug p) = false ->
  db_present (cp_dbs s) org ("liteshow-" ++ project_id p) = true ->
  cp_fault E (GetDatabase org ("liteshow-" ++ slug p)) = None ->
  cp_fault E (GetDatabase org ("liteshow-" ++ project_id p)) = None ->
  migrate_project E p tok org dry s
  = (Ret true, add_lines (after_checks p tok org dry s)
                 [msg_old_missing; msg_already_migrated])
  /\ same_world s (snd (migrate_project E p tok org dry s))
  /\ calls (snd (migrate_project E p tok org dry s))
     = (calls s ++ existence_checks p tok org)%list
  /\ filter mutating (calls (snd (migrate_project E p tok org dry s)))
     = filter mutating (calls s).
Proof.
  intros P1 P2 F1 F2.
  destruct (exists_answer_served E (cp_dbs s) org _ F1) as (r1 & H1 & S1).
  destruct (exists_answer_served E (cp_dbs s) org _ F2) as (r2 & H2 & S2).
  rewrite (migrate_project_checked E p tok org dry s H1 H2), migrate_branch_table.
  rewrite S1, S2, P1, P2. simpl decision_table. cbv iota.
  split; [reflexivity|]. cbn [snd]. apply decided_lines_obs.
Qed.

(** C10. The existence check classifies by the status alone: answered with
    a response, [check_turso_db_exists] returns whether its status is 200,
    without printing or raising, whatever the status says otherwise (401,
    500, ...); and [migrate_project] takes its branch on these two
    classifications. *)
Theorem existence_is_status_200 E p tok org dry s r1 r2 :
  exists_answer E (cp_dbs s) org ("liteshow-" ++ slug p) = Responds r1 ->
  exists_answer E (cp_dbs s) org ("liteshow-" ++ project_id p) = Responds r2 ->
  check_turso_db_exists E ("liteshow-" ++ slug p) tok org s
  = (Ret (status_code r1 =? 200)%Z,
     add_call s (Http tok (GetDatabase org ("liteshow-" ++ slug p))))
  /\ check_turso_db_exists E ("liteshow-" ++ project_id p) tok org s
     = (Ret (status_code r2 =? 200)%Z,
        add_call s (Http tok (GetDatabase org ("liteshow-" ++ project_id p))))
  /\ ((status_code r1 =? 200)%Z = true <-> status_code r1 = 200%Z)
  /\ ((status_code r2 =? 200)%Z = true <-> status_code r2 = 200%Z)
  /\ migrate_project E p tok org dry s
     = migrate_branch E p tok org dry (status_code r1 =? 200)%Z (status_code r2 =? 200)%Z
         (after_checks p tok org dry s).
Proof.
  intros H1 H2. repeat split.
  - rewrite check_run, H1. reflexivity.
  - rewrite check_run, H2. reflexivity.
  - apply Z.eqb_eq.
  - apply Z.eqb_eq.
  - apply Z.eqb_eq.
  - apply Z.eqb_eq.
  - apply migrate_project_checked; assumption.
Qed.

(** *** [migrate_project], whatever the control plane answers *)

Lemma migrate_project_run E p tok org dry s :
  migrate_project E p tok org dry s =
  match exists_answer E (cp_dbs s) org ("liteshow-" ++ slug p) with
  | Unreachable msg =>
    (Raise (mkExc ConnectionErrorC msg),
     add_calls (add_lines s (header p dry))
       [Http tok (GetDatabase org ("liteshow-" ++ slug p))])
  | Responds r1 =>
    match exists_answer E (cp_dbs s) org ("liteshow-" ++ project_id p) with
    | Unreachable msg => (Raise (mkExc ConnectionErrorC msg), after_checks p tok org dry s)
    | Responds r2 =>
      migrate_branch E p tok org dry (status_code r1 =? 200)%Z (status_code r2 =? 200)%Z
        (after_checks p tok org dry s)
    end
  end.
Proof.
  unfold migrate_project.
  repeat (rewrite bind_run; unfold print at 1).
  rewrite bind_run, check_run. simpl cp_dbs.
  destruct (exists_answer E (cp_dbs s) org ("liteshow-" ++ slug p)); [|reflexivity].
  rewrite bind_run, check_run. simpl cp_dbs.
  destruct (exists_answer E (cp_dbs s) org ("liteshow-" ++ project_id p)); reflexivity.
Qed.

(** Under a dry run every branch only prints. *)
Lemma migrate_branch_dry E p tok org o n s :
  exists ls, migrate_branch E p tok org true o n s
             = (Ret (match decision_table o n (negb (truthy (turso_db_url p))) with
                     | SkipManualReview | SkipNamingConflict => false
                     | _ => true
                     end), add_lines s ls).
Proof.
  rewrite migrate_branch_table.
  destruct (decision_table o n _); eexists; reflexivity.
Qed.

(** C3. Dry-run purity: with [dry_run] true, [migrate_project] leaves the
    databases, the written statements and the catalog as they are and makes
    no mutating call (no create, token, delete, data-plane write or catalog
    update), whatever the control plane answers.  When the two existence
    checks are answered they are exactly the calls made, and in the
    full-migration quadrant the four lines of the plan are printed and
    [True] is returned. *)
Theorem dry_run_purity E p tok org s :
  same_world s (snd (migrate_project E p tok org true s))
  /\ filter mutating (calls (snd (migrate_project E p tok org true s)))
     = filter mutating (calls s)
  /\ forall r1 r2,
      exists_answer E (cp_dbs s) org ("liteshow-" ++ slug p) = Responds r1 ->
      exists_answer E (cp_dbs s) org ("liteshow-" ++ project_id p) = Responds r2 ->
      calls (snd (migrate_project E p tok org true s))
      = (calls s ++ existence_checks p tok org)%list
      /\ (decision_table (status_code r1 =? 200)%Z (status_code r2 =? 200)%Z
            (negb (truthy (turso_db_url p))) = FullMigration ->
          migrate_project E p tok org true s
          = (Ret true, add_lines (after_checks p tok org true s) (would_migrate p))
          /\ stdout (snd (migrate_project E p tok org true s))
             = (stdout s ++ header p true ++ would_migrate p)%list).
Proof.
  rewrite migrate_project_run.
  destruct (exists_answer E (cp_dbs s) org ("liteshow-" ++ slug p)) as [r1|m1] eqn:A1.
  - destruct (exists_answer E (cp_dbs s) org ("liteshow-" ++ project_id p)) as [r2|m2] eqn:A2.
    + destruct (migrate_branch_dry E p tok org (status_code r1 =? 200)%Z
                  (status_code r2 =? 200)%Z (after_checks p tok org true s)) as (ls & Hb).
      rewrite Hb. cbn [snd].
      destruct (decided_lines_obs p tok org true s ls) as (Hw & Hc & Hm).
      split; [exact Hw|]. split; [exact Hm|].
      intros r1' r2' E1 E2. injection E1 as <-. injection E2 as <-.
      split; [exact Hc|]. intros Hd.
      assert (Hfull : migrate_branch E p tok org true (status_code r1 =? 200)%Z
                        (status_code r2 =? 200)%Z (after_checks p tok org true s)
                      = (Ret true, add_lines (after_checks p tok org true s) (would_migrate p)))
        by (rewrite migrate_branch_table, Hd; reflexivity).
      rewrite Hb in Hfull. rewrite Hfull.
      apply (f_equal snd) in Hfull. cbn [snd] in Hfull. rewrite Hfull.
      split; [reflexivity|]. autorewrite with obs.
      destruct (after_checks_obs p tok org true s) as (_ & _ & Hs).
      rewrite ?Hs, <- ?app_assoc. reflexivity.
    + cbn [snd]. destruct (after_checks_obs p tok org true s) as (Hw & Hc & _).
      split; [exact Hw|]. split.
      * rewrite Hc, filter_app. simpl. apply app_nil_r.
      * intros r1' r2' _ E2. discriminate E2.
  - cbn [snd]. unfold same_world. autorewrite with obs.
    split; [auto|]. split.
    + rewrite filter_app. simpl. apply app_nil_r.
    + intros r1' r2' E1. discriminate E1.
Qed.

(** Under a dry run the world is untouched, whatever the control plane
    answers. *)
Lemma dry_run_keeps_world E p tok org s :
  same_world s (snd (migrate_project E p tok org true s))
  /\ filter mutating (calls (snd (migrate_project E p tok org true s)))
     = filter mutating (calls s).
Proof.
  rewrite migrate_project_run.
  destruct (exists_answer E (cp_dbs s) org ("liteshow-" ++ slug p)) as [r1|m1].
  - destruct (exists_answer E (cp_dbs s) org ("liteshow-" ++ project_id p)) as [r2|m2].
    + destruct (migrate_branch_dry E p tok org (status_code r1 =? 200)%Z
                  (status_code r2 =? 200)%Z (after_checks p tok org true s)) as (ls & Hb).
      rewrite Hb. cbn [snd].
      destruct (decided_lines_obs p tok org true s ls) as (Hw & _ & Hm). auto.
    + cbn [snd]. destruct (after_checks_obs p tok org true s) as (Hw & Hc & _).
      split; [exact Hw|]. rewrite Hc, filter_app. simpl. apply app_nil_r.
  - cbn [snd]. unfold same_world. autorewrite with obs.
    split; [auto|]. rewrite filter_app. simpl. apply app_nil_r.
Qed.

(** *** What a block keeps *)

Section Keeps.

(** [P s s']: a relation between the state before and after, closed under
    composition and under the elementary steps of the data copy. *)
Variable P : State -> State -> Prop.
Hypothesis P_refl : forall s, P s s.
Hypothesis P_trans : forall s1 s2 s3, P s1 s2 -> P s2 s3 -> P s1 s3.
Hypothesis P_line : forall s l, P s (add_line s l).
Hypothesis P_call : forall s c, P s (add_call s c).
Hypothesis P_written : forall s x, P s (set_dp_written s (dp_written s ++ [x])%list).

(** [C e]: a class of exceptions that holds those of a missing column and
    of the database. *)
Variable C : Exc -> bool.
Hypothesis C_key : forall k, C (KeyError k) = true.
Hypothesis C_database : forall msg, C (mkExc DatabaseErrorC msg) = true.

Lemma keeps_ret {A} (a : A) : keeps P C (ret a).
Proof. intros s. simpl. split; [apply P_refl | discriminate]. Qed.

Lemma keeps_raise {A} (e : Exc) : C e = true -> keeps P C (@raise A e).
Proof. intros He s. simpl. split; [apply P_refl | congruence]. Qed.

Lemma keeps_print l : keeps P C (print l).
Proof. intros s. simpl. split; [apply P_line | discriminate]. Qed.

Lemma keeps_log_call c : keeps P C (log_call c).
Proof. intros s. simpl. split; [apply P_call | discriminate]. Qed.

Lemma keeps_bind {A B} (m : M A) (k : A -> M B) :
  keeps P C m -> (forall a, keeps P C (k a)) -> keeps P C (x <- m ;; k x).
Proof.
  intros Hm Hk s. unfold bind. destruct (Hm s) as [Hp He].
  destruct (m s) as [[a|e] s1]; simpl in *.
  - destruct (Hk a s1) as [Hp' He']. split; [eapply P_trans; eauto | exact He'].
  - split; [exact Hp | intros e' [= <-]; apply He; reflexivity].
Qed.

Lemma keeps_try {A} (m : M A) c (h : Exc -> M A) :
  keeps P C m -> (forall e, keeps P C (h e)) -> keeps P C (try_except m c h).
Proof.
  intros Hm Hh s. unfold try_except. destruct (Hm s) as [Hp He].
  destruct (m s) as [[a|e] s1]; simpl in *.
  - split; [exact Hp | discriminate].
  - destruct (c e).
    + destruct (Hh e s1) as [Hp' He']. split; [eapply P_trans; eauto | exact He'].
    + split; [exact Hp | exact He].
Qed.

Lemma keeps_for_each {A} (l : list A) (body : A -> M unit) :
  (forall x, keeps P C (body x)) -> keeps P C (for_each l body).
Proof.
  intros Hb. induction l as [|x l IH]; simpl.
  - apply keeps_ret.
  - apply keeps_bind; [apply Hb | intros _; exact IH].
Qed.

Lemma keeps_map_m {A B} (f : A -> M B) (l : list A) :
  (forall x, keeps P C (f x)) -> keeps P C (map_m f l).
Proof.
  intros Hf. induction l as [|x l IH]; simpl.
  - apply keeps_ret.
  - apply keeps_bind; [apply Hf | intros y].
    apply keeps_bind; [exact IH | intros ys; apply keeps_ret].
Qed.

Lemma keeps_client_query {A} url sql (answer : SqlResult A) :
  keeps P C (client_query url sql answer).
Proof.
  unfold client_query. apply keeps_bind; [apply keeps_log_call | intros _].
  destruct answer; [apply keeps_ret | apply keeps_raise, C_database].
Qed.

Lemma keeps_client_execute E url stmt : keeps P C (client_execute E url stmt).
Proof.
  intros s. unfold client_execute.
  destruct (dp_reject E url _ stmt); simpl.
  - split; [apply P_call | intros e [= <-]; apply C_database].
  - split; [|discriminate].
    eapply P_trans; [apply P_call|].
    apply (P_written (add_call s (SqlWrite url stmt)) (url, stmt)).
Qed.

Lemma keeps_copy_row E new_client table columns row :
  keeps P C (copy_row E new_client table columns row).
Proof.
  unfold copy_row, row_values. apply keeps_bind.
  - apply keeps_map_m. intros col.
    destruct (row_get row col); [apply keeps_ret | apply keeps_raise, C_key].
  - intros values. apply keeps_client_execute.
Qed.

Lemma keeps_copy_table E old_client new_client table :
  keeps P C (copy_table E old_client new_client table).
Proof.
  unfold copy_table.
  apply keeps_bind; [apply keeps_print | intros _].
  apply keeps_bind; [apply keeps_client_query | intros [|create_sql schema_rows]].
  - apply keeps_ret.
  - apply keeps_bind; [apply keeps_client_execute | intros _].
    apply keeps_bind; [apply keeps_client_query | intros [|row0 rows]].
    + apply keeps_ret.
    + apply keeps_bind; [|intros _; apply keeps_print].
      apply keeps_for_each. intros i. apply keeps_for_each. intros row.
      apply keeps_copy_row.
Qed.

Lemma keeps_create_client E url auth_token :
  (forall msg, C (mkExc RuntimeErrorC msg) = true) ->
  keeps P C (create_client E url auth_token).
Proof.
  intros C_runtime. unfold create_client.
  destruct (dp_connect E url); [apply keeps_raise, C_runtime | apply keeps_ret].
Qed.

(** What follows the construction of a client runs with that client. *)
Lemma keeps_with_client {A} E url auth_token (k : string -> M A) :
  (forall msg, C (mkExc RuntimeErrorC msg) = true) ->
  keeps P C (k url) ->
  keeps P C (client <- create_client E url auth_token ;; k client).
Proof.
  intros C_runtime Hk s. unfold bind, create_client.
  destruct (dp_connect E url) as [msg|]; simpl.
  - split; [apply P_refl | intros e [= <-]; apply C_runtime].
  - apply Hk.
Qed.

Lemma keeps_copy_body E old_url old_token new_url new_token :
  (forall msg, C (mkExc ImportErrorC msg) = true) ->
  (forall msg, C (mkExc RuntimeErrorC msg) = true) ->
  keeps P C (copy_turso_data_body E old_url old_token new_url new_token).
Proof.
  intros C_import C_runtime. unfold copy_turso_data_body.
  apply keeps_bind; [|intros _].
  { destruct (libsql_installed E); [apply keeps_ret | apply keeps_raise, C_import]. }
  apply keeps_bind; [apply keeps_create_client, C_runtime | intros old_client].
  apply keeps_bind; [apply keeps_create_client, C_runtime | intros new_client].
  apply keeps_bind; [apply keeps_client_query | intros names].
  apply keeps_bind; [|intros _; apply keeps_ret].
  apply keeps_for_each. intros table. apply keeps_copy_table.
Qed.

Lemma keeps_copy_unless_import_error E old_url old_token new_url new_token :
  (forall msg, C (mkExc ImportErrorC msg) = true) ->
  (forall msg, C (mkExc RuntimeErrorC msg) = true) ->
  keeps P C (copy_unless_import_error E old_url old_token new_url new_token).
Proof.
  intros C_import C_runtime. unfold copy_unless_import_error.
  apply keeps_try; [apply keeps_copy_body; assumption|].
  intros _. apply keeps_bind; [apply keeps_print | intros _].
  apply keeps_bind; [apply keeps_print | intros _; apply keeps_ret].
Qed.

Lemma keeps_copy_turso_data E old_url old_token new_url new_token :
  (forall msg, C (mkExc ImportErrorC msg) = true) ->
  (forall msg, C (mkExc RuntimeErrorC msg) = true) ->
  keeps P C (copy_turso_data E old_url old_token new_url new_token).
Proof.
  intros C_import C_runtime. unfold copy_turso_data.
  apply keeps_try; [apply keeps_copy_unless_import_error; assumption|].
  intros e. apply keeps_bind; [apply keeps_print | intros _; apply keeps_ret].
Qed.

End Keeps.

(** [copy_turso_data] never raises: every exception of its body is caught. *)
Lemma copy_turso_data_returns E old_url old_token new_url new_token s :
  exists b, fst (copy_turso_data E old_url old_token new_url new_token s) = Ret b.
Proof.
  assert (Hk : keeps (fun _ _ => True) is_Exception
                 (copy_unless_import_error E old_url old_token new_url new_token))
    by (apply keeps_copy_unless_import_error; auto).
  unfold copy_turso_data, try_except. destruct (Hk s) as [_ He].
  destruct (copy_unless_import_error E old_url old_token new_url new_token s) as [[b|e] s1];
    simpl in *.
  - exists b. reflexivity.
  - rewrite (He e eq_refl). exists false. reflexivity.
Qed.




Lemma copy_keeps_control_and_catalog E old_url old_token new_url new_token s :
  control_and_catalog_kept s (snd (copy_turso_data E old_url old_token new_url new_token s)).
Proof.
  apply (@keeps_copy_turso_data control_and_catalog_kept) with (C := is_Exception);
    unfold control_and_catalog_kept; auto.
  intros s1 s2 s3 [H1 H2] [H3 H4]. split; congruence.
Qed.

(** *** Steps 3 and 4 of the [try:] block *)

Lemma update_run E id u t s :
  update_project_turso_credentials E id u t s =
  match pg_update_fault E id with
  | Some msg =>
    (Raise (mkExc DatabaseErrorC msg),
     add_line (add_call s (PgUpdateProject id u t)) (msg_update_error msg))
  | None =>
    (Ret tt, set_pg_projects (add_call s (PgUpdateProject id u t))
               (pg_update id u t (pg_projects s)))
  end.
Proof.
  unfold update_project_turso_credentials, try_except, bind, log_call.
  destruct (pg_update_fault E id); reflexivity.
Qed.

Lemma delete_run E n tok org s :
  delete_turso_db E n tok org s =
  match fst (serve E (DeleteDatabase org n) (cp_dbs s)) with
  | Unreachable msg => (Raise (mkExc ConnectionErrorC msg), delete_answered E n tok org s)
  | Responds r =>
    (Ret tt,
     if negb (ok r) && negb (status_code r =? 404)%Z
     then add_line (delete_answered E n tok org s) (msg_delete_warning n r)
     else delete_answered E n tok org s)
  end.
Proof.
  unfold delete_turso_db, delete_answered, bind, http.
  destruct (serve E (DeleteDatabase org n) (cp_dbs s)) as [[r|msg] dbs']; simpl; [|reflexivity].
  destruct (negb (ok r) && negb (status_code r =? 404)%Z); reflexivity.
Qed.

Lemma update_and_delete_run E p tok org u t s :
  update_and_delete E p tok org u t s =
  match pg_update_fault E (project_id p) with
  | Some msg =>
    (Raise (mkExc DatabaseErrorC msg),
     add_line (add_call (add_line s "  Updating project record...")
                 (PgUpdateProject (project_id p) u t)) (msg_update_error msg))
  | None =>
    match delete_turso_db E ("liteshow-" ++ slug p) tok org (updated p u t s) with
    | (Ret _, s') =>
      (Ret true, add_lines s' [ "  ✅ Old database deleted";
                                "  ✅ Migration complete for " ++ name p ])
    | (Raise e, s') => (Raise e, s')
    end
  end.
Proof.
  unfold update_and_delete.
  rewrite bind_run. unfold print at 1.
  rewrite bind_run, update_run.
  destruct (pg_update_fault E (project_id p)); [reflexivity|].
  rewrite bind_run. unfold print at 1.
  rewrite bind_run. unfold print at 1.
  rewrite bind_run. unfold updated, add_lines. simpl fold_left.
  destruct (delete_turso_db E _ tok org _) as [[[]|e] s']; reflexivity.
Qed.

(** *** The [try:] block after a successful create *)

Lemma migration_steps_run E p tok org s u t s3 b s5 :
  create_turso_db E ("liteshow-" ++ project_id p) tok org
    (add_line s ("  Creating new database: " ++ "liteshow-" ++ project_id p))
  = (Ret (u, t), s3) ->
  copy_turso_data E (turso_db_url p) (turso_db_token p) u t (before_copy u s3) = (Ret b, s5) ->
  migration_steps E p tok org s =
  update_and_delete E p tok org u t (add_line s5 (if b then msg_copied else msg_copy_failed)).
Proof.
  intros Hc Hd. unfold migration_steps.
  rewrite bind_run. unfold print at 1.
  rewrite (bind_ret_run _ _ _ Hc).
  rewrite bind_run. unfold print at 1.
  rewrite bind_run. unfold print at 1.
  unfold before_copy, add_lines in Hd. simpl fold_left in Hd.
  rewrite (bind_ret_run _ _ _ Hd).
  rewrite bind_run. destruct b; reflexivity.
Qed.

(** *** Databases present and absent *)

Lemma db_eqb_eq a b : db_eqb a b = true <-> a = b.
Proof.
  destruct a as [o n], b as [o' n']. unfold db_eqb. simpl.
  rewrite andb_true_iff, !String.eqb_eq. split.
  - intros [-> ->]. reflexivity.
  - intros [= -> ->]. auto.
Qed.

Lemma db_present_In dbs org n : db_present dbs org n = true <-> In (org, n) dbs.
Proof.
  unfold db_present. rewrite existsb_exists. split.
  - intros (d & Hd & He). apply db_eqb_eq in He. subst d. exact Hd.
  - intros H. exists (org, n). split; [exact H | apply db_eqb_eq; reflexivity].
Qed.

Lemma db_present_remove_same dbs org n : db_present (db_remove dbs org n) org n = false.
Proof.
  apply not_true_is_false. rewrite db_present_In. unfold db_remove.
  rewrite filter_In. intros [_ H]. apply negb_true_iff in H.
  assert (db_eqb (org, n) (org, n) = true) by (apply db_eqb_eq; reflexivity). congruence.
Qed.

Lemma db_present_remove_other dbs org n org' n' :
  (org', n') <> (org, n) ->
  db_present (db_remove dbs org n) org' n' = db_present dbs org' n'.
Proof.
  intros Hne. apply eq_true_iff_eq. rewrite !db_present_In. unfold db_remove.
  rewrite filter_In. split; [tauto|]. intros H. split; [exact H|].
  apply negb_true_iff, not_true_is_false. rewrite db_eqb_eq. congruence.
Qed.

Lemma db_present_add dbs org n org' n' :
  db_present (dbs ++ [(org, n)])%list org' n'
  = db_present dbs org' n' || db_eqb (org', n') (org, n).
Proof.
  unfold db_present. rewrite existsb_app. simpl. rewrite orb_false_r. reflexivity.
Qed.

(** What the control plane does with a delete it serves. *)
Lemma serve_delete_served E dbs org n :
  cp_fault E (DeleteDatabase org n) = None ->
  (exists r, fst (serve E (DeleteDatabase org n) dbs) = Responds r
             /\ (negb (ok r) && negb (status_code r =? 404)%Z) = false)
  /\ db_present (snd (serve E (DeleteDatabase org n) dbs)) org n = false
  /\ forall org' n', (org', n') <> (org, n) ->
       db_present (snd (serve E (DeleteDatabase org n) dbs)) org' n' = db_present dbs org' n'.
Proof.
  intros Hf. unfold serve. rewrite Hf.
  destruct (db_present dbs org n) eqn:Hp; simpl.
  - split; [eexists; split; reflexivity|]. split.
    + apply db_present_remove_same.
    + intros. apply db_present_remove_other. assumption.
  - split; [eexists; split; reflexivity|]. split; [exact Hp | reflexivity].
Qed.

(** A request answered out of turn changes no database. *)
Lemma serve_fault E req dbs answer :
  cp_fault E req = Some answer -> serve E req dbs = (answer, dbs).
Proof. intros Hf. unfold serve. rewrite Hf. reflexivity. Qed.

(** The catalog row of the project after the update. *)
Lemma pg_update_sets id u t rows q :
  In q (pg_update id u t rows) -> project_id q = id ->
  turso_db_url q = Some u /\ turso_db_token q = Some t.
Proof.
  unfold pg_update. rewrite in_map_iff. intros (q0 & Hq & _) Hid.
  destruct (project_id q0 =? id) eqn:He.
  - subst q. simpl. auto.
  - subst q. apply String.eqb_neq in He. contradiction.
Qed.

Ltac obs_simpl :=
  cbn [fst snd];
  unfold updated, delete_answered, before_copy;
  autorewrite with obs;
  cbn [calls cp_dbs pg_projects dp_written stdout
       add_line add_call set_cp_dbs set_pg_projects set_dp_written].

(** Membership in a list that only grew at the end. *)
Ltac grows := repeat first [ assumption | apply in_or_app; left ].

(** Membership in a list built with [++] and [::]. *)
Ltac find_in :=
  match goal with
  | |- In _ (_ ++ _)%list => apply in_or_app; ((left; find_in) || (right; find_in))
  | |- In _ (_ :: _) => (left; reflexivity) || (right; find_in)
  | _ => assumption
  end.

(** The full-migration quadrant, not a dry run: the [try:] block runs. *)
Lemma migrate_project_full E p tok org s r1 r2 :
  exists_answer E (cp_dbs s) org ("liteshow-" ++ slug p) = Responds r1 ->
  exists_answer E (cp_dbs s) org ("liteshow-" ++ project_id p) = Responds r2 ->
  status_code r1 = 200%Z ->
  status_code r2 <> 200%Z ->
  migrate_project E p tok org false s = guarded_steps E p tok org (after_checks p tok org false s).
Proof.
  intros H1 H2 S1 S2.
  rewrite (migrate_project_checked E p tok org false s H1 H2), migrate_branch_table.
  apply Z.eqb_eq in S1. apply Z.eqb_neq in S2. rewrite S1, S2. reflexivity.
Qed.

(** The [try:] block from the catalog update on, with its handler. *)
Lemma guarded_update_and_delete E p tok org u t s6 :
  let out :=
    try_except (update_and_delete E p tok org u t) is_Exception
      (fun e => print ("  ❌ Migration failed: " ++ exc_str e) ;; ret false) s6 in
  (forall l, In l (stdout s6) -> In l (stdout (snd out)))
  /\ In (PgUpdateProject (project_id p) u t) (calls (snd out))
  /\ (forall msg, pg_update_fault E (project_id p) = Some msg ->
        fst out = Ret false /\ same_world s6 (snd out))
  /\ (pg_update_fault E (project_id p) = None ->
        pg_projects (snd out) = pg_update (project_id p) u t (pg_projects s6)
        /\ dp_written (snd out) = dp_written s6
        /\ In (Http tok (DeleteDatabase org ("liteshow-" ++ slug p))) (calls (snd out))
        /\ cp_dbs (snd out)
           = snd (serve E (DeleteDatabase org ("liteshow-" ++ slug p)) (cp_dbs s6))
        /\ (forall r, fst (serve E (DeleteDatabase org ("liteshow-" ++ slug p)) (cp_dbs s6))
                      = Responds r -> fst out = Ret true)
        /\ (forall msg, fst (serve E (DeleteDatabase org ("liteshow-" ++ slug p)) (cp_dbs s6))
                        = Unreachable msg -> fst out = Ret false)
        /\ (forall r, fst (serve E (DeleteDatabase org ("liteshow-" ++ slug p)) (cp_dbs s6))
                      = Responds r ->
                      (negb (ok r) && negb (status_code r =? 404)%Z) = true ->
                      In (msg_delete_warning ("liteshow-" ++ slug p) r) (stdout (snd out)))).
Proof.
  intros out. subst out. unfold try_except. rewrite update_and_delete_run.
  destruct (pg_update_fault E (project_id p)) as [msg|] eqn:Hf.
  - cbn [is_Exception exc_class]. unfold bind, print, ret. obs_simpl.
    split; [intros l Hl; grows|].
    split; [apply in_or_app; right; left; reflexivity|].
    split; [|discriminate].
    intros msg' _. split; [reflexivity|]. unfold same_world. obs_simpl. auto.
  - rewrite delete_run.
    assert (Hd : cp_dbs (updated p u t s6) = cp_dbs s6) by (obs_simpl; reflexivity).
    rewrite Hd.
    destruct (serve E (DeleteDatabase org ("liteshow-" ++ slug p)) (cp_dbs s6))
      as [[r|msg] dbs'] eqn:Hs; cbn [fst snd].
    + assert (Hin : forall s', calls s' = (calls s6 ++ [PgUpdateProject (project_id p) u t]
                                  ++ [Http tok (DeleteDatabase org ("liteshow-" ++ slug p))])%list ->
                     In (PgUpdateProject (project_id p) u t) (calls s')
                     /\ In (Http tok (DeleteDatabase org ("liteshow-" ++ slug p))) (calls s')).
      { intros s' ->. split; apply in_or_app; right; simpl; auto. }
      destruct (negb (ok r) && negb (status_code r =? 404)%Z) eqn:Hw.
      * obs_simpl. rewrite Hs. cbn [snd].
        destruct (Hin (add_call (add_call s6 (PgUpdateProject (project_id p) u t))
                         (Http tok (DeleteDatabase org ("liteshow-" ++ slug p))))) as [I1 I2].
        { simpl. rewrite <- app_assoc. reflexivity. }
        simpl in I1, I2.
        split; [intros l Hl; grows|].
        split; [exact I1|]. split; [discriminate|]. intros _.
        repeat split; auto; try discriminate.
        intros r' [= <-] Hw'; first [congruence | find_in].
      * obs_simpl. rewrite Hs. cbn [snd].
        destruct (Hin (add_call (add_call s6 (PgUpdateProject (project_id p) u t))
                         (Http tok (DeleteDatabase org ("liteshow-" ++ slug p))))) as [I1 I2].
        { simpl. rewrite <- app_assoc. reflexivity. }
        simpl in I1, I2.
        split; [intros l Hl; grows|].
        split; [exact I1|]. split; [discriminate|]. intros _.
        repeat split; auto; try discriminate.
        intros r' [= <-] Hw'; first [congruence | find_in].
    + cbn [is_Exception exc_class]. unfold bind, print, ret. obs_simpl. rewrite Hs. cbn [snd].
      split; [intros l Hl; grows|].
      split; [apply in_or_app; left; apply in_or_app; right; left; reflexivity|].
      split; [discriminate|]. intros _.
      repeat split; auto; try discriminate.
      apply in_or_app; right; left; reflexivity.
Qed.

(** C6. A failed or skipped data copy does not abort the migration: in the
    full-migration quadrant (not a dry run), once the new database is
    created with host name [u] and token [t] and [copy_turso_data] has
    returned [False], the catalog update is requested with [u] and [t];
    unless that update itself fails, the project's row then holds [u] and
    [t], the delete of the old database is requested, and when the control
    plane serves it the old database is gone and [True] is returned. *)
Theorem copy_failure_does_not_abort E p tok org s r1 r2 u t s3 s5 :
  exists_answer E (cp_dbs s) org ("liteshow-" ++ slug p) = Responds r1 ->
  exists_answer E (cp_dbs s) org ("liteshow-" ++ project_id p) = Responds r2 ->
  status_code r1 = 200%Z ->
  status_code r2 <> 200%Z ->
  create_turso_db E ("liteshow-" ++ project_id p) tok org
    (add_line (after_checks p tok org false s)
       ("  Creating new database: " ++ "liteshow-" ++ project_id p))
  = (Ret (u, t), s3) ->
  copy_turso_data E (turso_db_url p) (turso_db_token p) u t (before_copy u s3)
  = (Ret false, s5) ->
  let out := migrate_project E p tok org false s in
  In msg_copy_failed (stdout (snd out))
  /\ In (PgUpdateProject (project_id p) u t) (calls (snd out))
  /\ (pg_update_fault E (project_id p) = None ->
        pg_projects (snd out) = pg_update (project_id p) u t (pg_projects s5)
        /\ (forall q, In q (pg_projects (snd out)) -> project_id q = project_id p ->
              turso_db_url q = Some u /\ turso_db_token q = Some t)
        /\ In (Http tok (DeleteDatabase org ("liteshow-" ++ slug p))) (calls (snd out))
        /\ (cp_fault E (DeleteDatabase org ("liteshow-" ++ slug p)) = None ->
              db_present (cp_dbs (snd out)) org ("liteshow-" ++ slug p) = false
              /\ fst out = Ret true)).
Proof.
  intros H1 H2 S1 S2 Hc Hd out. subst out.
  rewrite (migrate_project_full E p tok org s H1 H2 S1 S2).
  unfold guarded_steps, try_except.
  rewrite (migration_steps_run E p tok org _ Hc Hd).
  pose proof (guarded_update_and_delete E p tok org u t (add_line s5 msg_copy_failed)) as G.
  cbv zeta in G. unfold try_except in G.
  destruct G as (G0 & G1 & G2 & G3).
  split; [|split; [exact G1|]].
  - apply G0. simpl. apply in_or_app. right. left. reflexivity.
  - intros Hf. destruct (G3 Hf) as (K1 & K2 & K3 & K4 & K5 & K6).
    split; [exact K1|]. split.
    + intros q Hq Hid. rewrite K1 in Hq. eapply pg_update_sets; eauto.
    + split; [exact K3|]. intros Hdel.
      destruct (serve_delete_served E (cp_dbs (add_line s5 msg_copy_failed)) org
                  ("liteshow-" ++ slug p) Hdel) as ((r & Hr & _) & Hgone & _).
      split; [rewrite K4; exact Hgone | exact (K5 r Hr)].
Qed.

(** *** Step 1 when the control plane serves it *)

Lemma ok_200 t h j : ok (mkResponse 200 t h j) = true.
Proof. reflexivity. Qed.

Lemma create_served E n tok org s :
  cp_fault E (PostDatabase org n "liteshow") = None ->
  cp_fault E (PostAuthToken org n "never" "full-access") = None ->
  db_present (cp_dbs s) org n = false ->
  create_turso_db E n tok org s
  = (Ret (cp_hostname E org n, cp_jwt E org n), created tok org n s).
Proof.
  intros F1 F2 Hp. unfold create_turso_db.
  rewrite bind_run. unfold http at 1, serve. rewrite F1, Hp. cbn iota beta.
  rewrite ok_200. cbn [negb json_database].
  rewrite bind_run. unfold http at 1, serve. rewrite F2. cbn [cp_dbs set_cp_dbs].
  rewrite db_present_add, Hp.
  assert (Hr : db_eqb (org, n) (org, n) = true) by (apply db_eqb_eq; reflexivity).
  rewrite Hr. cbn [orb]. cbn iota beta.
  rewrite ok_200. cbn [negb json_jwt].
  reflexivity.
Qed.

(** The whole migration when the control plane serves the checks and the
    creation: the catalog update and the delete decide the outcome. *)
Lemma migrate_project_created E p tok org s :
  db_present (cp_dbs s) org ("liteshow-" ++ slug p) = true ->
  db_present (cp_dbs s) org ("liteshow-" ++ project_id p) = false ->
  cp_fault E (GetDatabase org ("liteshow-" ++ slug p)) = None ->
  cp_fault E (GetDatabase org ("liteshow-" ++ project_id p)) = None ->
  cp_fault E (PostDatabase org ("liteshow-" ++ project_id p) "liteshow") = None ->
  cp_fault E (PostAuthToken org ("liteshow-" ++ project_id p) "never" "full-access") = None ->
  exists s6,
    migrate_project E p tok org false s
    = try_except
        (update_and_delete E p tok org
           (cp_hostname E org ("liteshow-" ++ project_id p))
           (cp_jwt E org ("liteshow-" ++ project_id p)))
        is_Exception
        (fun e => print ("  ❌ Migration failed: " ++ exc_str e) ;; ret false) s6
    /\ cp_dbs s6 = (cp_dbs s ++ [(org, ("liteshow-" ++ project_id p)%string)])%list
    /\ pg_projects s6 = pg_projects s.
Proof.
  intros P1 P2 F1 F2 F3 F4.
  destruct (exists_answer_served E (cp_dbs s) org _ F1) as (r1 & H1 & S1).
  destruct (exists_answer_served E (cp_dbs s) org _ F2) as (r2 & H2 & S2).
  rewrite P1 in S1. rewrite P2 in S2. apply Z.eqb_eq in S1. apply Z.eqb_neq in S2.
  rewrite (migrate_project_full E p tok org s H1 H2 S1 S2).
  unfold guarded_steps.
  set (d := after_checks p tok org false s).
  set (sc := add_line d ("  Creating new database: " ++ "liteshow-" ++ project_id p)).
  assert (Hdbs : cp_dbs sc = cp_dbs s).
  { subst sc d. cbn [cp_dbs add_line]. unfold after_checks. autorewrite with obs. reflexivity. }
  assert (Hpg : pg_projects sc = pg_projects s).
  { subst sc d. cbn [pg_projects add_line]. unfold after_checks. autorewrite with obs.
    reflexivity. }
  assert (Hc := create_served E ("liteshow-" ++ project_id p) tok org sc F3 F4).
  rewrite Hdbs in Hc. specialize (Hc P2).
  set (u := cp_hostname E org ("liteshow-" ++ project_id p)) in *.
  set (t := cp_jwt E org ("liteshow-" ++ project_id p)) in *.
  set (s3 := created tok org ("liteshow-" ++ project_id p) sc) in *.
  destruct (copy_turso_data E (turso_db_url p) (turso_db_token p) u t (before_copy u s3))
    as [rb s5] eqn:Hcopy.
  destruct (copy_turso_data_returns E (turso_db_url p) (turso_db_token p) u t
              (before_copy u s3)) as [b Hb].
  rewrite Hcopy in Hb. cbn [fst] in Hb. subst rb.
  pose proof (copy_keeps_control_and_catalog E (turso_db_url p) (turso_db_token p) u t
                (before_copy u s3)) as [K1 K2].
  rewrite Hcopy in K1, K2. cbn [snd] in K1, K2.
  exists (add_line s5 (if b then msg_copied else msg_copy_failed)).
  split; [|split].
  - unfold try_except. subst sc. rewrite (migration_steps_run E p tok org d Hc Hcopy).
    reflexivity.
  - cbn [cp_dbs add_line]. rewrite K1. unfold before_copy. autorewrite with obs.
    subst s3. unfold created. cbn [cp_dbs add_call set_cp_dbs]. rewrite Hdbs. reflexivity.
  - cbn [pg_projects add_line]. rewrite K2. unfold before_copy. autorewrite with obs.
    subst s3. unfold created. cbn [pg_projects add_call set_cp_dbs]. exact Hpg.
Qed.

(** Deleting a database the control plane reports absent is a success:
    nothing is printed and nothing is raised. *)
Lemma delete_absent_is_success E n tok org s :
  cp_fault E (DeleteDatabase org n) = None ->
  db_present (cp_dbs s) org n = false ->
  delete_turso_db E n tok org s = (Ret tt, add_call s (Http tok (DeleteDatabase org n))).
Proof.
  intros Hf Hp. rewrite delete_run. unfold delete_answered, serve. rewrite Hf, Hp.
  reflexivity.
Qed.

(** C7 (amended). Deleting a database the control plane reports absent (404)
    succeeds silently.  In a migration whose checks and creation the control
    plane serves: a failure of the catalog update (step 4) and a delete
    request that raises (step 5) are reported by [False] and leave both the
    old and the new database existing; a delete answered out of turn with
    a response, whatever its status, is not reported as a failure:
    [True] is returned, a WARNING line is printed when the status is a 4xx or
    5xx other than 404, and both databases still exist; a delete the control
    plane serves returns [True] with the old database gone and the new one
    present. *)
Theorem delete_failure_is_a_warning E p tok org s :
  db_present (cp_dbs s) org ("liteshow-" ++ slug p) = true ->
  db_present (cp_dbs s) org ("liteshow-" ++ project_id p) = false ->
  cp_fault E (GetDatabase org ("liteshow-" ++ slug p)) = None ->
  cp_fault E (GetDatabase org ("liteshow-" ++ project_id p)) = None ->
  cp_fault E (PostDatabase org ("liteshow-" ++ project_id p) "liteshow") = None ->
  cp_fault E (PostAuthToken org ("liteshow-" ++ project_id p) "never" "full-access") = None ->
  let out := migrate_project E p tok org false s in
  let old_present := db_present (cp_dbs (snd out)) org ("liteshow-" ++ slug p) in
  let new_present := db_present (cp_dbs (snd out)) org ("liteshow-" ++ project_id p) in
  (forall n s0, cp_fault E (DeleteDatabase org n) = None ->
                db_present (cp_dbs s0) org n = false ->
                delete_turso_db E n tok org s0
                = (Ret tt, add_call s0 (Http tok (DeleteDatabase org n))))
  /\ (forall msg, pg_update_fault E (project_id p) = Some msg ->
        fst out = Ret false /\ old_present = true /\ new_present = true)
  /\ (pg_update_fault E (project_id p) = None ->
        (forall msg,
            cp_fault E (DeleteDatabase org ("liteshow-" ++ slug p)) = Some (Unreachable msg) ->
            fst out = Ret false /\ old_present = true /\ new_present = true)
        /\ (forall r,
               cp_fault E (DeleteDatabase org ("liteshow-" ++ slug p)) = Some (Responds r) ->
               fst out = Ret true /\ old_present = true /\ new_present = true
               /\ ((negb (ok r) && negb (status_code r =? 404)%Z) = true ->
                   In (msg_delete_warning ("liteshow-" ++ slug p) r) (stdout (snd out))))
        /\ (cp_fault E (DeleteDatabase org ("liteshow-" ++ slug p)) = None ->
            fst out = Ret true /\ old_present = false /\ new_present = true)).
Proof.
  intros P1 P2 F1 F2 F3 F4 out old_present new_present.
  destruct (@migrate_project_created E p tok org s P1 P2 F1 F2 F3 F4) as (s6 & Hrun & Hdbs & _).
  subst old_present new_present out. rewrite Hrun.
  pose proof (guarded_update_and_delete E p tok org
                (cp_hostname E org ("liteshow-" ++ project_id p))
                (cp_jwt E org ("liteshow-" ++ project_id p)) s6) as G.
  cbv zeta in G. destruct G as (_ & _ & G2 & G3).
  assert (Hne : (org, ("liteshow-" ++ project_id p)%string)
                <> (org, ("liteshow-" ++ slug p)%string)).
  { intros Heq. apply (f_equal snd) in Heq. cbn [snd] in Heq. rewrite Heq in P2. congruence. }
  assert (Hold : db_present (cp_dbs s6) org ("liteshow-" ++ slug p) = true).
  { rewrite Hdbs, db_present_add, P1. reflexivity. }
  assert (Hnew : db_present (cp_dbs s6) org ("liteshow-" ++ project_id p) = true).
  { rewrite Hdbs, db_present_add.
    assert (Hr : db_eqb (org, ("liteshow-" ++ project_id p)%string)
                   (org, ("liteshow-" ++ project_id p)%string) = true)
      by (apply db_eqb_eq; reflexivity).
    rewrite Hr. apply orb_true_r. }
  split; [intros n s0; apply delete_absent_is_success|].
  split.
  - intros msg Hf. destruct (G2 msg Hf) as (R & W & _). rewrite W. auto.
  - intros Hf. destruct (G3 Hf) as (_ & _ & _ & K4 & K5 & K6 & K7).
    rewrite K4. split; [|split].
    + intros msg Hd. rewrite (serve_fault E _ _ Hd) in *. cbn [fst snd] in *.
      split; [apply (K6 msg); reflexivity | auto].
    + intros r Hd. rewrite (serve_fault E _ _ Hd) in *. cbn [fst snd] in *.
      split; [apply (K5 r); reflexivity|]. split; [exact Hold|]. split; [exact Hnew|].
      intros Hw. apply (K7 r); [reflexivity | exact Hw].
    + intros Hd.
      destruct (serve_delete_served E (cp_dbs s6) org ("liteshow-" ++ slug p) Hd)
        as ((r & Hr & _) & Hgone & Hother).
      split; [exact (K5 r Hr)|]. split; [exact Hgone|].
      rewrite (Hother org ("liteshow-" ++ project_id p)%string Hne). exact Hnew.
Qed.

(** *** A migration and its rerun *)

(** When every service answers, the migration returns [True] and leaves the
    old database absent, the new one present and the catalog updated. *)
Lemma migrate_project_served E p tok org s :
  db_present (cp_dbs s) org ("liteshow-" ++ slug p) = true ->
  db_present (cp_dbs s) org ("liteshow-" ++ project_id p) = false ->
  cp_fault E (GetDatabase org ("liteshow-" ++ slug p)) = None ->
  cp_fault E (GetDatabase org ("liteshow-" ++ project_id p)) = None ->
  cp_fault E (PostDatabase org ("liteshow-" ++ project_id p) "liteshow") = None ->
  cp_fault E (PostAuthToken org ("liteshow-" ++ project_id p) "never" "full-access") = None ->
  pg_update_fault E (project_id p) = None ->
  cp_fault E (DeleteDatabase org ("liteshow-" ++ slug p)) = None ->
  fst (migrate_project E p tok org false s) = Ret true
  /\ db_present (cp_dbs (snd (migrate_project E p tok org false s))) org
       ("liteshow-" ++ slug p) = false
  /\ db_present (cp_dbs (snd (migrate_project E p tok org false s))) org
       ("liteshow-" ++ project_id p) = true
  /\ pg_projects (snd (migrate_project E p tok org false s))
     = pg_update (project_id p) (cp_hostname E org ("liteshow-" ++ project_id p))
         (cp_jwt E org ("liteshow-" ++ project_id p)) (pg_projects s).
Proof.
  intros P1 P2 F1 F2 F3 F4 Hf Hd.
  destruct (@migrate_project_created E p tok org s P1 P2 F1 F2 F3 F4)
    as (s6 & Hrun & Hdbs & Hpg).
  rewrite Hrun.
  pose proof (guarded_update_and_delete E p tok org
                (cp_hostname E org ("liteshow-" ++ project_id p))
                (cp_jwt E org ("liteshow-" ++ project_id p)) s6) as G.
  cbv zeta in G. destruct G as (_ & _ & _ & G3).
  destruct (G3 Hf) as (K1 & _ & _ & K4 & K5 & _).
  destruct (serve_delete_served E (cp_dbs s6) org ("liteshow-" ++ slug p) Hd)
    as ((r & Hr & _) & Hgone & Hother).
  split; [exact (K5 r Hr)|]. rewrite K4, K1, Hpg.
  split; [exact Hgone|]. split; [|reflexivity].
  rewrite Hother.
  - rewrite Hdbs, db_present_add.
    assert (Hrefl : db_eqb (org, ("liteshow-" ++ project_id p)%string)
                      (org, ("liteshow-" ++ project_id p)%string) = true)
      by (apply db_eqb_eq; reflexivity).
    rewrite Hrefl. apply orb_true_r.
  - intros Heq. apply (f_equal snd) in Heq. cbn [snd] in Heq. rewrite Heq in P2. congruence.
Qed.

(** X12. A migration every service answers, then a second run for the same
    project (as the catalog has it now, dry or not): the first run returns
    [True]; the second run takes the already-migrated branch, returns
    [True], changes nothing and makes no mutating call. *)
Lemma migrate_twice E p p' tok org dry s :
  db_present (cp_dbs s) org ("liteshow-" ++ slug p) = true ->
  db_present (cp_dbs s) org ("liteshow-" ++ project_id p) = false ->
  cp_fault E (GetDatabase org ("liteshow-" ++ slug p)) = None ->
  cp_fault E (GetDatabase org ("liteshow-" ++ project_id p)) = None ->
  cp_fault E (PostDatabase org ("liteshow-" ++ project_id p) "liteshow") = None ->
  cp_fault E (PostAuthToken org ("liteshow-" ++ project_id p) "never" "full-access") = None ->
  pg_update_fault E (project_id p) = None ->
  cp_fault E (DeleteDatabase org ("liteshow-" ++ slug p)) = None ->
  project_id p' = project_id p ->
  slug p' = slug p ->
  let first := migrate_project E p tok org false s in
  let second := migrate_project E p' tok org dry (snd first) in
  fst first = Ret true
  /\ second = (Ret true, add_lines (after_checks p' tok org dry (snd first))
                           [msg_old_missing; msg_already_migrated])
  /\ same_world (snd first) (snd second)
  /\ filter mutating (calls (snd second)) = filter mutating (calls (snd first)).
Proof.
  intros P1 P2 F1 F2 F3 F4 Hf Hd Hid Hslug first second.
  destruct (@migrate_project_served E p tok org s P1 P2 F1 F2 F3 F4 Hf Hd)
    as (Hr & Hold & Hnew & _).
  fold first in Hr, Hold, Hnew. subst second.
  rewrite <- Hslug in Hold, F1. rewrite <- Hid in Hnew, F2.
  destruct (exists_answer_served E (cp_dbs (snd first)) org _ F1) as (r1 & H1 & S1).
  destruct (exists_answer_served E (cp_dbs (snd first)) org _ F2) as (r2 & H2 & S2).
  rewrite (migrate_project_checked E p' tok org dry (snd first) H1 H2), migrate_branch_table.
  rewrite S1, S2, Hold, Hnew. simpl decision_table. cbv iota.
  split; [exact Hr|]. split; [reflexivity|]. cbn [snd].
  destruct (decided_lines_obs p' tok org dry (snd first)
              [msg_old_missing; msg_already_migrated]) as (Hw & _ & Hm).
  auto.
Qed.

(** ** The data copy *)

(** *** Loops *)




(** *** Batches *)

Lemma firstn_add {A} (a b : nat) (l : list A) :
  firstn (a + b) l = (firstn a l ++ firstn b (skipn a l))%list.
Proof.
  revert l. induction a as [|a IH]; intros l; simpl.
  - reflexivity.
  - destruct l as [|x l]; simpl.
    + rewrite firstn_nil. reflexivity.
    + rewrite IH. reflexivity.
Qed.

Lemma chunks_firstn {A} (step m : nat) (l : list A) :
  flat_map (fun i => slice l i (i + step)) (map (fun k => k * step) (seq 0 m))
  = firstn (m * step) l.
Proof.
  induction m as [|m IH].
  - reflexivity.
  - rewrite seq_S, map_app, flat_map_app, IH. simpl.
    rewrite app_nil_r. unfold slice.
    replace (m * step + step - m * step) with step by lia.
    replace (step + m * step) with (m * step + step) by lia.
    symmetry. apply firstn_add.
Qed.



(** *** Rows *)




(** *** What the destination receives *)




Lemma copied_tables_no_bookkeeping names : ~ In "sqlite_sequence" (copied_tables names).
Proof.
  unfold copied_tables. rewrite filter_In. intros [_ H]. discriminate H.
Qed.

(** *** When the copy fails *)



(** A client that cannot be built ends the copy before any query. *)
Lemma copy_client_not_built E old_url old_token new_url new_token s msg :
  libsql_installed E = true ->
  dp_connect E ("libsql://" ++ str_opt old_url) = Some msg ->
  copy_turso_data E old_url old_token new_url new_token s
  = (Ret false, add_line s (msg_copy_error (mkExc RuntimeErrorC msg))).
Proof.
  intros Hi Hc.
  unfold copy_turso_data, copy_unless_import_error, try_except, copy_turso_data_body.
  rewrite bind_run, Hi. unfold ret at 1.
  rewrite bind_run. unfold create_client at 1. rewrite Hc. reflexivity.
Qed.





(** ** The fleet loop *)

Lemma re_ret {A} (a : A) : raises_exceptions (ret a).
Proof. intros s e H. discriminate H. Qed.

Lemma re_raise {A} (e : Exc) : is_Exception e = true -> raises_exceptions (@raise A e).
Proof. intros He s e' [= <-]. exact He. Qed.

Lemma re_print l : raises_exceptions (print l).
Proof. intros s e H. discriminate H. Qed.

Lemma re_bind {A B} (m : M A) (k : A -> M B) :
  raises_exceptions m -> (forall a, raises_exceptions (k a)) ->
  raises_exceptions (x <- m ;; k x).
Proof.
  intros Hm Hk s e. unfold bind. specialize (Hm s).
  destruct (m s) as [[a|e'] s1]; simpl in *.
  - apply Hk.
  - intros [= <-]. apply Hm. reflexivity.
Qed.

Lemma re_http E tok req : raises_exceptions (http E tok req).
Proof.
  intros s e. unfold http. destruct (serve E req (cp_dbs s)) as [[r|msg] dbs']; simpl.
  - discriminate.
  - intros [= <-]. reflexivity.
Qed.

Lemma re_create E n tok org : raises_exceptions (create_turso_db E n tok org).
Proof.
  unfold create_turso_db. apply re_bind; [apply re_http | intros response].
  destruct (negb (ok response)); [apply re_raise; reflexivity|].
  destruct (json_database response) as [[hostname|]|]; try (apply re_raise; reflexivity).
  apply re_bind; [apply re_http | intros token_response].
  destruct (negb (ok token_response)); [apply re_raise; reflexivity|].
  destruct (json_jwt token_response); [apply re_ret | apply re_raise; reflexivity].
Qed.

Lemma re_copy E old_url old_token new_url new_token :
  raises_exceptions (copy_turso_data E old_url old_token new_url new_token).
Proof.
  intros s e H.
  destruct (copy_turso_data_returns E old_url old_token new_url new_token s) as [b Hb].
  congruence.
Qed.

Lemma re_update E id u t : raises_exceptions (update_project_turso_credentials E id u t).
Proof.
  intros s e. rewrite update_run. destruct (pg_update_fault E id); simpl.
  - intros [= <-]. reflexivity.
  - discriminate.
Qed.

Lemma re_delete E n tok org : raises_exceptions (delete_turso_db E n tok org).
Proof.
  unfold delete_turso_db. apply re_bind; [apply re_http | intros response].
  destruct (negb (ok response) && negb (status_code response =? 404)%Z);
    [apply re_print | apply re_ret].
Qed.

Lemma re_migration_steps E p tok org : raises_exceptions (migration_steps E p tok org).
Proof.
  unfold migration_steps.
  apply re_bind; [apply re_print | intros _].
  apply re_bind; [apply re_create | intros [u t]].
  apply re_bind; [apply re_print | intros _].
  apply re_bind; [apply re_print | intros _].
  apply re_bind; [apply re_copy | intros b].
  apply re_bind; [destruct b; apply re_print | intros _].
  unfold update_and_delete.
  apply re_bind; [apply re_print | intros _].
  apply re_bind; [apply re_update | intros _].
  apply re_bind; [apply re_print | intros _].
  apply re_bind; [apply re_print | intros _].
  apply re_bind; [apply re_delete | intros _].
  apply re_bind; [apply re_print | intros _].
  apply re_bind; [apply re_print | intros _].
  apply re_ret.
Qed.

(** Every failure of the [try:] block is turned into [False]. *)
Lemma guarded_steps_returns E p tok org s :
  exists b, fst (guarded_steps E p tok org s) = Ret b.
Proof.
  unfold guarded_steps, try_except.
  pose proof (re_migration_steps E p tok org s) as He.
  destruct (migration_steps E p tok org s) as [[b|e] s1]; simpl in *.
  - exists b. reflexivity.
  - rewrite (He e eq_refl). exists false. reflexivity.
Qed.

Lemma migrate_branch_returns E p tok org dry o n s :
  exists b, fst (migrate_branch E p tok org dry o n s) = Ret b.
Proof.
  rewrite migrate_branch_table.
  destruct (decision_table o n _); try (eexists; reflexivity).
  destruct dry; [eexists; reflexivity | apply guarded_steps_returns].
Qed.

Lemma exists_answer_responds E dbs org n :
  checks_answered E org -> exists r, exists_answer E dbs org n = Responds r.
Proof.
  intros Ha. unfold exists_answer, serve. specialize (Ha n).
  destruct (cp_fault E (GetDatabase org n)) as [[r|msg]|].
  - exists r. reflexivity.
  - exfalso. apply (Ha msg). reflexivity.
  - destruct (db_present dbs org n); eexists; reflexivity.
Qed.

(** With its existence checks answered, [migrate_project] returns. *)
Lemma migrate_project_returns E p tok org dry s :
  checks_answered E org -> exists b, fst (migrate_project E p tok org dry s) = Ret b.
Proof.
  intros Ha.
  destruct (@exists_answer_responds E (cp_dbs s) org ("liteshow-" ++ slug p) Ha) as [r1 H1].
  destruct (@exists_answer_responds E (cp_dbs s) org ("liteshow-" ++ project_id p) Ha)
    as [r2 H2].
  rewrite (migrate_project_checked E p tok org dry s H1 H2).
  apply migrate_branch_returns.
Qed.

(** The loop counts every project once, as a success or as a skip. *)
Lemma migrate_each_counts E projects tok org dry success skip s :
  checks_answered E org ->
  exists success' skip',
    fst (migrate_each E projects tok org dry success skip s) = Ret (success', skip')
    /\ success' + skip' = success + skip + length projects.
Proof.
  intros Ha. revert success skip s.
  induction projects as [|p projects IH]; intros success skip s; simpl.
  - exists success, skip. split; [reflexivity | lia].
  - unfold bind.
    destruct (@migrate_project_returns E p tok org dry s Ha) as [b Hb].
    destruct (migrate_project E p tok org dry s) as [r s1]. simpl in Hb. subst r.
    destruct b.
    + destruct (IH (success + 1) skip s1) as (a & c & Hr & Hs).
      exists a, c. split; [exact Hr | lia].
    + destruct (IH success (skip + 1) s1) as (a & c & Hr & Hs).
      exists a, c. split; [exact Hr | lia].
Qed.

(** X9. The part of fleet isolation that holds: when the configuration is
    there, the catalog answers and the control plane answers every existence
    check, [main] reaches its summary; the total is the number of projects
    fetched, every project is counted as a success or as a skip, and the
    failure counter is zero whatever happened. *)
Lemma fleet_run_completes E argv s api_token :
  env_TURSO_API_TOKEN E = Some api_token ->
  api_token <> "" ->
  truthy (env_DATABASE_URL E) = true ->
  pg_select_fault E = None ->
  checks_answered E (match env_TURSO_ORG E with Some o => o | None => "perryraskin" end) ->
  exists summary,
    fst (main E argv s) = Ret summary
    /\ total summary = length (pg_projects s)
    /\ success_count summary + skip_count summary = total summary
    /\ fail_count summary = 0.
Proof.
  intros Ht Hne Hdb Hpg Ha. unfold main.
  set (dry := existsb (String.eqb "--dry-run") argv).
  set (org := match env_TURSO_ORG E with Some o => o | None => "perryraskin" end) in *.
  rewrite bind_run.
  destruct ((if dry then _ else ret tt) s) as [r0 s0] eqn:H0.
  assert (Hs0 : r0 = Ret tt /\ pg_projects s0 = pg_projects s).
  { destruct dry; simpl in H0; injection H0 as <- <-; auto. }
  destruct Hs0 as [-> Hp0].
  rewrite bind_run. unfold print at 1. rewrite bind_run. unfold print at 1.
  rewrite bind_run. unfold get_turso_credentials at 1. rewrite Ht.
  apply String.eqb_neq in Hne. rewrite Hne. fold org. unfold ret at 1.
  rewrite bind_run. unfold print at 1. rewrite bind_run. unfold print at 1.
  rewrite bind_run. unfold get_all_projects at 1. rewrite Hdb, Hpg. cbn [negb].
  unfold try_except at 1. rewrite bind_run. unfold log_call at 1.
  cbn [pg_projects add_call add_line]. rewrite Hp0.
  rewrite bind_run. unfold print at 1. rewrite bind_run.
  match goal with
  | |- context [migrate_each E ?ps ?t ?o ?d 0 0 ?st] =>
    destruct (@migrate_each_counts E ps t o d 0 0 st Ha) as (a & c & Hr & Hs);
    destruct (migrate_each E ps t o d 0 0 st) as [r1 s1]
  end.
  simpl in Hr. subst r1.
  repeat (rewrite bind_run; unfold print at 1).
  clearbody dry.
  destruct dry; (eexists; split; [reflexivity|]; simpl; repeat split; lia).
Qed.

(** A dry run of the whole loop leaves the world untouched and makes no
    mutating call, whatever the services answer. *)
Lemma dry_fleet_keeps_world E projects tok org success skip s :
  same_world s (snd (migrate_each E projects tok org true success skip s))
  /\ filter mutating (calls (snd (migrate_each E projects tok org true success skip s)))
     = filter mutating (calls s).
Proof.
  revert success skip s.
  induction projects as [|p projects IH]; intros success skip s; simpl.
  - unfold same_world. auto.
  - unfold bind. destruct (dry_run_keeps_world E p tok org s) as [Hw Hm].
    destruct (migrate_project E p tok org true s) as [[b|e] s1]; cbn [snd] in *.
    + assert (Hnext : forall a c,
                 same_world s (snd (migrate_each E projects tok org true a c s1))
                 /\ filter mutating
                      (calls (snd (migrate_each E projects tok org true a c s1)))
                    = filter mutating (calls s)).
      { intros a c. destruct (IH a c s1) as [Hw' Hm'].
        destruct Hw as (W1 & W2 & W3). destruct Hw' as (V1 & V2 & V3).
        unfold same_world. rewrite V1, V2, V3, Hm'. auto. }
      destruct b; apply Hnext.
    + auto.
Qed.

(** ** The full migration path *)

Lemma log_grows_refl s : log_grows s s.
Proof. split; exists []; rewrite app_nil_r; reflexivity. Qed.

Lemma log_grows_trans s1 s2 s3 : log_grows s1 s2 -> log_grows s2 s3 -> log_grows s1 s3.
Proof.
  intros [[c1 H1] [l1 G1]] [[c2 H2] [l2 G2]]. split.
  - exists (c1 ++ c2)%list. rewrite H2, H1, app_assoc. reflexivity.
  - exists (l1 ++ l2)%list. rewrite G2, G1, app_assoc. reflexivity.
Qed.

Lemma log_grows_line s l : log_grows s (add_line s l).
Proof. split; [exists [] | exists [l]]; simpl; [rewrite app_nil_r|]; reflexivity. Qed.

Lemma log_grows_call s c : log_grows s (add_call s c).
Proof. split; [exists [c] | exists []]; simpl; [|rewrite app_nil_r]; reflexivity. Qed.

Lemma log_grows_written s w : log_grows s (set_dp_written s w).
Proof. split; exists []; simpl; rewrite app_nil_r; reflexivity. Qed.

Lemma grows_http E tok req : keeps log_grows (fun _ => true) (http E tok req).
Proof.
  intros s. unfold http.
  destruct (serve E req (cp_dbs s)) as [[r|msg] dbs']; cbn [fst snd];
    (split; [|auto]); (split; [exists [Http tok req] | exists []]); simpl;
    try rewrite app_nil_r; reflexivity.
Qed.

Lemma grows_update E id u t :
  keeps log_grows (fun _ => true) (update_project_turso_credentials E id u t).
Proof.
  intros s. rewrite update_run. destruct (pg_update_fault E id); cbn [fst snd].
  - split; [|auto]. eapply log_grows_trans; [apply log_grows_call | apply log_grows_line].
  - split; [|auto]. split; [exists [PgUpdateProject id u t] | exists []]; simpl;
      try rewrite app_nil_r; reflexivity.
Qed.

Ltac grows_print :=
  apply keeps_bind; [apply log_grows_trans | apply keeps_print, log_grows_line | intros _].

Lemma grows_delete E n tok org : keeps log_grows (fun _ => true) (delete_turso_db E n tok org).
Proof.
  unfold delete_turso_db.
  apply keeps_bind; [apply log_grows_trans | apply grows_http | intros response].
  destruct (negb (ok response) && negb (status_code response =? 404)%Z).
  - apply keeps_print, log_grows_line.
  - apply keeps_ret, log_grows_refl.
Qed.

(** What follows the first step of a block only adds to the calls and the
    lines of that step. *)
Lemma grows_after_bind {A B} (m : M A) (k : A -> M B) s :
  (forall a, keeps log_grows (fun _ => true) (k a)) ->
  log_grows (snd (m s)) (snd ((x <- m ;; k x) s)).
Proof.
  intros Hk. unfold bind. destruct (m s) as [[a|e] s1]; cbn [snd].
  - apply Hk.
  - apply log_grows_refl.
Qed.

Lemma http_logged E tok req s :
  calls (snd (http E tok req s)) = (calls s ++ [Http tok req])%list
  /\ stdout (snd (http E tok req s)) = stdout s.
Proof.
  unfold http. destruct (serve E req (cp_dbs s)) as [[r|msg] dbs']; split; reflexivity.
Qed.

(** [create_turso_db] starts with the create request. *)
Lemma create_starts_with_request E n tok org s :
  exists cs ls,
    calls (snd (create_turso_db E n tok org s))
    = (calls s ++ Http tok (PostDatabase org n "liteshow") :: cs)%list
    /\ stdout (snd (create_turso_db E n tok org s)) = (stdout s ++ ls)%list.
Proof.
  unfold create_turso_db.
  match goal with
  | |- context [(response <- http E tok ?req ;; @?k response) s] =>
    assert (G : log_grows (snd (http E tok req s))
                  (snd ((response <- http E tok req ;; k response) s)))
  end.
  { apply grows_after_bind. intros response.
    destruct (negb (ok response));
      [apply keeps_raise; [apply log_grows_refl | reflexivity]|].
    destruct (json_database response) as [[hostname|]|];
      try (apply keeps_raise; [apply log_grows_refl | reflexivity]).
    apply keeps_bind; [apply log_grows_trans | apply grows_http | intros token_response].
    destruct (negb (ok token_response));
      [apply keeps_raise; [apply log_grows_refl | reflexivity]|].
    destruct (json_jwt token_response).
    - apply keeps_ret, log_grows_refl.
    - apply keeps_raise; [apply log_grows_refl | reflexivity]. }
  destruct G as [[cs Hcs] [ls Hls]].
  destruct (http_logged E tok (PostDatabase org n "liteshow") s) as [Hc Hl].
  exists cs, ls. cbv beta in Hcs, Hls. rewrite Hcs, Hls, Hc, Hl, <- app_assoc.
  split; reflexivity.
Qed.

(** What follows the first step of a [try:] block, handler included, only
    adds to the calls and the lines of that step. *)
Lemma grows_after {A B} (m : M A) (k : A -> M B) c (h : Exc -> M B) s :
  (forall a, keeps log_grows (fun _ => true) (k a)) ->
  (forall e, keeps log_grows (fun _ => true) (h e)) ->
  log_grows (snd (m s)) (snd (try_except (x <- m ;; k x) c h s)).
Proof.
  intros Hk Hh. unfold try_except, bind.
  destruct (m s) as [[a|e] s1]; cbn [snd].
  - pose proof (proj1 (@keeps_try log_grows log_grows_trans (fun _ => true) _ (k a) c h
                         (Hk a) Hh s1)) as G.
    unfold try_except in G. exact G.
  - destruct (c e); [apply Hh | apply log_grows_refl].
Qed.

(** The [try:] block announces the creation of the new database, requests
    it, and whatever follows only adds calls and lines. *)
Lemma guarded_steps_start E p tok org s :
  (exists ls, stdout (snd (guarded_steps E p tok org s))
              = (stdout s ++ ("  Creating new database: " ++ "liteshow-" ++ project_id p)%string
                 :: ls)%list)
  /\ (exists cs, calls (snd (guarded_steps E p tok org s))
                 = (calls s
                    ++ Http tok (PostDatabase org ("liteshow-" ++ project_id p)%string
                                   "liteshow") :: cs)%list).
Proof.
  unfold guarded_steps, migration_steps.
  set (l := "  Creating new database: " ++ "liteshow-" ++ project_id p).
  match goal with
  | |- context [try_except (print l ;; ?k) ?c ?h s] =>
    change (try_except (print l ;; k) c h s) with (try_except k c h (add_line s l));
    assert (G : log_grows
                  (snd (create_turso_db E ("liteshow-" ++ project_id p) tok org
                          (add_line s l)))
                  (snd (try_except k c h (add_line s l))))
  end.
  { apply grows_after.
    - intros [u t].
      grows_print. grows_print.
      apply keeps_bind; [apply log_grows_trans | | intros b].
      { apply keeps_copy_turso_data; auto.
        - apply log_grows_refl.
        - apply log_grows_trans.
        - apply log_grows_line.
        - apply log_grows_call.
        - intros s0 x. apply log_grows_written. }
      apply keeps_bind;
        [apply log_grows_trans | destruct b; apply keeps_print, log_grows_line | intros _].
      unfold update_and_delete. grows_print.
      apply keeps_bind; [apply log_grows_trans | apply grows_update | intros _].
      grows_print. grows_print.
      apply keeps_bind; [apply log_grows_trans | apply grows_delete | intros _].
      grows_print. grows_print.
      apply keeps_ret, log_grows_refl.
    - intros e. grows_print. apply keeps_ret, log_grows_refl. }
  destruct G as [[cs Hcs] [ls Hls]].
  destruct (create_starts_with_request E ("liteshow-" ++ project_id p) tok org (add_line s l))
    as (cs0 & ls0 & Hc0 & Hl0).
  split.
  - exists (ls0 ++ ls)%list. rewrite Hls, Hl0. cbn [stdout add_line].
    rewrite <- !app_assoc. reflexivity.
  - exists (cs0 ++ cs)%list. rewrite Hcs, Hc0. cbn [calls add_line].
    rewrite <- app_assoc. reflexivity.
Qed.

(** C1. Quadrant coverage: with the two existence checks answered, the
    quadrant (old exists, new exists) selects the action of the decision
    table of the spec, and nothing else.  (false, false) is the skip that
    prints "no Turso database - skipping" when the stored location is unset
    (null or empty) and the silent skip left to manual review otherwise;
    (false, true) reports the project as already migrated; (true, true) is
    the naming-conflict skip; (true, false) is the migration itself (its
    plan under a dry run).  The script returns a boolean: [True] for the
    no-database skip and for the already-migrated project, [False] for the
    two other skips.  In these four cases the final state is the state of
    the decision plus the lines printed: nothing is changed.  On the full
    migration path the [try:] block runs from the state of the decision: it
    returns a boolean, its first line announces the creation of the new
    database and its first call requests it; and when the quadrant is the
    true one and the control plane and the catalog serve every request, the
    migration is done: [True] is returned, the old database is gone, the
    new one exists and the catalog row holds its host name and token. *)
Theorem quadrant_coverage E p tok org dry s r1 r2 :
  exists_answer E (cp_dbs s) org ("liteshow-" ++ slug p) = Responds r1 ->
  exists_answer E (cp_dbs s) org ("liteshow-" ++ project_id p) = Responds r2 ->
  let old_exists := (status_code r1 =? 200)%Z in
  let new_exists := (status_code r2 =? 200)%Z in
  let location_unset := negb (truthy (turso_db_url p)) in
  let decided := after_checks p tok org dry s in
  let out := migrate_project E p tok org dry s in
  match decision_table old_exists new_exists location_unset with
  | SkipNoDatabase =>
    out = (Ret true, add_lines decided [msg_old_missing; msg_no_database])
  | SkipManualReview =>
    out = (Ret false, add_lines decided [msg_old_missing])
  | AlreadyMigrated =>
    out = (Ret true, add_lines decided [msg_old_missing; msg_already_migrated])
  | SkipNamingConflict =>
    out = (Ret false, add_lines decided msg_conflict)
  | FullMigration =>
    if dry
    then out = (Ret true, add_lines decided (would_migrate p))
    else
      out = guarded_steps E p tok org decided
      /\ (exists b, fst out = Ret b)
      /\ (exists ls,
            stdout (snd out)
            = (stdout s ++ header p false
               ++ ("  Creating new database: " ++ "liteshow-" ++ project_id p)%string
                  :: ls)%list)
      /\ (exists cs,
            calls (snd out)
            = (calls s ++ existence_checks p tok org
               ++ Http tok (PostDatabase org ("liteshow-" ++ project_id p)%string "liteshow")
                  :: cs)%list)
      /\ (db_present (cp_dbs s) org ("liteshow-" ++ slug p) = true ->
          db_present (cp_dbs s) org ("liteshow-" ++ project_id p) = false ->
          cp_fault E (GetDatabase org ("liteshow-" ++ slug p)) = None ->
          cp_fault E (GetDatabase org ("liteshow-" ++ project_id p)) = None ->
          cp_fault E (PostDatabase org ("liteshow-" ++ project_id p) "liteshow") = None ->
          cp_fault E (PostAuthToken org ("liteshow-" ++ project_id p) "never" "full-access")
          = None ->
          pg_update_fault E (project_id p) = None ->
          cp_fault E (DeleteDatabase org ("liteshow-" ++ slug p)) = None ->
          fst out = Ret true
          /\ db_present (cp_dbs (snd out)) org ("liteshow-" ++ slug p) = false
          /\ db_present (cp_dbs (snd out)) org ("liteshow-" ++ project_id p) = true
          /\ pg_projects (snd out)
             = pg_update (project_id p) (cp_hostname E org ("liteshow-" ++ project_id p))
                 (cp_jwt E org ("liteshow-" ++ project_id p)) (pg_projects s))
  end.
Proof.
  intros H1 H2 o n u d out.
  assert (Hrun : out = migrate_branch E p tok org dry o n d)
    by (subst out o n d; apply (migrate_project_checked E p tok org dry s H1 H2)).
  rewrite migrate_branch_table in Hrun. fold u in Hrun.
  destruct (decision_table o n u); try exact Hrun.
  destruct dry; [exact Hrun|].
  split; [exact Hrun|]. split; [|split; [|split]].
  - rewrite Hrun. apply guarded_steps_returns.
  - destruct (guarded_steps_start E p tok org d) as [[ls Hls] _].
    exists ls. rewrite Hrun, Hls. subst d.
    destruct (after_checks_obs p tok org false s) as (_ & _ & ->).
    rewrite <- app_assoc. reflexivity.
  - destruct (guarded_steps_start E p tok org d) as [_ [cs Hcs]].
    exists cs. rewrite Hrun, Hcs. subst d.
    destruct (after_checks_obs p tok org false s) as (_ & -> & _).
    rewrite <- app_assoc. reflexivity.
  - intros P1 P2 F1 F2 F3 F4 Hf Hd.
    exact (@migrate_project_served E p tok org s P1 P2 F1 F2 F3 F4 Hf Hd).
Qed.

(** ** The claims on the scenarios *)

(** C1 on the fleet: the blog is in the (true, false) quadrant.  Under a
    dry run its plan is printed; otherwise it is migrated: the new database
    is requested first, and in the end the old database is gone, the new
    one exists and the catalog row of the blog points at it. *)
Lemma quadrant_coverage_witness :
  migrate_project Scenario.healthy Scenario.blog "tok" "acme" true Scenario.fleet
  = (Ret true,
     add_lines (after_checks Scenario.blog "tok" "acme" true Scenario.fleet)
       (would_migrate Scenario.blog))
  /\ fst (migrate_project Scenario.healthy Scenario.blog "tok" "acme" false Scenario.fleet)
     = Ret true
  /\ (exists cs,
        calls (snd (migrate_project Scenario.healthy Scenario.blog "tok" "acme" false
                      Scenario.fleet))
        = [ Http "tok" (GetDatabase "acme" "liteshow-blog");
            Http "tok" (GetDatabase "acme" "liteshow-p1");
            Http "tok" (PostDatabase "acme" "liteshow-p1" "liteshow") ] ++ cs)%list
  /\ db_present (cp_dbs (snd (migrate_project Scenario.healthy Scenario.blog "tok" "acme"
                                false Scenario.fleet))) "acme" "liteshow-blog" = false
  /\ db_present (cp_dbs (snd (migrate_project Scenario.healthy Scenario.blog "tok" "acme"
                                false Scenario.fleet))) "acme" "liteshow-p1" = true
  /\ pg_projects (snd (migrate_project Scenario.healthy Scenario.blog "tok" "acme" false
                         Scenario.fleet))
     = [Scenario.blog_again; Scenario.shop].
Proof.
  split.
  - exact (@quadrant_coverage Scenario.healthy Scenario.blog "tok" "acme" true
             Scenario.fleet (Scenario.answer_200 "liteshow-blog-acme.turso.io")
             Scenario.answer_404 eq_refl eq_refl).
  - destruct (@quadrant_coverage Scenario.healthy Scenario.blog "tok" "acme" false
                Scenario.fleet (Scenario.answer_200 "liteshow-blog-acme.turso.io")
                Scenario.answer_404 eq_refl eq_refl) as (_ & _ & _ & Hcalls & Hserved).
    destruct (Hserved eq_refl eq_refl eq_refl eq_refl eq_refl eq_refl eq_refl eq_refl)
      as (Hr & Hold & Hnew & Hpg).
    split; [exact Hr|]. split; [exact Hcalls|].
    split; [exact Hold|]. split; [exact Hnew|]. exact Hpg.
Defined.

(** C4 on the blog under both names. *)
Lemma naming_conflict_witness :
  migrate_project Scenario.healthy Scenario.blog "tok" "acme" false Scenario.conflict
  = (Ret false,
     add_lines (after_checks Scenario.blog "tok" "acme" false Scenario.conflict) msg_conflict)
  /\ same_world Scenario.conflict
       (snd (migrate_project Scenario.healthy Scenario.blog "tok" "acme" false
               Scenario.conflict))
  /\ calls (snd (migrate_project Scenario.healthy Scenario.blog "tok" "acme" false
                   Scenario.conflict))
     = (calls Scenario.conflict ++ existence_checks Scenario.blog "tok" "acme")%list
  /\ filter mutating
       (calls (snd (migrate_project Scenario.healthy Scenario.blog "tok" "acme" false
                      Scenario.conflict)))
     = filter mutating (calls Scenario.conflict).
Proof.
  exact (@naming_conflict_is_skipped Scenario.healthy Scenario.blog "tok" "acme" false
           Scenario.conflict
           (Scenario.answer_200 "liteshow-blog-acme.turso.io")
           (Scenario.answer_200 "liteshow-p1-acme.turso.io")
           eq_refl eq_refl eq_refl eq_refl).
Defined.

(** C3 on the fleet: the dry run of the blog prints the header and the plan,
    makes the two checks and nothing else. *)
Lemma dry_run_purity_witness :
  same_world Scenario.fleet
    (snd (migrate_project Scenario.healthy Scenario.blog "tok" "acme" true Scenario.fleet))
  /\ calls (snd (migrate_project Scenario.healthy Scenario.blog "tok" "acme" true
                   Scenario.fleet))
     = (calls Scenario.fleet ++ existence_checks Scenario.blog "tok" "acme")%list
  /\ stdout (snd (migrate_project Scenario.healthy Scenario.blog "tok" "acme" true
                    Scenario.fleet))
     = (stdout Scenario.fleet ++ header Scenario.blog true
        ++ would_migrate Scenario.blog)%list.
Proof.
  destruct (dry_run_purity Scenario.healthy Scenario.blog "tok" "acme" Scenario.fleet)
    as (Hw & _ & Hn).
  destruct (Hn (Scenario.answer_200 "liteshow-blog-acme.turso.io") Scenario.answer_404
              eq_refl eq_refl) as (Hc & Hfull).
  destruct (Hfull eq_refl) as (_ & Hs).
  exact (conj Hw (conj Hc Hs)).
Defined.

(** C8 on the fleet: the blog is migrated, then migrated again from the
    state the first run left. *)
Lemma rerun_witness :
  fst (migrate_project Scenario.healthy Scenario.blog "tok" "acme" false Scenario.fleet)
  = Ret true
  /\ migrate_project Scenario.healthy Scenario.blog_again "tok" "acme" false
       Scenario.migrated
     = (Ret true,
        add_lines (after_checks Scenario.blog_again "tok" "acme" false Scenario.migrated)
          [msg_old_missing; msg_already_migrated])
  /\ same_world Scenario.migrated
       (snd (migrate_project Scenario.healthy Scenario.blog_again "tok" "acme" false
               Scenario.migrated)).
Proof.
  split; [vm_compute; reflexivity|].
  assert (H1 : db_present (cp_dbs Scenario.migrated) "acme"
                 ("liteshow-" ++ slug Scenario.blog_again) = false)
    by (vm_compute; reflexivity).
  assert (H2 : db_present (cp_dbs Scenario.migrated) "acme"
                 ("liteshow-" ++ project_id Scenario.blog_again) = true)
    by (vm_compute; reflexivity).
  destruct (@rerun_is_already_migrated Scenario.healthy Scenario.blog_again "tok" "acme"
              false Scenario.migrated H1 H2 eq_refl eq_refl) as (Hr & Hw & _).
  exact (conj Hr Hw).
Defined.

(** C10 on the blog under both names: answered 401 and 503, both checks
    classify a database that exists as absent, and the project is skipped. *)
Lemma existence_status_witness :
  db_present (cp_dbs Scenario.conflict) "acme" "liteshow-blog" = true
  /\ db_present (cp_dbs Scenario.conflict) "acme" "liteshow-p1" = true
  /\ check_turso_db_exists Scenario.unauthorized "liteshow-blog" "tok" "acme"
       Scenario.conflict
     = (Ret false, add_call Scenario.conflict (Http "tok" (GetDatabase "acme" "liteshow-blog")))
  /\ check_turso_db_exists Scenario.unauthorized "liteshow-p1" "tok" "acme"
       Scenario.conflict
     = (Ret false, add_call Scenario.conflict (Http "tok" (GetDatabase "acme" "liteshow-p1")))
  /\ migrate_project Scenario.unauthorized Scenario.blog "tok" "acme" false
       Scenario.conflict
     = (Ret false,
        add_lines (after_checks Scenario.blog "tok" "acme" false Scenario.conflict)
          [msg_old_missing]).
Proof.
  destruct (@existence_is_status_200 Scenario.unauthorized Scenario.blog "tok" "acme" false
              Scenario.conflict
              (mkResponse 401 "unauthorized" None None)
              (mkResponse 503 "service unavailable" None None)
              eq_refl eq_refl) as (H1 & H2 & _ & _ & H5).
  split; [reflexivity|]. split; [reflexivity|].
  split; [exact H1|]. split; [exact H2|].
  rewrite H5. reflexivity.
Defined.

(** C6 on the fleet without the client library: the copy is skipped, the
    catalog is updated and the old database deleted all the same. *)
Lemma copy_skipped_witness :
  In msg_copy_failed
    (stdout (snd (migrate_project Scenario.no_libsql Scenario.blog "tok" "acme" false
                    Scenario.fleet)))
  /\ In (PgUpdateProject "p1" "liteshow-p1-acme.turso.io" "jwt-liteshow-p1")
       (calls (snd (migrate_project Scenario.no_libsql Scenario.blog "tok" "acme" false
                      Scenario.fleet)))
  /\ pg_projects (snd (migrate_project Scenario.no_libsql Scenario.blog "tok" "acme" false
                         Scenario.fleet))
     = [Scenario.blog_again; Scenario.shop]
  /\ db_present (cp_dbs (snd (migrate_project Scenario.no_libsql Scenario.blog "tok" "acme"
                                false Scenario.fleet))) "acme" "liteshow-blog" = false
  /\ fst (migrate_project Scenario.no_libsql Scenario.blog "tok" "acme" false Scenario.fleet)
     = Ret true.
Proof.
  set (s3 := snd (create_turso_db Scenario.no_libsql "liteshow-p1" "tok" "acme"
                    (add_line (after_checks Scenario.blog "tok" "acme" false Scenario.fleet)
                       "  Creating new database: liteshow-p1"))).
  set (s5 := snd (copy_turso_data Scenario.no_libsql (turso_db_url Scenario.blog)
                    (turso_db_token Scenario.blog) "liteshow-p1-acme.turso.io"
                    "jwt-liteshow-p1" (before_copy "liteshow-p1-acme.turso.io" s3))).
  assert (S2 : status_code Scenario.answer_404 <> 200%Z) by discriminate.
  assert (Hc : create_turso_db Scenario.no_libsql ("liteshow-" ++ project_id Scenario.blog)
                 "tok" "acme"
                 (add_line (after_checks Scenario.blog "tok" "acme" false Scenario.fleet)
                    ("  Creating new database: " ++ "liteshow-" ++ project_id Scenario.blog))
               = (Ret ("liteshow-p1-acme.turso.io", "jwt-liteshow-p1"), s3))
    by (vm_compute; reflexivity).
  assert (Hd : copy_turso_data Scenario.no_libsql (turso_db_url Scenario.blog)
                 (turso_db_token Scenario.blog) "liteshow-p1-acme.turso.io"
                 "jwt-liteshow-p1" (before_copy "liteshow-p1-acme.turso.io" s3)
               = (Ret false, s5))
    by (vm_compute; reflexivity).
  destruct (@copy_failure_does_not_abort Scenario.no_libsql Scenario.blog "tok" "acme"
              Scenario.fleet (Scenario.answer_200 "liteshow-blog-acme.turso.io")
              Scenario.answer_404 "liteshow-p1-acme.turso.io" "jwt-liteshow-p1" s3 s5
              eq_refl eq_refl eq_refl S2 Hc Hd) as (Hwarn & Hupd & Hrest).
  destruct (Hrest eq_refl) as (Hpg & _ & _ & Hgone).
  destruct (Hgone eq_refl) as (Hg1 & Hg2).
  split; [exact Hwarn|]. split; [exact Hupd|].
  split; [rewrite Hpg; vm_compute; reflexivity|].
  split; [exact Hg1 | exact Hg2].
Defined.

(** C7 (amended) on the fleet: the delete of the old blog database is
    answered 500. *)
Lemma delete_warning_witness :
  fst (migrate_project Scenario.delete_fails Scenario.blog "tok" "acme" false Scenario.fleet)
  = Ret true
  /\ db_present (cp_dbs (snd (migrate_project Scenario.delete_fails Scenario.blog "tok"
                                "acme" false Scenario.fleet))) "acme" "liteshow-blog" = true
  /\ db_present (cp_dbs (snd (migrate_project Scenario.delete_fails Scenario.blog "tok"
                                "acme" false Scenario.fleet))) "acme" "liteshow-p1" = true
  /\ In (msg_delete_warning "liteshow-blog" (mkResponse 500 "internal error" None None))
       (stdout (snd (migrate_project Scenario.delete_fails Scenario.blog "tok" "acme" false
                       Scenario.fleet))).
Proof.
  destruct (@delete_failure_is_a_warning Scenario.delete_fails Scenario.blog "tok" "acme"
              Scenario.fleet eq_refl eq_refl eq_refl eq_refl eq_refl eq_refl)
    as (_ & _ & Hupd).
  destruct (Hupd eq_refl) as (_ & Hresp & _).
  destruct (Hresp (mkResponse 500 "internal error" None None) eq_refl)
    as (Hr & Ho & Hn & Hw).
  split; [exact Hr|]. split; [exact Ho|]. split; [exact Hn|].
  exact (Hw eq_refl).
Defined.

(** C7, as stated, fails: the control plane answers 503 to the delete of the
    old database of the shop; the migration prints the warning, goes on to
    "Migration complete" and returns [True], not a failure, and both
    databases exist afterwards. *)
Lemma delete_failure_counterexample :
  fst (migrate_project Scenario.delete_unavailable Scenario.shop "tok" "acme" false
         Scenario.fleet) = Ret true
  /\ existsb (String.eqb "  WARNING: Failed to delete old database liteshow-shop: service unavailable")
       (stdout (snd (migrate_project Scenario.delete_unavailable Scenario.shop "tok" "acme"
                       false Scenario.fleet))) = true
  /\ existsb (String.eqb "  ✅ Migration complete for Shop")
       (stdout (snd (migrate_project Scenario.delete_unavailable Scenario.shop "tok" "acme"
                       false Scenario.fleet))) = true
  /\ db_present (cp_dbs (snd (migrate_project Scenario.delete_unavailable Scenario.shop "tok"
                                "acme" false Scenario.fleet))) "acme" "liteshow-shop" = true
  /\ db_present (cp_dbs (snd (migrate_project Scenario.delete_unavailable Scenario.shop "tok"
                                "acme" false Scenario.fleet))) "acme" "liteshow-p2" = true.
Proof. vm_compute. repeat split; reflexivity. Qed.




(** C9, at its failing input: the control plane cannot be reached for the
    existence check of the first of two projects.  The exception leaves
    [migrate_project] and [main]: no summary is printed and the second
    project is never looked at. *)
Theorem fleet_run_stops_on_unreachable_check :
  fst (main Scenario.unreachable ["migrate_turso_db_names.py"] Scenario.fleet)
  = Raise (mkExc ConnectionErrorC "Connection refused")
  /\ length (pg_projects Scenario.fleet) = 2
  /\ calls (snd (main Scenario.unreachable ["migrate_turso_db_names.py"] Scenario.fleet))
     = [ PgSelectProjects; Http "turso-api-token" (GetDatabase "acme" "liteshow-blog") ]
  /\ existsb (String.eqb "MIGRATION SUMMARY")
       (stdout (snd (main Scenario.unreachable ["migrate_turso_db_names.py"]
                       Scenario.fleet))) = false
  /\ fst (migrate_project Scenario.unreachable Scenario.shop "turso-api-token" "acme" false
            Scenario.fleet) = Ret true.
Proof. vm_compute. repeat split; reflexivity. Qed.

(** ** Further properties of the script *)

(** *** Batches and rows *)

Lemma py_range_bound (stop step i : nat) :
  0 < step -> In i (py_range stop step) -> i < stop.
Proof.
  intros Hs. unfold py_range. rewrite in_map_iff. intros (k & <- & Hk).
  apply in_seq in Hk.
  pose proof (Nat.div_mod_eq (stop + step - 1) step) as Hd.
  pose proof (Nat.mod_upper_bound (stop + step - 1) step) as Hm.
  nia.
Qed.

Lemma slice_length {A} (l : list A) (i step : nat) :
  length (slice l i (i + step)) = Nat.min step (length l - i).
Proof.
  unfold slice. rewrite length_firstn, length_skipn.
  replace (i + step - i) with step by lia. reflexivity.
Qed.

(** X1. The batches of [copy_turso_data] partition the rows: put end to
    end, [rows[0:100]], [rows[100:200]], ... are the rows, in order and each
    once; no batch is empty and none has more than 100 rows. *)
Theorem batches_partition {A} (rows : list A) :
  flat_map (fun i => slice rows i (i + batch_size)) (py_range (length rows) batch_size)
  = rows
  /\ Forall (fun i => 0 < length (slice rows i (i + batch_size)) <= batch_size)
       (py_range (length rows) batch_size).
Proof.
  assert (Hs : 0 < batch_size) by (unfold batch_size; lia).
  split.
  - unfold py_range. rewrite chunks_firstn. apply firstn_all2.
    pose proof (Nat.div_mod_eq (length rows + batch_size - 1) batch_size) as Hd.
    pose proof (Nat.mod_upper_bound (length rows + batch_size - 1) batch_size) as Hm.
    nia.
  - apply Forall_forall. intros i Hi.
    apply (@py_range_bound (length rows) batch_size i Hs) in Hi. rewrite slice_length. lia.
Qed.

(** X2. [[row[col] for col in columns]]: when the row has every column, the
    values come in the order of the columns, one per column; otherwise the
    [KeyError] of the first missing column is raised.  The state is never
    touched. *)
Theorem row_values_or_key_error (columns : list string) (row : Row) (s : State) :
  match missing_column columns row with
  | Some col => row_values columns row s = (Raise (KeyError col), s)
  | None =>
    exists values,
      row_values columns row s = (Ret values, s)
      /\ length values = length columns
      /\ map Some values = map (row_get row) columns
  end.
Proof.
  unfold row_values, missing_column.
  induction columns as [|col columns IH]; simpl.
  - exists []. auto.
  - unfold bind. destruct (row_get row col) as [v|] eqn:Hv; simpl.
    + destruct (find _ columns) as [c|].
      * rewrite IH. reflexivity.
      * destruct IH as (values & Hr & Hl & Hm). rewrite Hr. simpl.
        exists (v :: values). simpl. rewrite Hl, Hm. auto.
    + reflexivity.
Qed.

(** *** The traffic of the data copy *)

Lemma string_length_append (a b : string) :
  String.length (a ++ b) = String.length a + String.length b.
Proof.
  induction a as [|c a IH].
  - reflexivity.
  - change (S (String.length (a ++ b)) = S (String.length a + String.length b)).
    rewrite IH. reflexivity.
Qed.

Lemma append_inv_head (p a b : string) : p ++ a = p ++ b -> a = b.
Proof.
  induction p as [|c p IH]; intros H.
  - exact H.
  - change (String c (p ++ a) = String c (p ++ b)) in H. injection H as H. apply IH, H.
Qed.

Lemma append_inv_tail (a b c : string) : a ++ c = b ++ c -> a = b.
Proof.
  revert b. induction a as [|x a IH]; intros [|y b] H.
  - reflexivity.
  - apply (f_equal String.length) in H. rewrite !string_length_append in H.
    simpl in H. lia.
  - apply (f_equal String.length) in H. rewrite !string_length_append in H.
    simpl in H. lia.
  - change (String x (a ++ c) = String y (b ++ c)) in H. injection H as -> H.
    rewrite (IH b H). reflexivity.
Qed.

Lemma schema_sql_inj (t t' : string) : schema_sql t = schema_sql t' -> t = t'.
Proof.
  unfold schema_sql. intros H. apply append_inv_head in H. apply append_inv_tail in H.
  exact H.
Qed.

Lemma select_sql_inj (t t' : string) : select_sql t = select_sql t' -> t = t'.
Proof. unfold select_sql. apply append_inv_head. Qed.

Lemma schema_not_select (t t' : string) : schema_sql t <> select_sql t'.
Proof.
  unfold schema_sql, select_sql. intros H. cbv [String.append] in H. discriminate H.
Qed.

Lemma listing_not_about_bookkeeping :
  list_tables_sql <> schema_sql "sqlite_sequence"
  /\ list_tables_sql <> select_sql "sqlite_sequence".
Proof. split; intros H; vm_compute in H; discriminate H. Qed.

Lemma copy_traffic_refl o n s : copy_traffic o n s s.
Proof.
  unfold copy_traffic. repeat split; try reflexivity.
  - exists []. rewrite app_nil_r. auto.
  - exists []. rewrite app_nil_r. auto.
Qed.

Lemma copy_traffic_trans o n s1 s2 s3 :
  copy_traffic o n s1 s2 -> copy_traffic o n s2 s3 -> copy_traffic o n s1 s3.
Proof.
  intros (A1 & A2 & (cs & A3 & A4) & (ws & A5 & A6))
         (B1 & B2 & (cs' & B3 & B4) & (ws' & B5 & B6)).
  unfold copy_traffic. repeat split; try congruence.
  - exists (cs ++ cs')%list. rewrite B3, A3, app_assoc. split; [reflexivity|].
    apply Forall_app. auto.
  - exists (ws ++ ws')%list. rewrite B5, A5, app_assoc. split; [reflexivity|].
    apply Forall_app. auto.
Qed.

Lemma copy_traffic_line o n s l : copy_traffic o n s (add_line s l).
Proof.
  unfold copy_traffic. simpl. repeat split.
  - exists []. rewrite app_nil_r. auto.
  - exists []. rewrite app_nil_r. auto.
Qed.

Lemma copy_traffic_call o n s c : sql_traffic o n c -> copy_traffic o n s (add_call s c).
Proof.
  intros Hc. unfold copy_traffic. simpl. repeat split.
  - exists [c]. auto.
  - exists []. rewrite app_nil_r. auto.
Qed.

Lemma copy_traffic_written o n s st :
  copy_traffic o n s (set_dp_written s (dp_written s ++ [(n, st)])%list).
Proof.
  unfold copy_traffic. simpl. repeat split.
  - exists []. rewrite app_nil_r. auto.
  - exists [(n, st)]. auto.
Qed.

(** A loop keeps what its body keeps on the elements it visits. *)
Lemma keeps_for_each_in (P : State -> State -> Prop) (C : Exc -> bool) {A}
    (l : list A) (body : A -> M unit) :
  (forall s, P s s) ->
  (forall s1 s2 s3, P s1 s2 -> P s2 s3 -> P s1 s3) ->
  (forall x, In x l -> keeps P C (body x)) ->
  keeps P C (for_each l body).
Proof.
  intros P_refl P_trans Hb. induction l as [|x l IH]; simpl.
  - apply keeps_ret, P_refl.
  - apply keeps_bind; [exact P_trans | apply Hb; left; reflexivity | intros _].
    apply IH. intros y Hy. apply Hb. right. exact Hy.
Qed.

Lemma traffic_client_query {A} o n sql (answer : SqlResult A) :
  sql <> schema_sql "sqlite_sequence" -> sql <> select_sql "sqlite_sequence" ->
  keeps (copy_traffic o n) (fun _ => true) (client_query o sql answer).
Proof.
  intros H1 H2 s. unfold client_query, bind, log_call.
  assert (Hc : copy_traffic o n s (add_call s (SqlRead o sql)))
    by (apply copy_traffic_call; simpl; auto).
  destruct answer; simpl; auto.
Qed.

Lemma traffic_client_execute E o n stmt :
  keeps (copy_traffic o n) (fun _ => true) (client_execute E n stmt).
Proof.
  intros s. unfold client_execute.
  assert (Hc : copy_traffic o n s (add_call s (SqlWrite n stmt)))
    by (apply copy_traffic_call; reflexivity).
  destruct (dp_reject E n _ stmt); simpl; [auto|]. split; [|auto].
  eapply copy_traffic_trans; [exact Hc|].
  apply (copy_traffic_written o n (add_call s (SqlWrite n stmt)) stmt).
Qed.

Ltac traffic_bind :=
  apply keeps_bind; [apply copy_traffic_trans | | intros ?].

Lemma traffic_copy_row E o n table columns row :
  keeps (copy_traffic o n) (fun _ => true) (copy_row E n table columns row).
Proof.
  unfold copy_row, row_values. traffic_bind; [|apply traffic_client_execute].
  apply keeps_map_m; [apply copy_traffic_refl | apply copy_traffic_trans | intros col].
  destruct (row_get row col).
  - apply keeps_ret, copy_traffic_refl.
  - apply keeps_raise; [apply copy_traffic_refl | reflexivity].
Qed.

Lemma traffic_copy_table E o n table :
  table <> "sqlite_sequence" ->
  keeps (copy_traffic o n) (fun _ => true) (copy_table E o n table).
Proof.
  intros Hne. unfold copy_table.
  traffic_bind; [apply keeps_print, copy_traffic_line|].
  apply keeps_bind; [apply copy_traffic_trans | | intros [|create_sql more]].
  { apply traffic_client_query.
    - intros H. apply schema_sql_inj in H. contradiction.
    - apply schema_not_select. }
  { apply keeps_ret, copy_traffic_refl. }
  traffic_bind; [apply traffic_client_execute|].
  apply keeps_bind; [apply copy_traffic_trans | | intros [|row0 rows]].
  { apply traffic_client_query.
    - intros H. symmetry in H. revert H. apply schema_not_select.
    - intros H. apply select_sql_inj in H. contradiction. }
  { apply keeps_ret, copy_traffic_refl. }
  traffic_bind; [|apply keeps_print, copy_traffic_line].
  apply keeps_for_each; [apply copy_traffic_refl | apply copy_traffic_trans | intros i].
  apply keeps_for_each; [apply copy_traffic_refl | apply copy_traffic_trans | intros row].
  apply traffic_copy_row.
Qed.

(** X3. [copy_turso_data] never raises, and whatever happens it only reads
    the source and only writes the destination: every call it makes is
    a read at the old url or a write at the new url, no read is about
    [sqlite_sequence], every statement it adds is at the new url, and the
    control plane and the catalog are as they were. *)
Theorem copy_reads_source_writes_destination E old_url old_token new_url new_token s :
  (exists b, fst (copy_turso_data E old_url old_token new_url new_token s) = Ret b)
  /\ copy_traffic ("libsql://" ++ str_opt old_url) ("libsql://" ++ new_url) s
       (snd (copy_turso_data E old_url old_token new_url new_token s)).
Proof.
  split; [apply copy_turso_data_returns|].
  set (o := "libsql://" ++ str_opt old_url). set (n := "libsql://" ++ new_url).
  assert (Hk : keeps (copy_traffic o n) (fun _ => true)
                 (copy_turso_data E old_url old_token new_url new_token)).
  { unfold copy_turso_data, copy_unless_import_error.
    apply keeps_try; [apply copy_traffic_trans | |].
    - apply keeps_try; [apply copy_traffic_trans | |].
      + unfold copy_turso_data_body. fold o n.
        traffic_bind.
        { destruct (libsql_installed E).
          - apply keeps_ret, copy_traffic_refl.
          - apply keeps_raise; [apply copy_traffic_refl | reflexivity]. }
        apply keeps_with_client; [apply copy_traffic_refl | reflexivity |].
        apply keeps_with_client; [apply copy_traffic_refl | reflexivity |].
        traffic_bind.
        { apply traffic_client_query; apply listing_not_about_bookkeeping. }
        traffic_bind; [|apply keeps_ret, copy_traffic_refl].
        apply keeps_for_each_in; [apply copy_traffic_refl | apply copy_traffic_trans |].
        intros table Hin. apply traffic_copy_table.
        intros ->. revert Hin. apply copied_tables_no_bookkeeping.
      + intros _. traffic_bind; [apply keeps_print, copy_traffic_line|].
        traffic_bind; [apply keeps_print, copy_traffic_line|].
        apply keeps_ret, copy_traffic_refl.
    - intros e. traffic_bind; [apply keeps_print, copy_traffic_line|].
      apply keeps_ret, copy_traffic_refl. }
  apply Hk.
Qed.

(** *** The catalog update and the delete *)

Lemma pg_update_nth id u t rows k q :
  nth_error rows k = Some q ->
  nth_error (pg_update id u t rows) k
  = Some (if project_id q =? id
          then mkProject (project_id q) (name q) (slug q) (Some u) (Some t)
          else q).
Proof.
  intros H. unfold pg_update.
  exact (map_nth_error
           (fun p => if project_id p =? id
                     then mkProject (project_id p) (name p) (slug p) (Some u) (Some t)
                     else p) k rows H).
Qed.

Lemma pg_update_twice id u t rows :
  pg_update id u t (pg_update id u t rows) = pg_update id u t rows.
Proof.
  unfold pg_update. rewrite map_map. apply map_ext. intros q.
  destruct (project_id q =? id) eqn:He; simpl; rewrite He; reflexivity.
Qed.

(** X5. [update_project_turso_credentials] makes one catalog call and
    touches nothing else.  When the catalog answers it returns without
    printing, every row keeps its place, its id, its name and its slug, the
    rows with the given id hold the new url and token and the other rows
    are what they were; updating again with the same values changes
    nothing.  When the catalog fails, the error line is printed, the
    exception is raised again and the catalog is as before. *)
Theorem update_touches_only_its_row E id u t s :
  let out := update_project_turso_credentials E id u t s in
  cp_dbs (snd out) = cp_dbs s
  /\ dp_written (snd out) = dp_written s
  /\ calls (snd out) = (calls s ++ [PgUpdateProject id u t])%list
  /\ match pg_update_fault E id with
     | Some msg =>
       fst out = Raise (mkExc DatabaseErrorC msg)
       /\ pg_projects (snd out) = pg_projects s
       /\ stdout (snd out) = (stdout s ++ [msg_update_error msg])%list
     | None =>
       fst out = Ret tt
       /\ stdout (snd out) = stdout s
       /\ length (pg_projects (snd out)) = length (pg_projects s)
       /\ (forall k q, nth_error (pg_projects s) k = Some q ->
             nth_error (pg_projects (snd out)) k
             = Some (if project_id q =? id
                     then mkProject (project_id q) (name q) (slug q) (Some u) (Some t)
                     else q))
       /\ pg_update id u t (pg_projects (snd out)) = pg_projects (snd out)
     end.
Proof.
  intros out. subst out. rewrite update_run.
  destruct (pg_update_fault E id) as [msg|]; cbn [fst snd].
  - repeat split; reflexivity.
  - cbn [cp_dbs dp_written calls stdout pg_projects set_pg_projects add_call].
    repeat split; try reflexivity.
    + apply length_map.
    + intros k q. apply pg_update_nth.
    + apply pg_update_twice.
Qed.

Lemma serve_delete_others E dbs org n o' n' :
  (o', n') <> (org, n) ->
  db_present (snd (serve E (DeleteDatabase org n) dbs)) o' n' = db_present dbs o' n'.
Proof.
  intros Hne. unfold serve. destruct (cp_fault E _); [reflexivity|].
  destruct (db_present dbs org n); [|reflexivity].
  cbn [snd]. apply db_present_remove_other. exact Hne.
Qed.

(** X6. [delete_turso_db] makes one control-plane call and, whatever the
    answer, no database but the named one changes; the catalog and the
    written statements are as before.  Answered with a response it returns
    normally, and prints the warning exactly when the status is a 4xx or 5xx
    other than 404; with no answer it raises and prints nothing. *)
Theorem delete_removes_only_its_database E n tok org s :
  let out := delete_turso_db E n tok org s in
  pg_projects (snd out) = pg_projects s
  /\ dp_written (snd out) = dp_written s
  /\ calls (snd out) = (calls s ++ [Http tok (DeleteDatabase org n)])%list
  /\ (forall o' n', (o', n') <> (org, n) ->
        db_present (cp_dbs (snd out)) o' n' = db_present (cp_dbs s) o' n')
  /\ match fst (serve E (DeleteDatabase org n) (cp_dbs s)) with
     | Responds r =>
       fst out = Ret tt
       /\ stdout (snd out)
          = (stdout s ++ if negb (ok r) && negb (status_code r =? 404)%Z
                         then [msg_delete_warning n r] else [])%list
     | Unreachable msg =>
       fst out = Raise (mkExc ConnectionErrorC msg) /\ stdout (snd out) = stdout s
     end.
Proof.
  intros out. subst out. rewrite delete_run.
  assert (Hothers : forall o' n', (o', n') <> (org, n) ->
            db_present (cp_dbs (delete_answered E n tok org s)) o' n'
            = db_present (cp_dbs s) o' n').
  { intros o' n' Hne. unfold delete_answered. cbn [cp_dbs set_cp_dbs].
    apply serve_delete_others. exact Hne. }
  destruct (fst (serve E (DeleteDatabase org n) (cp_dbs s))) as [r|msg]; cbn [fst snd].
  - destruct (negb (ok r) && negb (status_code r =? 404)%Z).
    + split; [reflexivity|]. split; [reflexivity|]. split; [reflexivity|].
      split; [exact Hothers|]. split; reflexivity.
    + split; [reflexivity|]. split; [reflexivity|]. split; [reflexivity|].
      split; [exact Hothers|]. split; [reflexivity|].
      unfold delete_answered. simpl. rewrite app_nil_r. reflexivity.
  - split; [reflexivity|]. split; [reflexivity|]. split; [reflexivity|].
    split; [exact Hothers|]. split; reflexivity.
Qed.

(** *** One migration and the other projects *)

Lemma serve_own E req dbs org old new o n :
  own_request org old new req ->
  (o, n) <> (org, old) -> (o, n) <> (org, new) ->
  db_present (snd (serve E req dbs)) o n = db_present dbs o n.
Proof.
  intros Hown Hold Hnew. unfold serve. destruct (cp_fault E req); [reflexivity|].
  destruct req as [o0 n0|o0 n0 g|o0 n0 x a|o0 n0]; simpl in Hown;
    destruct (db_present dbs o0 n0); cbn [snd]; try reflexivity.
  - rewrite db_present_add.
    assert (He : db_eqb (o, n) (o0, n0) = false).
    { apply not_true_is_false. rewrite db_eqb_eq. congruence. }
    rewrite He. apply orb_false_r.
  - apply db_present_remove_other. congruence.
Qed.

Lemma others_kept_refl org old new id s : others_kept org old new id s s.
Proof. unfold others_kept. auto. Qed.

Lemma others_kept_trans org old new id s1 s2 s3 :
  others_kept org old new id s1 s2 -> others_kept org old new id s2 s3 ->
  others_kept org old new id s1 s3.
Proof.
  intros (A1 & A2 & A3) (B1 & B2 & B3). unfold others_kept. split; [|split].
  - intros o n Ho Hn. rewrite (B1 o n Ho Hn). apply A1; assumption.
  - congruence.
  - intros k q Hk Hq. apply B3; [apply A3; assumption | exact Hq].
Qed.

Lemma others_kept_line org old new id s l : others_kept org old new id s (add_line s l).
Proof. unfold others_kept. simpl. auto. Qed.

Lemma others_kept_call org old new id s c : others_kept org old new id s (add_call s c).
Proof. unfold others_kept. simpl. auto. Qed.

Lemma others_kept_written org old new id s w :
  others_kept org old new id s (set_dp_written s w).
Proof. unfold others_kept. simpl. auto. Qed.

Lemma kept_http E tok req org old new id :
  own_request org old new req ->
  keeps (others_kept org old new id) (fun _ => true) (http E tok req).
Proof.
  intros Hown s. unfold http.
  pose proof (fun o n => @serve_own E req (cp_dbs s) org old new o n Hown) as Hs.
  destruct (serve E req (cp_dbs s)) as [[r|msg] dbs']; cbn [fst snd] in *;
    (split; [|auto]); unfold others_kept; simpl; auto.
Qed.

Lemma kept_create E tok org old new id :
  keeps (others_kept org old new id) (fun _ => true) (create_turso_db E new tok org).
Proof.
  unfold create_turso_db.
  apply keeps_bind; [apply others_kept_trans | apply kept_http; reflexivity | intros response].
  destruct (negb (ok response));
    [apply keeps_raise; [apply others_kept_refl | reflexivity]|].
  destruct (json_database response) as [[hostname|]|];
    try (apply keeps_raise; [apply others_kept_refl | reflexivity]).
  apply keeps_bind; [apply others_kept_trans | apply kept_http; exact I | intros token_response].
  destruct (negb (ok token_response));
    [apply keeps_raise; [apply others_kept_refl | reflexivity]|].
  destruct (json_jwt token_response).
  - apply keeps_ret, others_kept_refl.
  - apply keeps_raise; [apply others_kept_refl | reflexivity].
Qed.

Lemma kept_update E org old new id u t :
  keeps (others_kept org old new id) (fun _ => true)
    (update_project_turso_credentials E id u t).
Proof.
  intros s. rewrite update_run. destruct (pg_update_fault E id); cbn [fst snd].
  - split; [|auto]. unfold others_kept. simpl. auto.
  - split; [|auto]. unfold others_kept. simpl. split; [auto|]. split.
    + apply length_map.
    + intros k q Hk Hq. rewrite (pg_update_nth id u t _ _ Hk).
      apply String.eqb_neq in Hq. rewrite Hq. reflexivity.
Qed.

Lemma kept_delete E tok org old new id :
  keeps (others_kept org old new id) (fun _ => true) (delete_turso_db E old tok org).
Proof.
  unfold delete_turso_db.
  apply keeps_bind; [apply others_kept_trans | apply kept_http; reflexivity | intros response].
  destruct (negb (ok response) && negb (status_code response =? 404)%Z).
  - apply keeps_print, others_kept_line.
  - apply keeps_ret, others_kept_refl.
Qed.

Lemma kept_check E tok org old new id n :
  keeps (others_kept org old new id) (fun _ => true) (check_turso_db_exists E n tok org).
Proof.
  unfold check_turso_db_exists.
  apply keeps_bind; [apply others_kept_trans | apply kept_http; exact I | intros response].
  apply keeps_ret, others_kept_refl.
Qed.

Ltac kept_print :=
  apply keeps_bind; [apply others_kept_trans | apply keeps_print, others_kept_line | intros _].

Lemma kept_steps E p tok org :
  keeps (others_kept org ("liteshow-" ++ slug p) ("liteshow-" ++ project_id p) (project_id p))
    (fun _ => true) (migration_steps E p tok org).
Proof.
  unfold migration_steps. kept_print.
  apply keeps_bind; [apply others_kept_trans | apply kept_create | intros [u t]].
  kept_print. kept_print.
  apply keeps_bind; [apply others_kept_trans | | intros b].
  { apply keeps_copy_turso_data; auto.
    - apply others_kept_refl.
    - apply others_kept_trans.
    - apply others_kept_line.
    - apply others_kept_call.
    - intros s x. apply others_kept_written. }
  apply keeps_bind;
    [apply others_kept_trans | destruct b; apply keeps_print, others_kept_line | intros _].
  unfold update_and_delete. kept_print.
  apply keeps_bind; [apply others_kept_trans | apply kept_update | intros _].
  kept_print. kept_print.
  apply keeps_bind; [apply others_kept_trans | apply kept_delete | intros _].
  kept_print. kept_print.
  apply keeps_ret, others_kept_refl.
Qed.

(** X11. One migration leaves the other projects alone: whatever the
    services answer, dry run or not, after [migrate_project] every database
    other than the old and the new database of the project is present or
    absent as before, the catalog has as many rows as before, and every
    row of a project with another id is where and what it was. *)
Theorem migrate_project_touches_only_its_project E p tok org dry s :
  others_kept org ("liteshow-" ++ slug p) ("liteshow-" ++ project_id p) (project_id p) s
    (snd (migrate_project E p tok org dry s)).
Proof.
  set (K := others_kept org ("liteshow-" ++ slug p) ("liteshow-" ++ project_id p)
              (project_id p)).
  assert (Hk : keeps K (fun _ => true) (migrate_project E p tok org dry)).
  { unfold migrate_project. subst K.
    kept_print. kept_print. kept_print. kept_print.
    apply keeps_bind; [apply others_kept_trans | apply kept_check | intros old_exists].
    apply keeps_bind; [apply others_kept_trans | apply kept_check | intros new_exists].
    unfold migrate_branch.
    destruct (negb old_exists).
    - kept_print.
      destruct (negb new_exists && negb (truthy (turso_db_url p))).
      + kept_print. apply keeps_ret, others_kept_refl.
      + destruct new_exists.
        * kept_print. apply keeps_ret, others_kept_refl.
        * apply keeps_ret, others_kept_refl.
    - destruct new_exists.
      + kept_print. kept_print. apply keeps_ret, others_kept_refl.
      + destruct dry.
        * unfold dry_run_plan. kept_print. kept_print. kept_print. kept_print.
          apply keeps_ret, others_kept_refl.
        * unfold guarded_steps.
          apply keeps_try; [apply others_kept_trans | apply kept_steps | intros e].
          kept_print. apply keeps_ret, others_kept_refl. }
  apply Hk.
Qed.

(** *** A token that is not issued *)

Lemma create_token_refused E n tok org s answer :
  cp_fault E (PostDatabase org n "liteshow") = None ->
  db_present (cp_dbs s) org n = false ->
  cp_fault E (PostAuthToken org n "never" "full-access") = Some answer ->
  token_refused answer = true ->
  exists e, create_turso_db E n tok org s = (Raise e, created tok org n s)
            /\ is_Exception e = true.
Proof.
  intros F1 Hp F2 Hr. unfold create_turso_db.
  rewrite bind_run. unfold http at 1, serve. rewrite F1, Hp. cbn iota beta.
  rewrite ok_200. cbn [negb json_database].
  rewrite bind_run. unfold http at 1, serve. rewrite F2. cbn iota beta.
  destruct answer as [r|msg]; simpl in Hr.
  - destruct (negb (ok r)); simpl in Hr.
    + eexists. split; reflexivity.
    + destruct (json_jwt r); [discriminate|]. eexists. split; reflexivity.
  - eexists. split; reflexivity.
Qed.

(** X7. A token that is not issued strands the project.  When the control
    plane creates the new database but the token request that follows is
    not answered, is answered with an error status or with a body without a
    token, [migrate_project] returns [False] with the catalog untouched and
    nothing written, and both the old and the new database exist: the next
    run, dry or not, finds a naming conflict and skips the project. *)
Theorem token_failure_leaves_conflict E p tok org dry s answer :
  db_present (cp_dbs s) org ("liteshow-" ++ slug p) = true ->
  db_present (cp_dbs s) org ("liteshow-" ++ project_id p) = false ->
  cp_fault E (GetDatabase org ("liteshow-" ++ slug p)) = None ->
  cp_fault E (GetDatabase org ("liteshow-" ++ project_id p)) = None ->
  cp_fault E (PostDatabase org ("liteshow-" ++ project_id p) "liteshow") = None ->
  cp_fault E (PostAuthToken org ("liteshow-" ++ project_id p) "never" "full-access")
  = Some answer ->
  token_refused answer = true ->
  let out := migrate_project E p tok org false s in
  fst out = Ret false
  /\ db_present (cp_dbs (snd out)) org ("liteshow-" ++ slug p) = true
  /\ db_present (cp_dbs (snd out)) org ("liteshow-" ++ project_id p) = true
  /\ pg_projects (snd out) = pg_projects s
  /\ dp_written (snd out) = dp_written s
  /\ migrate_project E p tok org dry (snd out)
     = (Ret false, add_lines (after_checks p tok org dry (snd out)) msg_conflict).
Proof.
  intros P1 P2 F1 F2 F3 F4 Hr out.
  destruct (exists_answer_served E (cp_dbs s) org _ F1) as (r1 & H1 & S1).
  destruct (exists_answer_served E (cp_dbs s) org _ F2) as (r2 & H2 & S2).
  rewrite P1 in S1. rewrite P2 in S2. apply Z.eqb_eq in S1. apply Z.eqb_neq in S2.
  set (d := after_checks p tok org false s).
  set (sc := add_line d ("  Creating new database: " ++ "liteshow-" ++ project_id p)).
  assert (Hdbs : cp_dbs sc = cp_dbs s).
  { subst sc d. cbn [cp_dbs add_line]. unfold after_checks. autorewrite with obs. reflexivity. }
  assert (Hpg : pg_projects sc = pg_projects s).
  { subst sc d. cbn [pg_projects add_line]. unfold after_checks. autorewrite with obs.
    reflexivity. }
  assert (Hdw : dp_written sc = dp_written s).
  { subst sc d. cbn [dp_written add_line]. unfold after_checks. autorewrite with obs.
    reflexivity. }
  rewrite <- Hdbs in P2.
  destruct (@create_token_refused E ("liteshow-" ++ project_id p) tok org sc answer
              F3 P2 F4 Hr) as (e & Hc & He).
  assert (Hout : out = (Ret false,
                        add_line (created tok org ("liteshow-" ++ project_id p) sc)
                          ("  ❌ Migration failed: " ++ exc_str e))).
  { subst out. rewrite (migrate_project_full E p tok org s H1 H2 S1 S2).
    unfold guarded_steps, try_except, migration_steps.
    rewrite bind_run. unfold print at 1. fold d. fold sc.
    unfold bind at 1. rewrite Hc, He. reflexivity. }
  rewrite Hout. cbn [fst snd].
  assert (Hold : db_present
                   (cp_dbs (add_line (created tok org ("liteshow-" ++ project_id p) sc)
                              ("  ❌ Migration failed: " ++ exc_str e)))
                   org ("liteshow-" ++ slug p) = true).
  { cbn [cp_dbs add_line created add_call set_cp_dbs].
    rewrite db_present_add, Hdbs, P1. reflexivity. }
  assert (Hnew : db_present
                   (cp_dbs (add_line (created tok org ("liteshow-" ++ project_id p) sc)
                              ("  ❌ Migration failed: " ++ exc_str e)))
                   org ("liteshow-" ++ project_id p) = true).
  { cbn [cp_dbs add_line created add_call set_cp_dbs]. rewrite db_present_add.
    assert (Hrefl : db_eqb (org, ("liteshow-" ++ project_id p)%string)
                      (org, ("liteshow-" ++ project_id p)%string) = true)
      by (apply db_eqb_eq; reflexivity).
    rewrite Hrefl. apply orb_true_r. }
  split; [reflexivity|]. split; [exact Hold|]. split; [exact Hnew|].
  split; [exact Hpg|]. split; [exact Hdw|].
  destruct (exists_answer_served E
              (cp_dbs (add_line (created tok org ("liteshow-" ++ project_id p) sc)
                         ("  ❌ Migration failed: " ++ exc_str e)))
              org _ F1) as (q1 & G1 & T1).
  destruct (exists_answer_served E
              (cp_dbs (add_line (created tok org ("liteshow-" ++ project_id p) sc)
                         ("  ❌ Migration failed: " ++ exc_str e)))
              org _ F2) as (q2 & G2 & T2).
  rewrite (migrate_project_checked E p tok org dry _ G1 G2), migrate_branch_table.
  rewrite T1, T2, Hold, Hnew. reflexivity.
Qed.

(** *** A database that is not created *)

Lemma create_refused_raises E n tok org s answer :
  cp_fault E (PostDatabase org n "liteshow") = Some answer ->
  create_refused answer = true ->
  exists e, create_turso_db E n tok org s
            = (Raise e, add_call s (Http tok (PostDatabase org n "liteshow")))
            /\ is_Exception e = true
            /\ exc_str e = create_failure_text n answer.
Proof.
  intros F Hr. unfold create_turso_db.
  rewrite bind_run. unfold http at 1. rewrite (serve_fault E _ _ F).
  destruct answer as [r|msg]; simpl in Hr.
  - cbn iota beta. rewrite Hr. destruct s. eexists. split; [reflexivity|]. split; reflexivity.
  - destruct s. eexists. split; [reflexivity|]. split; reflexivity.
Qed.

(** X14. A create that is refused changes nothing.  When the old database
    exists, the new one does not, and the create request is not answered or
    is answered with an error status, [migrate_project] returns [False]
    after three requests (the two checks and the create): no token is asked
    for, nothing is copied, the catalog is not updated, the old database is
    not deleted, and the last line printed carries the text of the answer. *)
Theorem create_failure_changes_nothing E p tok org s answer :
  db_present (cp_dbs s) org ("liteshow-" ++ slug p) = true ->
  db_present (cp_dbs s) org ("liteshow-" ++ project_id p) = false ->
  cp_fault E (GetDatabase org ("liteshow-" ++ slug p)) = None ->
  cp_fault E (GetDatabase org ("liteshow-" ++ project_id p)) = None ->
  cp_fault E (PostDatabase org ("liteshow-" ++ project_id p) "liteshow") = Some answer ->
  create_refused answer = true ->
  let out := migrate_project E p tok org false s in
  fst out = Ret false
  /\ same_world s (snd out)
  /\ calls (snd out)
     = (calls s ++ existence_checks p tok org
        ++ [Http tok (PostDatabase org ("liteshow-" ++ project_id p)%string "liteshow")])%list
  /\ stdout (snd out)
     = (stdout s ++ header p false
        ++ [ ("  Creating new database: " ++ "liteshow-" ++ project_id p)%string;
             ("  ❌ Migration failed: "
              ++ create_failure_text ("liteshow-" ++ project_id p) answer)%string ])%list.
Proof.
  intros P1 P2 F1 F2 F3 Hr out.
  destruct (exists_answer_served E (cp_dbs s) org _ F1) as (r1 & H1 & S1).
  destruct (exists_answer_served E (cp_dbs s) org _ F2) as (r2 & H2 & S2).
  rewrite P1 in S1. rewrite P2 in S2. apply Z.eqb_eq in S1. apply Z.eqb_neq in S2.
  set (d := after_checks p tok org false s).
  set (sc := add_line d ("  Creating new database: " ++ "liteshow-" ++ project_id p)).
  destruct (@create_refused_raises E ("liteshow-" ++ project_id p) tok org sc answer F3 Hr)
    as (e & Hc & He & Ht).
  assert (Hout : out = (Ret false,
                        add_line
                          (add_call sc
                             (Http tok (PostDatabase org ("liteshow-" ++ project_id p)
                                          "liteshow")))
                          ("  ❌ Migration failed: " ++ exc_str e))).
  { subst out. rewrite (migrate_project_full E p tok org s H1 H2 S1 S2).
    unfold guarded_steps, try_except, migration_steps.
    rewrite bind_run. unfold print at 1. fold d. fold sc.
    unfold bind at 1. rewrite Hc, He. reflexivity. }
  rewrite Hout, Ht. cbn [fst snd]. subst sc d.
  destruct (after_checks_obs p tok org false s) as ((W1 & W2 & W3) & Hcalls & Hlines).
  split; [reflexivity|].
  split; [unfold same_world; cbn [cp_dbs dp_written pg_projects add_line add_call]; auto|].
  split.
  - cbn [calls add_line add_call]. rewrite Hcalls, <- app_assoc. reflexivity.
  - cbn [stdout add_line add_call]. rewrite Hlines, <- !app_assoc. reflexivity.
Qed.

(** *** A migration without the client library *)

Lemma copy_without_libsql E old_url old_token new_url new_token s :
  libsql_installed E = false ->
  copy_turso_data E old_url old_token new_url new_token s
  = (Ret false,
     add_lines s
       [ "  WARNING: libsql-client not installed. Install with: pip install libsql-client";
         "  Skipping data copy - you'll need to manually copy data or the schema will be initialized empty." ]).
Proof.
  intros Hi.
  unfold copy_turso_data, copy_unless_import_error, try_except, copy_turso_data_body.
  rewrite bind_run, Hi. reflexivity.
Qed.

(** X4. Without the client library the old data is lost.  When
    [libsql_client] cannot be imported and every service answers, the
    migration prints that the copy was skipped, still points the catalog
    row at the new database, deletes the old database and returns [True],
    while the data plane has not received a single statement. *)
Theorem migration_without_libsql E p tok org s :
  libsql_installed E = false ->
  db_present (cp_dbs s) org ("liteshow-" ++ slug p) = true ->
  db_present (cp_dbs s) org ("liteshow-" ++ project_id p) = false ->
  cp_fault E (GetDatabase org ("liteshow-" ++ slug p)) = None ->
  cp_fault E (GetDatabase org ("liteshow-" ++ project_id p)) = None ->
  cp_fault E (PostDatabase org ("liteshow-" ++ project_id p) "liteshow") = None ->
  cp_fault E (PostAuthToken org ("liteshow-" ++ project_id p) "never" "full-access") = None ->
  pg_update_fault E (project_id p) = None ->
  cp_fault E (DeleteDatabase org ("liteshow-" ++ slug p)) = None ->
  let out := migrate_project E p tok org false s in
  fst out = Ret true
  /\ In msg_copy_failed (stdout (snd out))
  /\ dp_written (snd out) = dp_written s
  /\ db_present (cp_dbs (snd out)) org ("liteshow-" ++ slug p) = false
  /\ pg_projects (snd out)
     = pg_update (project_id p) (cp_hostname E org ("liteshow-" ++ project_id p))
         (cp_jwt E org ("liteshow-" ++ project_id p)) (pg_projects s).
Proof.
  intros Hi P1 P2 F1 F2 F3 F4 Hf Hd out.
  destruct (exists_answer_served E (cp_dbs s) org _ F1) as (r1 & H1 & S1).
  destruct (exists_answer_served E (cp_dbs s) org _ F2) as (r2 & H2 & S2).
  rewrite P1 in S1. rewrite P2 in S2. apply Z.eqb_eq in S1. apply Z.eqb_neq in S2.
  set (d := after_checks p tok org false s).
  set (sc := add_line d ("  Creating new database: " ++ "liteshow-" ++ project_id p)).
  set (u := cp_hostname E org ("liteshow-" ++ project_id p)).
  set (t := cp_jwt E org ("liteshow-" ++ project_id p)).
  assert (Hobs : cp_dbs sc = cp_dbs s /\ pg_projects sc = pg_projects s
                 /\ dp_written sc = dp_written s /\ calls sc
                    = (calls s ++ existence_checks p tok org)%list).
  { subst sc d. cbn [cp_dbs pg_projects dp_written calls add_line]. unfold after_checks.
    autorewrite with obs. auto. }
  destruct Hobs as (Hdbs & Hpg & Hdw & Hcalls).
  rewrite <- Hdbs in P2.
  pose proof (create_served E ("liteshow-" ++ project_id p) tok org sc F3 F4 P2) as Hc.
  fold u t in Hc.
  set (s3 := created tok org ("liteshow-" ++ project_id p) sc) in *.
  pose proof (@copy_without_libsql E (turso_db_url p) (turso_db_token p) u t
                (before_copy u s3) Hi) as Hcopy.
  set (s5 := add_lines (before_copy u s3) _) in Hcopy.
  subst out. rewrite (migrate_project_full E p tok org s H1 H2 S1 S2).
  unfold guarded_steps, try_except. fold d.
  rewrite (migration_steps_run E p tok org d Hc Hcopy).
  pose proof (guarded_update_and_delete E p tok org u t (add_line s5 msg_copy_failed)) as G.
  cbv zeta in G. unfold try_except in G.
  destruct G as (G0 & _ & _ & G3).
  destruct (G3 Hf) as (K1 & K2 & _ & K4 & K5 & _).
  destruct (serve_delete_served E (cp_dbs (add_line s5 msg_copy_failed)) org
              ("liteshow-" ++ slug p) Hd) as ((r & Hr & _) & Hgone & _).
  split; [exact (K5 r Hr)|].
  split; [apply G0; simpl; apply in_or_app; right; left; reflexivity|].
  split.
  { rewrite K2. subst s5 s3. cbn [dp_written add_line]. unfold before_copy, created.
    autorewrite with obs. cbn [dp_written add_call set_cp_dbs]. exact Hdw. }
  split; [rewrite K4; exact Hgone|].
  rewrite K1. subst s5 s3. cbn [pg_projects add_line]. unfold before_copy, created.
  autorewrite with obs. cbn [pg_projects add_call set_cp_dbs]. rewrite Hpg. reflexivity.
Qed.

(** *** A migration with the asyncio client *)

(** X13. With the client library as it is, the old data is lost too.  When
    [libsql_client] is installed, the construction of the client of the
    old database raises, as it does without an event loop, and every
    service answers, the migration prints the error of the copy and that
    the copy failed, still points the catalog row at the new database,
    deletes the old database and returns [True], while the data plane has
    not received a single statement. *)
Theorem migration_without_event_loop E p tok org s msg :
  libsql_installed E = true ->
  dp_connect E ("libsql://" ++ str_opt (turso_db_url p)) = Some msg ->
  db_present (cp_dbs s) org ("liteshow-" ++ slug p) = true ->
  db_present (cp_dbs s) org ("liteshow-" ++ project_id p) = false ->
  cp_fault E (GetDatabase org ("liteshow-" ++ slug p)) = None ->
  cp_fault E (GetDatabase org ("liteshow-" ++ project_id p)) = None ->
  cp_fault E (PostDatabase org ("liteshow-" ++ project_id p) "liteshow") = None ->
  cp_fault E (PostAuthToken org ("liteshow-" ++ project_id p) "never" "full-access") = None ->
  pg_update_fault E (project_id p) = None ->
  cp_fault E (DeleteDatabase org ("liteshow-" ++ slug p)) = None ->
  let out := migrate_project E p tok org false s in
  fst out = Ret true
  /\ In ("  ERROR copying data: " ++ msg) (stdout (snd out))
  /\ In msg_copy_failed (stdout (snd out))
  /\ dp_written (snd out) = dp_written s
  /\ db_present (cp_dbs (snd out)) org ("liteshow-" ++ slug p) = false
  /\ pg_projects (snd out)
     = pg_update (project_id p) (cp_hostname E org ("liteshow-" ++ project_id p))
         (cp_jwt E org ("liteshow-" ++ project_id p)) (pg_projects s).
Proof.
  intros Hi Hconn P1 P2 F1 F2 F3 F4 Hf Hd out.
  destruct (exists_answer_served E (cp_dbs s) org _ F1) as (r1 & H1 & S1).
  destruct (exists_answer_served E (cp_dbs s) org _ F2) as (r2 & H2 & S2).
  rewrite P1 in S1. rewrite P2 in S2. apply Z.eqb_eq in S1. apply Z.eqb_neq in S2.
  set (d := after_checks p tok org false s).
  set (sc := add_line d ("  Creating new database: " ++ "liteshow-" ++ project_id p)).
  set (u := cp_hostname E org ("liteshow-" ++ project_id p)).
  set (t := cp_jwt E org ("liteshow-" ++ project_id p)).
  assert (Hobs : cp_dbs sc = cp_dbs s /\ pg_projects sc = pg_projects s
                 /\ dp_written sc = dp_written s).
  { subst sc d. cbn [cp_dbs pg_projects dp_written add_line]. unfold after_checks.
    autorewrite with obs. auto. }
  destruct Hobs as (Hdbs & Hpg & Hdw).
  rewrite <- Hdbs in P2.
  pose proof (create_served E ("liteshow-" ++ project_id p) tok org sc F3 F4 P2) as Hc.
  fold u t in Hc.
  set (s3 := created tok org ("liteshow-" ++ project_id p) sc) in *.
  pose proof (@copy_client_not_built E (turso_db_url p) (turso_db_token p) u t
                (before_copy u s3) msg Hi Hconn) as Hcopy.
  set (s5 := add_line (before_copy u s3) _) in Hcopy.
  subst out. rewrite (migrate_project_full E p tok org s H1 H2 S1 S2).
  unfold guarded_steps, try_except. fold d.
  rewrite (migration_steps_run E p tok org d Hc Hcopy).
  pose proof (guarded_update_and_delete E p tok org u t (add_line s5 msg_copy_failed)) as G.
  cbv zeta in G. unfold try_except in G.
  destruct G as (G0 & _ & _ & G3).
  destruct (G3 Hf) as (K1 & K2 & _ & K4 & K5 & _).
  destruct (serve_delete_served E (cp_dbs (add_line s5 msg_copy_failed)) org
              ("liteshow-" ++ slug p) Hd) as ((r & Hr & _) & Hgone & _).
  split; [exact (K5 r Hr)|].
  split.
  { apply G0. subst s5. cbn [stdout add_line]. apply in_or_app. left.
    apply in_or_app. right. left. reflexivity. }
  split; [apply G0; simpl; apply in_or_app; right; left; reflexivity|].
  split.
  { rewrite K2. subst s5 s3. cbn [dp_written add_line]. unfold before_copy, created.
    autorewrite with obs. cbn [dp_written add_call set_cp_dbs]. exact Hdw. }
  split; [rewrite K4; exact Hgone|].
  rewrite K1. subst s5 s3. cbn [pg_projects add_line]. unfold before_copy, created.
  autorewrite with obs. cbn [pg_projects add_call set_cp_dbs]. rewrite Hpg. reflexivity.
Qed.

(** *** The setup of [main] *)

(** X8. [main] exits before any project when its setup is missing: with no
    (or an empty) [TURSO_API_TOKEN], with no (or an empty) [DATABASE_URL],
    or with a catalog that fails the listing, [sys.exit(1)] ends the run;
    no control-plane call is made, no project is looked at and nothing is
    changed. *)
Theorem main_exits_on_missing_setup E argv s :
  truthy (env_TURSO_API_TOKEN E) = false
  \/ truthy (env_DATABASE_URL E) = false
  \/ pg_select_fault E <> None ->
  fst (main E argv s) = Raise (mkExc SystemExitC "1")
  /\ same_world s (snd (main E argv s))
  /\ (forall c, In c (calls (snd (main E argv s))) -> In c (calls s) \/ c = PgSelectProjects).
Proof.
  intros Hsetup.
  assert (Hmain : exists s',
             main E argv s = (Raise (mkExc SystemExitC "1"), s')
             /\ same_world s s'
             /\ (forall c, In c (calls s') -> In c (calls s) \/ c = PgSelectProjects)).
  { unfold main.
    set (dry := existsb (String.eqb "--dry-run") argv). clearbody dry.
    rewrite bind_run.
    assert (H0 : exists s0, (if dry
                             then print rule ;;
                                  print "DRY RUN MODE - No changes will be made" ;;
                                  print rule
                             else ret tt) s = (Ret tt, s0)
                            /\ same_world s s0 /\ calls s0 = calls s).
    { destruct dry; eexists; (split; [reflexivity|]); unfold same_world; simpl; auto. }
    destruct H0 as (s0 & -> & (W1 & W2 & W3) & Hc0).
    rewrite bind_run. unfold print at 1. rewrite bind_run. unfold print at 1.
    rewrite bind_run. unfold get_turso_credentials at 1.
    destruct (env_TURSO_API_TOKEN E) as [t|] eqn:Ht; [destruct (t =? "") eqn:Hte|].
    - eexists. split; [reflexivity|]. unfold same_world. simpl. split; [auto|].
      intros c Hc. left. rewrite <- Hc0. exact Hc.
    - unfold ret at 1.
      rewrite bind_run. unfold print at 1. rewrite bind_run. unfold print at 1.
      rewrite bind_run. unfold get_all_projects at 1.
      destruct (truthy (env_DATABASE_URL E)) eqn:Hdb; cbn [negb].
      + destruct (pg_select_fault E) as [msg|] eqn:Hpg.
        * unfold try_except, bind, log_call, raise, print, sys_exit.
          cbn [is_Exception exc_class].
          eexists. split; [reflexivity|]. unfold same_world. simpl. split; [auto|].
          intros c Hc. rewrite Hc0 in Hc. apply in_app_or in Hc.
          destruct Hc as [Hc|[<-|[]]]; auto.
        * exfalso. destruct Hsetup as [H|[H|H]].
          -- simpl in H. rewrite Hte in H. discriminate H.
          -- discriminate H.
          -- apply H. reflexivity.
      + eexists. split; [reflexivity|]. unfold same_world. simpl. split; [auto|].
        intros c Hc. left. rewrite <- Hc0. exact Hc.
    - eexists. split; [reflexivity|]. unfold same_world. simpl. split; [auto|].
      intros c Hc. left. rewrite <- Hc0. exact Hc. }
  destruct Hmain as (s' & -> & Hw & Hc). auto.
Qed.

(** *** A dry run of the fleet *)

Lemma only_looked_refl s : only_looked s s.
Proof. unfold only_looked, same_world. auto. Qed.

Lemma only_looked_trans s1 s2 s3 :
  only_looked s1 s2 -> only_looked s2 s3 -> only_looked s1 s3.
Proof.
  unfold only_looked, same_world.
  intros ((A1 & A2 & A3) & A4) ((B1 & B2 & B3) & B4). repeat split; congruence.
Qed.

Lemma only_looked_line s l : only_looked s (add_line s l).
Proof. unfold only_looked, same_world. simpl. auto. Qed.

Ltac looked_print :=
  apply keeps_bind; [apply only_looked_trans | apply keeps_print, only_looked_line | intros _].

(** X10. [main --dry-run] only looks: wherever [--dry-run] stands among the
    arguments and whatever the services answer, the run creates and deletes
    no database, writes no statement, updates no catalog row and makes no
    mutating call, whether it reaches its summary or not. *)
Theorem dry_main_only_looks E argv s :
  In "--dry-run" argv -> only_looked s (snd (main E argv s)).
Proof.
  intros Hin.
  assert (Hdry : existsb (String.eqb "--dry-run") argv = true).
  { apply existsb_exists. exists "--dry-run". split; [exact Hin | apply String.eqb_refl]. }
  assert (Hk : keeps only_looked (fun _ => true) (main E argv)).
  { unfold main. rewrite Hdry.
    apply keeps_bind; [apply only_looked_trans | | intros _].
    { looked_print. looked_print. apply keeps_print, only_looked_line. }
    looked_print. looked_print.
    apply keeps_bind; [apply only_looked_trans | | intros [api_token org]].
    { unfold get_turso_credentials.
      destruct (env_TURSO_API_TOKEN E) as [t|]; [destruct (t =? "")|].
      - looked_print. apply keeps_raise; [apply only_looked_refl | reflexivity].
      - apply keeps_ret, only_looked_refl.
      - looked_print. apply keeps_raise; [apply only_looked_refl | reflexivity]. }
    looked_print. looked_print.
    apply keeps_bind; [apply only_looked_trans | | intros projects].
    { unfold get_all_projects.
      destruct (negb (truthy (env_DATABASE_URL E))).
      - looked_print. apply keeps_raise; [apply only_looked_refl | reflexivity].
      - apply keeps_try; [apply only_looked_trans | |].
        + intros s0. unfold bind, log_call.
          assert (Hl : only_looked s0 (add_call s0 PgSelectProjects)).
          { unfold only_looked, same_world. simpl. rewrite filter_app. simpl.
            rewrite app_nil_r. auto. }
          destruct (pg_select_fault E); simpl; auto.
        + intros e. looked_print. apply keeps_raise; [apply only_looked_refl | reflexivity]. }
    looked_print.
    apply keeps_bind; [apply only_looked_trans | | intros [success_count skip_count]].
    { intros s0. split; [|auto]. apply dry_fleet_keeps_world. }
    looked_print. looked_print. looked_print. looked_print. looked_print. looked_print.
    looked_print.
    apply keeps_bind; [apply only_looked_trans | | intros _].
    { looked_print. apply keeps_print, only_looked_line. }
    apply keeps_ret, only_looked_refl. }
  apply Hk.
Qed.

(** *** The further properties on the scenarios *)

(** X4 on the blog: without the client library the migration completes,
    the catalog points at the new database, the old database is gone and no
    statement was written. *)
Lemma migration_without_libsql_witness :
  fst (migrate_project Scenario.no_libsql Scenario.blog "tok" "acme" false Scenario.fleet)
  = Ret true
  /\ In msg_copy_failed
       (stdout (snd (migrate_project Scenario.no_libsql Scenario.blog "tok" "acme" false
                       Scenario.fleet)))
  /\ dp_written (snd (migrate_project Scenario.no_libsql Scenario.blog "tok" "acme" false
                        Scenario.fleet))
     = dp_written Scenario.fleet
  /\ db_present (cp_dbs (snd (migrate_project Scenario.no_libsql Scenario.blog "tok" "acme"
                                false Scenario.fleet))) "acme" "liteshow-blog" = false
  /\ pg_projects (snd (migrate_project Scenario.no_libsql Scenario.blog "tok" "acme" false
                         Scenario.fleet))
     = [Scenario.blog_again; Scenario.shop].
Proof.
  exact (@migration_without_libsql Scenario.no_libsql Scenario.blog "tok" "acme"
           Scenario.fleet eq_refl eq_refl eq_refl eq_refl eq_refl eq_refl eq_refl eq_refl
           eq_refl).
Defined.

(** X7 on the blog: the token request is answered 500; the blog is left
    under both names and a dry run that follows skips it as a conflict. *)
Lemma token_failure_witness :
  fst (migrate_project Scenario.token_fails Scenario.blog "tok" "acme" false Scenario.fleet)
  = Ret false
  /\ db_present (cp_dbs (snd (migrate_project Scenario.token_fails Scenario.blog "tok" "acme"
                                false Scenario.fleet))) "acme" "liteshow-blog" = true
  /\ db_present (cp_dbs (snd (migrate_project Scenario.token_fails Scenario.blog "tok" "acme"
                                false Scenario.fleet))) "acme" "liteshow-p1" = true
  /\ pg_projects (snd (migrate_project Scenario.token_fails Scenario.blog "tok" "acme" false
                         Scenario.fleet))
     = [Scenario.blog; Scenario.shop]
  /\ dp_written (snd (migrate_project Scenario.token_fails Scenario.blog "tok" "acme" false
                        Scenario.fleet))
     = []
  /\ migrate_project Scenario.token_fails Scenario.blog "tok" "acme" true
       (snd (migrate_project Scenario.token_fails Scenario.blog "tok" "acme" false
               Scenario.fleet))
     = (Ret false,
        add_lines
          (after_checks Scenario.blog "tok" "acme" true
             (snd (migrate_project Scenario.token_fails Scenario.blog "tok" "acme" false
                     Scenario.fleet)))
          msg_conflict).
Proof.
  exact (@token_failure_leaves_conflict Scenario.token_fails Scenario.blog "tok" "acme" true
           Scenario.fleet (Responds (mkResponse 500 "could not issue token" None None))
           eq_refl eq_refl eq_refl eq_refl eq_refl eq_refl eq_refl).
Defined.

(** X8 without [TURSO_API_TOKEN]: [main] exits with status 1, the world is
    as it was and no call was made. *)
Lemma main_exits_witness :
  fst (main Scenario.no_api_token ["migrate_turso_db_names.py"] Scenario.fleet)
  = Raise (mkExc SystemExitC "1")
  /\ same_world Scenario.fleet
       (snd (main Scenario.no_api_token ["migrate_turso_db_names.py"] Scenario.fleet))
  /\ (forall c,
        In c (calls (snd (main Scenario.no_api_token ["migrate_turso_db_names.py"]
                            Scenario.fleet))) ->
        In c (calls Scenario.fleet) \/ c = PgSelectProjects).
Proof.
  exact (@main_exits_on_missing_setup Scenario.no_api_token ["migrate_turso_db_names.py"]
           Scenario.fleet (or_introl eq_refl)).
Defined.

(** X9 on the fleet with every service answering: the summary counts both
    projects and no failure. *)
Lemma fleet_run_witness :
  exists summary,
    fst (main Scenario.healthy ["migrate_turso_db_names.py"] Scenario.fleet) = Ret summary
    /\ total summary = 2
    /\ success_count summary + skip_count summary = total summary
    /\ fail_count summary = 0.
Proof.
  assert (Hne : "turso-api-token" <> "") by discriminate.
  assert (Ha : checks_answered Scenario.healthy "acme") by (intros n msg; discriminate).
  exact (@fleet_run_completes Scenario.healthy ["migrate_turso_db_names.py"] Scenario.fleet
           "turso-api-token" eq_refl Hne eq_refl eq_refl Ha).
Defined.

(** X10 on the fleet: a dry run of [main] only looks. *)
Lemma dry_main_witness :
  only_looked Scenario.fleet
    (snd (main Scenario.healthy ["migrate_turso_db_names.py"; "--dry-run"] Scenario.fleet)).
Proof.
  exact (@dry_main_only_looks Scenario.healthy ["migrate_turso_db_names.py"; "--dry-run"]
           Scenario.fleet (or_intror (or_introl eq_refl))).
Defined.

(** X12 on the blog: migrated, then run again dry. *)
Lemma migrate_twice_witness :
  fst (migrate_project Scenario.healthy Scenario.blog "tok" "acme" false Scenario.fleet)
  = Ret true
  /\ migrate_project Scenario.healthy Scenario.blog_again "tok" "acme" true
       Scenario.migrated
     = (Ret true,
        add_lines (after_checks Scenario.blog_again "tok" "acme" true Scenario.migrated)
          [msg_old_missing; msg_already_migrated])
  /\ same_world Scenario.migrated
       (snd (migrate_project Scenario.healthy Scenario.blog_again "tok" "acme" true
               Scenario.migrated))
  /\ filter mutating
       (calls (snd (migrate_project Scenario.healthy Scenario.blog_again "tok" "acme" true
                      Scenario.migrated)))
     = filter mutating (calls Scenario.migrated).
Proof.
  exact (@migrate_twice Scenario.healthy Scenario.blog Scenario.blog_again "tok" "acme" true
           Scenario.fleet eq_refl eq_refl eq_refl eq_refl eq_refl eq_refl eq_refl eq_refl
           eq_refl eq_refl).
Defined.

(** X13 on the blog, with the library as it is: the migration completes,
    the catalog points at the new database, the old database is gone and no
    statement was written. *)
Lemma migration_without_event_loop_witness :
  fst (migrate_project Scenario.healthy Scenario.blog "tok" "acme" false Scenario.fleet)
  = Ret true
  /\ In "  ERROR copying data: no running event loop"
       (stdout (snd (migrate_project Scenario.healthy Scenario.blog "tok" "acme" false
                       Scenario.fleet)))
  /\ In msg_copy_failed
       (stdout (snd (migrate_project Scenario.healthy Scenario.blog "tok" "acme" false
                       Scenario.fleet)))
  /\ dp_written (snd (migrate_project Scenario.healthy Scenario.blog "tok" "acme" false
                        Scenario.fleet))
     = []
  /\ db_present (cp_dbs (snd (migrate_project Scenario.healthy Scenario.blog "tok" "acme"
                                false Scenario.fleet))) "acme" "liteshow-blog" = false
  /\ pg_projects (snd (migrate_project Scenario.healthy Scenario.blog "tok" "acme" false
                         Scenario.fleet))
     = [Scenario.blog_again; Scenario.shop].
Proof.
  exact (@migration_without_event_loop Scenario.healthy Scenario.blog "tok" "acme"
           Scenario.fleet "no running event loop" eq_refl eq_refl eq_refl eq_refl eq_refl
           eq_refl eq_refl eq_refl eq_refl eq_refl).
Defined.

(** X14 on the blog: the create is answered 402; three requests were made
    and the fleet is as it was. *)
Lemma create_failure_witness :
  fst (migrate_project Scenario.create_fails Scenario.blog "tok" "acme" false Scenario.fleet)
  = Ret false
  /\ same_world Scenario.fleet
       (snd (migrate_project Scenario.create_fails Scenario.blog "tok" "acme" false
               Scenario.fleet))
  /\ calls (snd (migrate_project Scenario.create_fails Scenario.blog "tok" "acme" false
                   Scenario.fleet))
     = [ Http "tok" (GetDatabase "acme" "liteshow-blog");
         Http "tok" (GetDatabase "acme" "liteshow-p1");
         Http "tok" (PostDatabase "acme" "liteshow-p1" "liteshow") ]
  /\ stdout (snd (migrate_project Scenario.create_fails Scenario.blog "tok" "acme" false
                    Scenario.fleet))
     = (header Scenario.blog false
        ++ [ "  Creating new database: liteshow-p1";
             "  ❌ Migration failed: Failed to create database liteshow-p1: database limit reached" ])%list.
Proof.
  exact (@create_failure_changes_nothing Scenario.create_fails Scenario.blog "tok" "acme"
           Scenario.fleet (Responds (mkResponse 402 "database limit reached" None None))
           eq_refl eq_refl eq_refl eq_refl eq_refl eq_refl).
Defined.
